(** * ast37.c: the front door of the Python 3.7 compile pipeline

    A shallow embedding of [src/py37/ast/Custom/ast37.c]: the input
    normalizer [source_as_string], the flag translation [PARSER_FLAGS], the
    diagnostic translator [err_input], and the drivers
    [PyParser_ASTFromStringObject], [Py_CompileStringObject] and
    [ast37_compile_impl].

    The file calls into the CPython runtime (arena, parser, AST builder,
    validator, code generator, codecs).  Those functions are not part of the
    file: their answers are parameters of the development (class
    [Externals]), and the calls that make up the pipeline or handle a
    resource are recorded as [event]s, so that "the arena is freed exactly
    once" or "the parser is never called" are statements about the list of
    events of a run.  The numeric values of the macros of errcode.h, token.h,
    compile.h and parsetok.h are parameters too (class [Headers]). *)

From Stdlib Require Import ZArith List String Bool Lia.
From Stdlib Require Import Init.Byte.
Import ListNotations.
Local Open Scope string_scope.
Local Open Scope Z_scope.

Set Implicit Arguments.

(** ** Data *)

(** Handles of the runtime's tree and allocator objects. *)
Inductive PyArena := Arena (id : Z).
Inductive node := Node (id : Z).
Inductive mod_ty := Mod (id : Z).

(** The Python objects the file looks at.  [CStr_obj] is a [str] built from a
    C string (the [s] format of [Py_BuildValue], [PyErr_SetString]);
    [Unicode_obj] is a [str] given by its code points. *)
#[warnings="-register-all"]
Inductive PyObject :=
| None_obj
| Long_obj (z : Z)
| CStr_obj (s : string)
| Unicode_obj (cps : list Z)
| Bytes_obj (bs : list byte)
| ByteArray_obj (bs : list byte)
| AST_obj (id : Z)
| Code_obj (id : Z)
| Tuple_obj (items : list PyObject)
| Other_obj (id : Z).

Inductive exc_type :=
| PyExc_SyntaxError
| PyExc_IndentationError
| PyExc_TabError
| PyExc_ValueError
| PyExc_TypeError
| PyExc_KeyboardInterrupt
| PyExc_MemoryError
| PyExc_SystemError
| PyExc_Other (id : Z).

(** A pending exception: its type and its value (a NULL value is [None]). *)
Definition exn := (exc_type * option PyObject)%type.

(** [perrdetail] of parsetok.h.  [text] is the malloc'ed copy of the offending
    line, given by its bytes up to the terminating NUL. *)
Record perrdetail := {
  error : Z;
  filename : option PyObject;
  lineno : Z;
  offset : Z;
  text : option (list byte);
  token : Z;
  expected : Z
}.

Definition set_text (err : perrdetail) (t : option (list byte)) : perrdetail :=
  {| error := error err; filename := filename err; lineno := lineno err;
     offset := offset err; text := t; token := token err;
     expected := expected err |}.

Definition set_filename (err : perrdetail) (f : option PyObject) : perrdetail :=
  {| error := error err; filename := f; lineno := lineno err;
     offset := offset err; text := text err; token := token err;
     expected := expected err |}.

(** What [PyParser_ParseStringObject] hands back: the tree or NULL, the error
    record it filled in, the parser flags it wrote back through [&iflags], and
    the exception it left pending, if any (a decoding failure does). *)
Record parse_outcome := {
  po_node : option node;
  po_err : perrdetail;
  po_flags : Z;
  po_exn : option exn
}.

(** ** Macros of the headers *)

Class Headers := {
  (* errcode.h *)
  E_OK : Z; E_EOF : Z; E_INTR : Z; E_TOKEN : Z; E_SYNTAX : Z; E_NOMEM : Z;
  E_DONE : Z; E_ERROR : Z; E_TABSPACE : Z; E_OVERFLOW : Z; E_TOODEEP : Z;
  E_DEDENT : Z; E_DECODE : Z; E_EOFS : Z; E_EOLS : Z; E_LINECONT : Z;
  E_IDENTIFIER : Z; E_BADSINGLE : Z;
  (* token.h *)
  INDENT : Z; DEDENT : Z; NOTEQUAL : Z;
  (* compile.h, code.h *)
  PyCF_MASK : Z; PyCF_MASK_OBSOLETE : Z; PyCF_SOURCE_IS_UTF8 : Z;
  PyCF_DONT_IMPLY_DEDENT : Z; PyCF_ONLY_AST : Z; PyCF_IGNORE_COOKIE : Z;
  CO_FUTURE_BARRY_AS_BDFL : Z;
  Py_single_input : Z; Py_file_input : Z; Py_eval_input : Z;
  (* parsetok.h *)
  PyPARSE_DONT_IMPLY_DEDENT : Z; PyPARSE_IGNORE_COOKIE : Z;
  PyPARSE_BARRY_AS_BDFL : Z
}.

(** ** Events *)

Inductive event :=
| EvArenaNew (r : option PyArena)
| EvArenaFree (a : PyArena)
| EvParse (s : list byte) (fname : PyObject) (start : Z) (iflags : Z)
| EvFromNode (n : node) (cf_flags : Z) (fname : PyObject) (a : PyArena)
| EvNodeFree (n : node)
| EvObj2mod (o : PyObject) (a : PyArena) (mode : Z)
| EvMod2obj (m : mod_ty)
| EvValidate (m : mod_ty) (accepted : bool)
| EvCompile (m : mod_ty) (fname : PyObject) (cf_flags : option Z)
            (optimize : Z) (a : PyArena)
| EvMergeFlags (cf_flags : Z)
| EvDecodeUTF8 (s : list byte) (size : Z) (errors : string)
| EvObjectFree (p : list byte)
| EvBufferRelease (o : PyObject)
| EvIncref (o : PyObject)
| EvDecref (o : PyObject)
| EvStderr (s : string) (arg : Z)
| EvSetObject (t : exc_type) (w : option PyObject).

(** ** The runtime functions the file calls *)

Class Externals := {
  PyArena_New_ext : exn + PyArena;
  PyParser_ParseStringObject_ext :
    list byte -> PyObject -> Z -> Z -> parse_outcome;
  PyAST_FromNodeObject_ext : node -> Z -> PyObject -> PyArena -> exn + mod_ty;
  PyAST_Check_ext : PyObject -> exn + bool;
  PyAST_obj2mod_ext : PyObject -> PyArena -> Z -> exn + mod_ty;
  PyAST_mod2obj_ext : mod_ty -> exn + PyObject;
  PyAST_Validate_ext : mod_ty -> exn + unit;
  PyAST_CompileObject_ext :
    mod_ty -> PyObject -> option Z -> Z -> PyArena -> exn + PyObject;
  (* the future flags of the enclosing frame, already masked *)
  ambient_compiler_flags : Z;
  PyUnicode_AsUTF8AndSize_ext : PyObject -> exn + list byte;
  PyObject_GetBuffer_ext : PyObject -> exn + list byte;
  (* [PyBytes_FromStringAndSize] running out of memory on these bytes *)
  PyBytes_FromStringAndSize_ext : list byte -> option exn;
  PyUnicode_DecodeUTF8_ext : list byte -> Z -> string -> exn + list Z;
  PyObject_Str_ext : PyObject -> exn + PyObject;
  (* [Py_BuildValue] running out of memory on these items *)
  Py_BuildValue_ext : list PyObject -> option exn
}.

(** ** The monad: pending exception in, result, pending exception and events
    out *)

Record outcome (A : Type) := {
  value : A;
  pending : option exn;
  events : list event
}.

Definition M (A : Type) := option exn -> outcome A.

Definition ret {A} (a : A) : M A :=
  fun e => {| value := a; pending := e; events := [] |}.

Definition bind {A B} (m : M A) (f : A -> M B) : M B :=
  fun e =>
    let r := m e in
    let r' := f (value r) (pending r) in
    {| value := value r'; pending := pending r';
       events := events r ++ events r' |}.

Declare Scope cpy_scope.
Delimit Scope cpy_scope with cpy.
Notation "x <- m ;; k" := (bind m (fun x => k))
  (at level 61, m at next level, right associativity) : cpy_scope.
Notation "m ;; k" := (bind m (fun _ => k))
  (at level 61, right associativity) : cpy_scope.
Local Open Scope cpy_scope.

Definition emit (ev : event) : M unit :=
  fun e => {| value := tt; pending := e; events := [ev] |}.

Definition raise (x : exn) : M unit :=
  fun _ => {| value := tt; pending := Some x; events := [] |}.

Definition PyErr_Occurred : M bool :=
  fun e => {| value := match e with Some _ => true | None => false end;
              pending := e; events := [] |}.

(** [PyErr_Fetch]: hands over the pending exception and clears it. *)
Definition PyErr_Fetch : M (option exn) :=
  fun e => {| value := e; pending := None; events := [] |}.

Definition PyErr_SetString (t : exc_type) (msg : string) : M unit :=
  raise (t, Some (CStr_obj msg)).

(** [PyErr_SetObject] is also recorded as an event, to speak of the value
    [err_input] built. *)
Definition PyErr_SetObject (t : exc_type) (w : option PyObject) : M unit :=
  fun _ => {| value := tt; pending := Some (t, w);
              events := [EvSetObject t w] |}.

Definition PyErr_SetNone (t : exc_type) : M unit := raise (t, None).

Definition PyErr_NoMemory : M unit := raise (PyExc_MemoryError, None).

(** A runtime call that fails by raising: NULL and the exception pending. *)
Definition call {A} (ev : list event) (r : exn + A) : M (option A) :=
  fun e =>
    match r with
    | inr a => {| value := Some a; pending := e; events := ev |}
    | inl x => {| value := None; pending := Some x; events := ev |}
    end.

Definition Py_INCREF (o : PyObject) : M unit := emit (EvIncref o).
Definition Py_DECREF (o : PyObject) : M unit := emit (EvDecref o).
Definition Py_XDECREF (o : option PyObject) : M unit :=
  match o with Some p => emit (EvDecref p) | None => ret tt end.

(** C's [switch] on an [int]: the first matching label, else [default]. *)
Fixpoint switch {A} (scrutinee : Z) (cases : list (Z * A)) (default : A) : A :=
  match cases with
  | [] => default
  | (label, body) :: rest =>
      if scrutinee =? label then body else switch scrutinee rest default
  end.

(** [strlen] on a buffer whose content (before the terminator the runtime
    appends) is [s]: the bytes before the first NUL. *)
Fixpoint strlen (s : list byte) : Z :=
  match s with
  | [] => 0
  | b :: rest => if Byte.eqb b x00 then 0 else 1 + strlen rest
  end.

(** The cast [(int)] of a [Py_ssize_t]. *)
Definition int_of_ssize (z : Z) : Z :=
  (z + 2147483648) mod 4294967296 - 2147483648.

Definition nonzero (z : Z) : bool := negb (z =? 0).

(** ** The functions of ast37.c *)

Section Ast37.

Context {H : Headers} {X : Externals}.

Definition PyUnicode_Check (o : PyObject) : bool :=
  match o with CStr_obj _ | Unicode_obj _ => true | _ => false end.

Definition Py_CLEAR (o : option PyObject) : M (option PyObject) :=
  Py_XDECREF o ;; ret None.

(** [Py_BuildValue] on object items: NULL with SystemError (unless an
    exception is pending already) when an item is NULL, NULL with the
    allocator's exception when memory runs out, the tuple otherwise. *)
Fixpoint all_some {A} (l : list (option A)) : option (list A) :=
  match l with
  | [] => Some []
  | None :: _ => None
  | Some a :: rest =>
      match all_some rest with Some r => Some (a :: r) | None => None end
  end.

Definition Py_BuildValue (items : list (option PyObject)) : M (option PyObject) :=
  match all_some items with
  | None =>
      occurred <- PyErr_Occurred ;;
      (if occurred then ret tt
       else PyErr_SetString PyExc_SystemError
              "NULL object passed to Py_BuildValue") ;;
      ret None
  | Some objs =>
      match Py_BuildValue_ext objs with
      | Some x => raise x ;; ret None
      | None => ret (Some (Tuple_obj objs))
      end
  end.

Definition PyUnicode_DecodeUTF8 (s : list byte) (size : Z) (errors : string)
  : M (option PyObject) :=
  r <- call [EvDecodeUTF8 s size errors] (PyUnicode_DecodeUTF8_ext s size errors) ;;
  ret (option_map Unicode_obj r).

Definition PyUnicode_GET_LENGTH (o : PyObject) : Z :=
  match o with
  | Unicode_obj cps => Z.of_nat (List.length cps)
  | CStr_obj s => Z.of_nat (String.length s)
  | _ => 0
  end.

(** Modelled from the spec: [PyEval_MergeCompilerFlags] lives in ceval.c,
    outside this file; "ambient compiler flags from the enclosing execution
    context are merged in before parsing".  The bits it merges in are the
    parameter [ambient_compiler_flags]. *)
Definition PyEval_MergeCompilerFlags (cf_flags : Z) : M Z :=
  emit (EvMergeFlags cf_flags) ;;
  ret (Z.lor cf_flags ambient_compiler_flags).

(** *** source_as_string *)

(** Returns [str], the updated [cf->cf_flags] and [*cmd_copy]. *)
Definition source_as_string (cmd : PyObject) (funcname what : string)
    (cf_flags : Z) : M (option (list byte) * Z * option PyObject) :=
  let check_nul (str : list byte) (size : Z) (cf_flags : Z)
                (cmd_copy : option PyObject) :=
    if negb (strlen str =? size) then
      PyErr_SetString PyExc_ValueError
        "source code string cannot contain null bytes" ;;
      cmd_copy <- Py_CLEAR cmd_copy ;;
      ret (None, cf_flags, cmd_copy)
    else ret (Some str, cf_flags, cmd_copy) in
  let cmd_copy : option PyObject := None in
  if PyUnicode_Check cmd then
    let cf_flags := Z.lor cf_flags PyCF_IGNORE_COOKIE in
    str <- call [] (PyUnicode_AsUTF8AndSize_ext cmd) ;;
    match str with
    | None => ret (None, cf_flags, cmd_copy)
    | Some str => check_nul str (Z.of_nat (List.length str)) cf_flags cmd_copy
    end
  else
    match cmd with
    | Bytes_obj bs => check_nul bs (Z.of_nat (List.length bs)) cf_flags cmd_copy
    | ByteArray_obj bs => check_nul bs (Z.of_nat (List.length bs)) cf_flags cmd_copy
    | _ =>
        view <- call [] (PyObject_GetBuffer_ext cmd) ;;
        match view with
        | Some buf =>
            (* Copy to NUL-terminated buffer. *)
            cmd_copy <- call [] (match PyBytes_FromStringAndSize_ext buf with
                                 | None => inr (Bytes_obj buf)
                                 | Some x => inl x
                                 end) ;;
            emit (EvBufferRelease cmd) ;;
            match cmd_copy with
            | None => ret (None, cf_flags, None)
            | Some c =>
                check_nul buf (Z.of_nat (List.length buf)) cf_flags (Some c)
            end
        | None =>
            PyErr_SetString PyExc_TypeError
              (funcname ++ "() arg 1 must be a " ++ what ++ " object") ;;
            ret (None, cf_flags, cmd_copy)
        end
    end.

(** *** PARSER_FLAGS *)

(* compute parser flags based on compiler flags *)
Definition PARSER_FLAGS (flags : option Z) : Z :=
  let parser_flags := 0 in
  match flags with
  | None => 0
  | Some cf_flags =>
      let parser_flags :=
        if nonzero (Z.land cf_flags PyCF_DONT_IMPLY_DEDENT)
        then Z.lor parser_flags PyPARSE_DONT_IMPLY_DEDENT else parser_flags in
      let parser_flags :=
        if nonzero (Z.land cf_flags PyCF_IGNORE_COOKIE)
        then Z.lor parser_flags PyPARSE_IGNORE_COOKIE else parser_flags in
      let parser_flags :=
        if nonzero (Z.land cf_flags CO_FUTURE_BARRY_AS_BDFL)
        then Z.lor parser_flags PyPARSE_BARRY_AS_BDFL else parser_flags in
      parser_flags
  end.

(** *** err_input *)

(** How the [switch] of [err_input] is left: by [goto cleanup], or by [break]
    with the values of [errtype], [msg] and [msg_obj]. *)
Inductive switch_exit :=
| Goto_cleanup
| Break (errtype : exc_type) (msg : string) (msg_obj : option PyObject).

Definition err_input_cases (err : perrdetail) : list (Z * M switch_exit) :=
  let errtype := PyExc_SyntaxError in
  [ (E_ERROR, ret Goto_cleanup);
    (E_SYNTAX,
      let errtype := PyExc_IndentationError in
      if expected err =? INDENT then
        ret (Break errtype "expected an indented block" None)
      else if token err =? INDENT then
        ret (Break errtype "unexpected indent" None)
      else if token err =? DEDENT then
        ret (Break errtype "unexpected unindent" None)
      else if expected err =? NOTEQUAL then
        let errtype := PyExc_SyntaxError in
        ret (Break errtype "with Barry as BDFL, use '<>' instead of '!='" None)
      else
        let errtype := PyExc_SyntaxError in
        ret (Break errtype "invalid syntax" None));
    (E_TOKEN, ret (Break errtype "invalid token" None));
    (E_EOFS,
      ret (Break errtype "EOF while scanning triple-quoted string literal" None));
    (E_EOLS, ret (Break errtype "EOL while scanning string literal" None));
    (E_INTR,
      occurred <- PyErr_Occurred ;;
      (if negb occurred then PyErr_SetNone PyExc_KeyboardInterrupt
       else ret tt) ;;
      ret Goto_cleanup);
    (E_NOMEM, PyErr_NoMemory ;; ret Goto_cleanup);
    (E_EOF, ret (Break errtype "unexpected EOF while parsing" None));
    (E_TABSPACE,
      let errtype := PyExc_TabError in
      ret (Break errtype
             "inconsistent use of tabs and spaces in indentation" None));
    (E_OVERFLOW, ret (Break errtype "expression too long" None));
    (E_DEDENT,
      let errtype := PyExc_IndentationError in
      ret (Break errtype
             "unindent does not match any outer indentation level" None));
    (E_TOODEEP,
      let errtype := PyExc_IndentationError in
      ret (Break errtype "too many levels of indentation" None));
    (E_DECODE,
      fetched <- PyErr_Fetch ;;
      let value := match fetched with Some (_, v) => v | None => None end in
      let msg := "unknown decode error" in
      msg_obj <- match value with
                 | Some v => call [] (PyObject_Str_ext v)
                 | None => ret None
                 end ;;
      (* type and tb are not objects of this model *)
      Py_XDECREF value ;;
      ret (Break errtype msg msg_obj));
    (E_LINECONT,
      ret (Break errtype
             "unexpected character after line continuation character" None));
    (E_IDENTIFIER,
      ret (Break errtype "invalid character in identifier" None));
    (E_BADSINGLE,
      ret (Break errtype
             "multiple statements found while compiling a single statement"
             None)) ].

Definition err_input_default (err : perrdetail) : M switch_exit :=
  emit (EvStderr "error=%d\n" (error err)) ;;
  ret (Break PyExc_SyntaxError "unknown parsing error" None).

(** The [cleanup:] label. *)
Definition err_input_cleanup (err : perrdetail) (msg_obj : option PyObject)
  : M perrdetail :=
  Py_XDECREF msg_obj ;;
  match text err with
  | Some t => emit (EvObjectFree t) ;; ret (set_text err None)
  | None => ret err
  end.

(** The decoding of [err->text]: the object [errtext] and the value of the
    local [offset] (here [offset_]) after it. *)
Definition err_input_errtext (err : perrdetail) : M (option PyObject * Z) :=
  let offset_ := offset err in
  match text err with
  | None => Py_INCREF None_obj ;; ret (Some None_obj, offset_)
  | Some t =>
      errtext <- PyUnicode_DecodeUTF8 t (offset err) "replace" ;;
      match errtext with
      | Some u =>
          let len := strlen t in
          let offset_ := int_of_ssize (PyUnicode_GET_LENGTH u) in
          if negb (len =? offset err) then
            Py_DECREF u ;;
            errtext <- PyUnicode_DecodeUTF8 t len "replace" ;;
            ret (errtext, offset_)
          else ret (Some u, offset_)
      | None => ret (None, offset_)
      end
  end.

(** From the end of the [switch] to the [cleanup:] label: build the value
    [w] and set the exception. *)
Definition err_input_report (err : perrdetail) (errtype : exc_type)
    (msg : string) (msg_obj : option PyObject) : M unit :=
  (* err->text may not be UTF-8 in case of decoding errors.
     Explicitly convert to an object. *)
  decoded <- err_input_errtext err ;;
  let '(errtext, offset_) := decoded in
  v <- Py_BuildValue [filename err; Some (Long_obj (lineno err));
                      Some (Long_obj offset_); errtext] ;;
  w <- match v with
       | Some v' =>
           match msg_obj with
           | Some m => Py_BuildValue [Some m; Some v']
           | None => Py_BuildValue [Some (CStr_obj msg); Some v']
           end
       | None => ret None
       end ;;
  Py_XDECREF v ;;
  PyErr_SetObject errtype w ;;
  Py_XDECREF w.

(* Set the error appropriate to the given input error code (see errcode.h) *)
Definition err_input (err : perrdetail) : M perrdetail :=
  exit <- switch (error err) (err_input_cases err) (err_input_default err) ;;
  match exit with
  | Goto_cleanup => err_input_cleanup err None
  | Break errtype msg msg_obj =>
      err_input_report err errtype msg msg_obj ;;
      err_input_cleanup err msg_obj
  end.

Definition err_free (err : perrdetail) : M perrdetail :=
  f <- Py_CLEAR (filename err) ;;
  ret (set_filename err f).

(** *** The drivers *)

Definition PyArena_New : M (option PyArena) :=
  call [EvArenaNew (match PyArena_New_ext with inr a => Some a | inl _ => None end)]
       PyArena_New_ext.

Definition PyArena_Free (arena : PyArena) : M unit := emit (EvArenaFree arena).

(** The parser fills in [err], writes [iflags] back, and may leave an
    exception pending. *)
Definition PyParser_ParseStringObject (s : list byte) (fname : PyObject)
    (start : Z) (iflags : Z) : M (option node * perrdetail * Z) :=
  let po := PyParser_ParseStringObject_ext s fname start iflags in
  emit (EvParse s fname start iflags) ;;
  match po_exn po with Some x => raise x | None => ret tt end ;;
  ret (po_node po, po_err po, po_flags po).

Definition PyAST_FromNodeObject (n : node) (cf_flags : Z) (fname : PyObject)
    (arena : PyArena) : M (option mod_ty) :=
  call [EvFromNode n cf_flags fname arena]
       (PyAST_FromNodeObject_ext n cf_flags fname arena).

Definition PyNode_Free (n : node) : M unit := emit (EvNodeFree n).

Definition PyAST_mod2obj (m : mod_ty) : M (option PyObject) :=
  call [EvMod2obj m] (PyAST_mod2obj_ext m).

Definition PyAST_obj2mod (o : PyObject) (arena : PyArena) (mode : Z)
  : M (option mod_ty) :=
  call [EvObj2mod o arena mode] (PyAST_obj2mod_ext o arena mode).

(** [PyAST_Validate]: 1 when the tree is accepted, 0 with an exception
    otherwise. *)
Definition PyAST_Validate (m : mod_ty) : M bool :=
  r <- call [EvValidate m (match PyAST_Validate_ext m with
                           | inr _ => true | inl _ => false end)]
            (PyAST_Validate_ext m) ;;
  ret (match r with Some _ => true | None => false end).

(** The external code generator. *)
Definition PyAST_CompileObject (m : mod_ty) (fname : PyObject)
    (flags : option Z) (optimize : Z) (arena : PyArena) : M (option PyObject) :=
  call [EvCompile m fname flags optimize arena]
       (PyAST_CompileObject_ext m fname flags optimize arena).

(** [PyAST_Check]: -1 (here [None], exception pending), 0 or 1. *)
Definition PyAST_Check (o : PyObject) : M (option bool) :=
  call [] (PyAST_Check_ext o).

(* Preferred access to parser is through AST. *)
(** Returns [mod] and the caller's [flags->cf_flags] as the call leaves it
    ([None] when [flags] is NULL). *)
Definition PyParser_ASTFromStringObject (s : list byte) (fname : PyObject)
    (start : Z) (flags : option Z) (arena : PyArena)
  : M (option mod_ty * option Z) :=
  let iflags := PARSER_FLAGS flags in
  parsed <- PyParser_ParseStringObject s fname start iflags ;;
  let '(n, err, iflags) := parsed in
  let cf_flags := match flags with Some f => f | None => 0 end in
  let back (f : Z) := match flags with Some _ => Some f | None => None end in
  match n with
  | Some n' =>
      let cf_flags := Z.lor cf_flags (Z.land iflags PyCF_MASK) in
      mod_ <- PyAST_FromNodeObject n' cf_flags fname arena ;;
      PyNode_Free n' ;;
      err_free err ;;
      ret (mod_, back cf_flags)
  | None =>
      err <- err_input err ;;
      err_free err ;;
      ret (None, back cf_flags)
  end.

Definition Py_CompileStringObject (str : list byte) (fname : PyObject)
    (start : Z) (flags : option Z) (optimize : Z)
  : M (option PyObject * option Z) :=
  arena <- PyArena_New ;;
  match arena with
  | None => ret (None, flags)
  | Some arena =>
      r <- PyParser_ASTFromStringObject str fname start flags arena ;;
      let '(mod_, flags) := r in
      match mod_ with
      | None => PyArena_Free arena ;; ret (None, flags)
      | Some m =>
          if match flags with
             | Some cf_flags => nonzero (Z.land cf_flags PyCF_ONLY_AST)
             | None => false
             end
          then
            result <- PyAST_mod2obj m ;;
            PyArena_Free arena ;;
            ret (result, flags)
          else
            co <- PyAST_CompileObject m fname flags optimize arena ;;
            PyArena_Free arena ;;
            ret (co, flags)
      end
  end.

(** The block of [ast37_compile_impl] that compiles a pre-built AST (the
    [else] branch under [if (is_ast)]): [None] is [goto error], also taken
    for a NULL [result]. *)
Definition ast37_compile_ast (source fname : PyObject) (compile_mode : Z)
    (cf_flags : Z) (optimize : Z) : M (option PyObject) :=
  arena <- PyArena_New ;;
  match arena with
  | None => ret None
  | Some arena =>
      mod_ <- PyAST_obj2mod source arena compile_mode ;;
      match mod_ with
      | None => PyArena_Free arena ;; ret None
      | Some m =>
          valid <- PyAST_Validate m ;;
          if negb valid then PyArena_Free arena ;; ret None
          else
            result <- PyAST_CompileObject m fname (Some cf_flags)
                        optimize arena ;;
            PyArena_Free arena ;;
            ret result
      end
  end.

(** The body of [ast37_compile_impl] up to the labels: [None] is
    [goto error], [Some r] is [goto finally] with [result = r]. *)
Definition ast37_compile_body (module source fname : PyObject) (mode : string)
    (flags dont_inherit optimize : Z) : M (option PyObject) :=
  let start := [Py_file_input; Py_eval_input; Py_single_input] in
  let cf_flags := Z.lor flags PyCF_SOURCE_IS_UTF8 in
  if nonzero (Z.land flags
                (Z.lnot (Z.lor (Z.lor (Z.lor PyCF_MASK PyCF_MASK_OBSOLETE)
                                      PyCF_DONT_IMPLY_DEDENT) PyCF_ONLY_AST)))
  then
    PyErr_SetString PyExc_ValueError "compile(): unrecognised flags" ;;
    ret None
  else if (optimize <? -1) || (optimize >? 2) then
    PyErr_SetString PyExc_ValueError "compile(): invalid optimize value" ;;
    ret None
  else
    cf_flags <- (if negb (nonzero dont_inherit)
                 then PyEval_MergeCompilerFlags cf_flags
                 else ret cf_flags) ;;
    let compile_mode :=
      if (mode =? "exec")%string then Some 0
      else if (mode =? "eval")%string then Some 1
      else if (mode =? "single")%string then Some 2
      else None in
    match compile_mode with
    | None =>
        PyErr_SetString PyExc_ValueError
          "compile() mode must be 'exec', 'eval' or 'single'" ;;
        ret None
    | Some compile_mode =>
        is_ast <- PyAST_Check source ;;
        match is_ast with
        | None => ret None
        | Some true =>
            if nonzero (Z.land flags PyCF_ONLY_AST) then
              Py_INCREF source ;;
              ret (Some source)
            else
              ast37_compile_ast source fname compile_mode cf_flags optimize
        | Some false =>
            r <- source_as_string source "compile" "string, bytes or AST"
                   cf_flags ;;
            let '(str, cf_flags, source_copy) := r in
            match str with
            | None => ret None
            | Some str =>
                r <- Py_CompileStringObject str fname
                       (nth (Z.to_nat compile_mode) start 0)
                       (Some cf_flags) optimize ;;
                Py_XDECREF source_copy ;;
                ret (fst r)
            end
        end
    end.

Definition ast37_compile_impl (module source fname : PyObject) (mode : string)
    (flags dont_inherit optimize : Z) : M (option PyObject) :=
  result <- ast37_compile_body module source fname mode flags dont_inherit
              optimize ;;
  Py_DECREF fname ;;
  ret result.

End Ast37.

(** ** A concrete setting: CPython 3.7's headers and a small runtime

    Used to run the functions on concrete inputs.  The theorems below hold
    for every [Headers] and every [Externals]. *)

Definition cpython37 : Headers := {|
  E_OK := 10; E_EOF := 11; E_INTR := 12; E_TOKEN := 13; E_SYNTAX := 14;
  E_NOMEM := 15; E_DONE := 16; E_ERROR := 17; E_TABSPACE := 18;
  E_OVERFLOW := 19; E_TOODEEP := 20; E_DEDENT := 21; E_DECODE := 22;
  E_EOFS := 23; E_EOLS := 24; E_LINECONT := 25; E_IDENTIFIER := 26;
  E_BADSINGLE := 27;
  INDENT := 5; DEDENT := 6; NOTEQUAL := 28;
  PyCF_MASK := 0x1FE000; PyCF_MASK_OBSOLETE := 0x0010;
  PyCF_SOURCE_IS_UTF8 := 0x0100; PyCF_DONT_IMPLY_DEDENT := 0x0200;
  PyCF_ONLY_AST := 0x0400; PyCF_IGNORE_COOKIE := 0x0800;
  CO_FUTURE_BARRY_AS_BDFL := 0x40000;
  Py_single_input := 256; Py_file_input := 257; Py_eval_input := 258;
  PyPARSE_DONT_IMPLY_DEDENT := 0x0002; PyPARSE_IGNORE_COOKIE := 0x0010;
  PyPARSE_BARRY_AS_BDFL := 0x0020
|}.

Module Runtime.

Definition byte_of_Z (z : Z) : byte :=
  match Byte.of_N (Z.to_N z) with Some b => b | None => x00 end.

Definition Z_of_byte (b : byte) : Z := Z.of_N (Byte.to_N b).

(** UTF-8 encoding of one code point; [None] on a surrogate or out of range. *)
Definition utf8_encode_char (c : Z) : option (list byte) :=
  if c <? 0 then None
  else if c <? 0x80 then Some [byte_of_Z c]
  else if c <? 0x800 then
    Some [byte_of_Z (0xC0 + c / 64); byte_of_Z (0x80 + c mod 64)]
  else if (0xD800 <=? c) && (c <=? 0xDFFF) then None
  else if c <? 0x10000 then
    Some [byte_of_Z (0xE0 + c / 4096); byte_of_Z (0x80 + (c / 64) mod 64);
          byte_of_Z (0x80 + c mod 64)]
  else if c <? 0x110000 then
    Some [byte_of_Z (0xF0 + c / 262144); byte_of_Z (0x80 + (c / 4096) mod 64);
          byte_of_Z (0x80 + (c / 64) mod 64); byte_of_Z (0x80 + c mod 64)]
  else None.

Fixpoint utf8_encode (cps : list Z) : option (list byte) :=
  match cps with
  | [] => Some []
  | c :: rest =>
      match utf8_encode_char c, utf8_encode rest with
      | Some bs, Some r => Some (bs ++ r)%list
      | _, _ => None
      end
  end.

Definition is_cont (b : byte) : bool :=
  (0x80 <=? Z_of_byte b) && (Z_of_byte b <=? 0xBF).

(** UTF-8 decoding with the [replace] handler: an ill-formed byte becomes
    U+FFFD and decoding goes on. *)
Fixpoint utf8_decode_replace (bs : list byte) : list Z :=
  match bs with
  | [] => []
  | b :: rest =>
      let n := Z_of_byte b in
      if n <? 0x80 then n :: utf8_decode_replace rest
      else
        match rest with
        | c1 :: rest1 =>
            if (0xC2 <=? n) && (n <=? 0xDF) && is_cont c1 then
              ((n - 0xC0) * 64 + (Z_of_byte c1 - 0x80))
                :: utf8_decode_replace rest1
            else
              match rest1 with
              | c2 :: rest2 =>
                  if (0xE0 <=? n) && (n <=? 0xEF) && is_cont c1 && is_cont c2
                  then
                    ((n - 0xE0) * 4096 + (Z_of_byte c1 - 0x80) * 64
                       + (Z_of_byte c2 - 0x80))
                      :: utf8_decode_replace rest2
                  else
                    match rest2 with
                    | c3 :: rest3 =>
                        if (0xF0 <=? n) && (n <=? 0xF4) && is_cont c1
                           && is_cont c2 && is_cont c3
                        then
                          ((n - 0xF0) * 262144 + (Z_of_byte c1 - 0x80) * 4096
                             + (Z_of_byte c2 - 0x80) * 64
                             + (Z_of_byte c3 - 0x80))
                            :: utf8_decode_replace rest3
                        else 0xFFFD :: utf8_decode_replace rest
                    | [] => 0xFFFD :: utf8_decode_replace rest
                    end
              | [] => 0xFFFD :: utf8_decode_replace rest
              end
        | [] => [0xFFFD]
        end
  end.

Definition bytes_of_string (s : string) : list byte :=
  list_byte_of_string s.

(** A runtime in which nothing runs out of memory; the arena, the parser's
    answer and the validator's answer are the arguments. *)
Definition runtime (arena : exn + PyArena)
    (parse : list byte -> Z -> parse_outcome)
    (validate : exn + unit) : Externals := {|
  PyArena_New_ext := arena;
  PyParser_ParseStringObject_ext := fun s _ _ iflags => parse s iflags;
  PyAST_FromNodeObject_ext := fun n _ _ _ =>
    match n with Node i => inr (Mod i) end;
  PyAST_Check_ext := fun o =>
    match o with AST_obj _ => inr true | _ => inr false end;
  PyAST_obj2mod_ext := fun o _ _ =>
    match o with
    | AST_obj i => inr (Mod i)
    | _ => inl (PyExc_TypeError, None)
    end;
  PyAST_mod2obj_ext := fun m => match m with Mod i => inr (AST_obj i) end;
  PyAST_Validate_ext := fun _ => validate;
  PyAST_CompileObject_ext := fun m _ _ _ _ =>
    match m with Mod i => inr (Code_obj i) end;
  ambient_compiler_flags := 0;
  PyUnicode_AsUTF8AndSize_ext := fun o =>
    match o with
    | Unicode_obj cps =>
        match utf8_encode cps with
        | Some bs => inr bs
        | None => inl (PyExc_Other 0, None)
        end
    | CStr_obj s => inr (bytes_of_string s)
    | _ => inl (PyExc_TypeError, None)
    end;
  PyObject_GetBuffer_ext := fun o =>
    match o with
    | Other_obj 0 => inr [x61; x00; x62]
    | _ => inl (PyExc_TypeError, None)
    end;
  PyBytes_FromStringAndSize_ext := fun _ => None;
  PyUnicode_DecodeUTF8_ext := fun s size _ =>
    inr (utf8_decode_replace (firstn (Z.to_nat size) s));
  PyObject_Str_ext := fun o => inr o;
  Py_BuildValue_ext := fun _ => None
|}.

Definition no_error (code : Z) : perrdetail :=
  {| error := code; filename := None; lineno := 0; offset := 0;
     text := None; token := 0; expected := 0 |}.

Definition parse_ok (n : node) (iflags : Z) : parse_outcome :=
  {| po_node := Some n; po_err := no_error 10; po_flags := iflags;
     po_exn := None |}.

Definition parse_fails (err : perrdetail) : parse_outcome :=
  {| po_node := None; po_err := err; po_flags := 0; po_exn := None |}.

Definition fname : PyObject := CStr_obj "f.py".

(** Everything succeeds: the parser returns a tree, the validator accepts. *)
Definition world : Externals :=
  runtime (inr (Arena 1)) (fun _ _ => parse_ok (Node 7) 0) (inr tt).

(** The line [1 != 2] when [<>] is the spelling: [E_SYNTAX] with NOTEQUAL
    expected. *)
Definition noteq_error : perrdetail :=
  {| error := 14; filename := Some fname; lineno := 1; offset := 4;
     text := Some (bytes_of_string "1 != 2");
     token := 28; expected := 28 |}.






Definition error_of (code : Z) : perrdetail :=
  {| error := code; filename := Some fname; lineno := 1; offset := 0;
     text := None; token := 0; expected := 0 |}.

End Runtime.

(** ** What is observed of a run *)

Section Observations.

Context {H : Headers} {X : Externals}.

(** [emits_only P m]: whatever exception is pending when [m] starts, every
    event of the run satisfies [P]. *)
Definition emits_only {A} (P : event -> Prop) (m : M A) : Prop :=
  forall e, Forall P (events (m e)).

(** The buffers released with [PyObject_FREE] in a run, in order. *)
Definition freed_buffers (evs : list event) : list (list byte) :=
  flat_map (fun ev => match ev with EvObjectFree p => [p] | _ => [] end) evs.

Definition not_free (ev : event) : Prop :=
  match ev with EvObjectFree _ => False | _ => True end.

(** The events of the three parts of [err_input]. *)
Definition switch_event (ev : event) : Prop :=
  match ev with EvStderr _ _ | EvDecref _ => True | _ => False end.

Definition report_event (ev : event) : Prop :=
  match ev with
  | EvDecodeUTF8 _ _ _ | EvSetObject _ _ | EvIncref _ | EvDecref _ => True
  | _ => False
  end.

Definition cleanup_event (ev : event) : Prop :=
  match ev with EvObjectFree _ | EvDecref _ => True | _ => False end.

(** The labels of the [switch] of [err_input], in the order of the source.
    C rejects a [switch] with two equal labels. *)
Definition case_labels : list Z :=
  [E_ERROR; E_SYNTAX; E_TOKEN; E_EOFS; E_EOLS; E_INTR; E_NOMEM; E_EOF;
   E_TABSPACE; E_OVERFLOW; E_DEDENT; E_TOODEEP; E_DECODE; E_LINECONT;
   E_IDENTIFIER; E_BADSINGLE].

(** The type of the exception a run leaves pending. *)
Definition raised_type {A} (r : outcome A) : option exc_type :=
  option_map fst (pending r).

Definition not_parse (ev : event) : Prop :=
  match ev with EvParse _ _ _ _ => False | _ => True end.

(** The value of a plain-message exception: no filename, line or column. *)
Definition plain_message (x : option exn) (t : exc_type) : Prop :=
  exists msg, x = Some (t, Some (CStr_obj msg)).

(** The bytes [source_as_string] obtains from [source]: the UTF-8 form of a
    [str], the content of a [bytes] or [bytearray], or the copy of the
    buffer another object exports. *)
Definition source_bytes (source : PyObject) (bs : list byte) : Prop :=
  if PyUnicode_Check source then PyUnicode_AsUTF8AndSize_ext source = inr bs
  else match source with
       | Bytes_obj b | ByteArray_obj b => b = bs
       | _ => PyObject_GetBuffer_ext source = inr bs /\
              PyBytes_FromStringAndSize_ext bs = None
       end.

Definition diagnostic_event (ev : event) : Prop :=
  match ev with
  | EvStderr _ _ | EvDecref _ | EvIncref _ | EvDecodeUTF8 _ _ _
  | EvSetObject _ _ | EvObjectFree _ => True
  | _ => False
  end.

(** What a call of the parser stage emits; the parser is called with the
    translation of the caller's flags. *)
Definition parser_stage_event (flags : option Z) (ev : event)
  : Prop :=
  match ev with
  | EvParse _ _ _ iflags => iflags = PARSER_FLAGS flags
  | EvFromNode _ _ _ _ | EvNodeFree _ => True
  | _ => diagnostic_event ev
  end.

Definition normalizer_event (ev : event) : Prop :=
  match ev with EvBufferRelease _ | EvDecref _ => True | _ => False end.

Definition is_arena_event (ev : event) : bool :=
  match ev with EvArenaNew _ | EvArenaFree _ => true | _ => false end.

(** The arena allocations and releases of a run, in order. *)
Definition arena_trace (evs : list event) : list event :=
  filter is_arena_event evs.

(** No arena at all, a failed allocation, or one arena allocated and then
    freed once. *)
Definition arena_balanced (evs : list event) : Prop :=
  arena_trace evs = [] \/
  arena_trace evs = [EvArenaNew None] \/
  exists a, arena_trace evs = [EvArenaNew (Some a); EvArenaFree a].

Definition is_validate_event (ev : event) : bool :=
  match ev with EvValidate _ _ => true | _ => false end.

Definition is_codegen_event (ev : event) : bool :=
  match ev with EvCompile _ _ _ _ _ => true | _ => false end.

Definition not_validate (ev : event) : Prop :=
  match ev with EvValidate _ _ => False | _ => True end.

Definition not_codegen (ev : event) : Prop :=
  match ev with EvCompile _ _ _ _ _ => False | _ => True end.

(** Events that belong to no stage of the pipeline. *)
Definition housekeeping (ev : event) : Prop :=
  match ev with
  | EvMergeFlags _ | EvDecref _ | EvIncref _ | EvBufferRelease _ => True
  | _ => False
  end.

(** [a] occurs in [evs] before an occurrence of [b]. *)
Definition occurs_before (a b : event) (evs : list event) : Prop :=
  exists pre post, evs = (pre ++ b :: post)%list /\ In a pre.

(** What [Py_CompileStringObject] emits. *)
Definition compile_string_event (flags : option Z) (ev : event)
  : Prop :=
  match ev with
  | EvArenaNew _ | EvArenaFree _ | EvMod2obj _ | EvCompile _ _ _ _ _ => True
  | _ => parser_stage_event flags ev
  end.

(** The parser is told to ignore the encoding cookie. *)
Definition cookie_ignored (ev : event) : Prop :=
  match ev with
  | EvParse _ _ _ iflags =>
      Z.land iflags PyPARSE_IGNORE_COOKIE = PyPARSE_IGNORE_COOKIE
  | _ => True
  end.

(** The flags [ast37_compile_impl] hands to [Py_CompileStringObject]: the
    caller's, [PyCF_SOURCE_IS_UTF8], what the merge added, and
    [PyCF_IGNORE_COOKIE] for a [str] source. *)
Definition text_flags (source : PyObject) (flags extra : Z) : Z :=
  let cf := Z.lor (Z.lor flags PyCF_SOURCE_IS_UTF8) extra in
  if PyUnicode_Check source then Z.lor cf PyCF_IGNORE_COOKIE else cf.



Definition is_decref (ev : event) : Prop :=
  match ev with EvDecref _ => True | _ => False end.


End Observations.

(** ** The entry point and the parts of [ast37_compile_impl] *)

(** What [_PyArg_ParseStackAndKeywords] stores for the format
    [OO&s|iii:compile]: the three required arguments, and the optional ones
    that were given. *)
Record compile_args := {
  arg_source : PyObject;
  arg_filename : PyObject;
  arg_mode : string;
  arg_flags : option Z;
  arg_dont_inherit : option Z;
  arg_optimize : option Z
}.

Section EntryPoint.

Context {H : Headers} {X : Externals}.

(** [ast37_compile]; [parsed] is the answer of
    [_PyArg_ParseStackAndKeywords] on [args], [nargs], [kwnames]. *)
Definition ast37_compile (module : PyObject) (parsed : exn + compile_args)
  : M (option PyObject) :=
  let return_value : option PyObject := None in
  let flags := 0 in
  let dont_inherit := 0 in
  let optimize := -1 in
  a <- call [] parsed ;;
  match a with
  | None => ret return_value
  | Some a =>
      let flags := match arg_flags a with Some f => f | None => flags end in
      let dont_inherit :=
        match arg_dont_inherit a with Some d => d | None => dont_inherit end in
      let optimize :=
        match arg_optimize a with Some o => o | None => optimize end in
      ast37_compile_impl module (arg_source a) (arg_filename a) (arg_mode a)
        flags dont_inherit optimize
  end.

(** The flags [ast37_compile_impl] accepts. *)
Definition recognised_flags : Z :=
  Z.lor (Z.lor (Z.lor PyCF_MASK PyCF_MASK_OBSOLETE) PyCF_DONT_IMPLY_DEDENT)
        PyCF_ONLY_AST.

(** The value of [compile_mode] for a mode string; [None] for a string that
    is none of the three. *)
Definition mode_index (mode : string) : option Z :=
  if (mode =? "exec")%string then Some 0
  else if (mode =? "eval")%string then Some 1
  else if (mode =? "single")%string then Some 2
  else None.

(** [start[compile_mode]]. *)
Definition start_symbol (compile_mode : Z) : Z :=
  nth (Z.to_nat compile_mode) [Py_file_input; Py_eval_input; Py_single_input]
      0.

(** The three checks that come before any work: flags, optimize, mode. *)
Definition valid_config (flags optimize : Z) (mode : string)
    (compile_mode : Z) : Prop :=
  Z.land flags (Z.lnot recognised_flags) = 0 /\
  -1 <= optimize <= 2 /\
  mode_index mode = Some compile_mode.

(** [cf.cf_flags] after the merge, which is skipped when [dont_inherit] is
    set; and the event of the merge. *)
Definition merged_flags (flags dont_inherit : Z) : Z :=
  if nonzero dont_inherit then Z.lor flags PyCF_SOURCE_IS_UTF8
  else Z.lor (Z.lor flags PyCF_SOURCE_IS_UTF8) ambient_compiler_flags.

Definition merge_events (flags dont_inherit : Z) : list event :=
  if nonzero dont_inherit then []
  else [EvMergeFlags (Z.lor flags PyCF_SOURCE_IS_UTF8)].

(** [ast37_compile_impl] from [is_ast = PyAST_Check(source)] to the jump to
    [error] or [finally]. *)
Definition compile_dispatch (source fname : PyObject) (compile_mode : Z)
    (cf_flags flags optimize : Z) : M (option PyObject) :=
  is_ast <- PyAST_Check source ;;
  match is_ast with
  | None => ret None
  | Some true =>
      if nonzero (Z.land flags PyCF_ONLY_AST) then
        Py_INCREF source ;; ret (Some source)
      else ast37_compile_ast source fname compile_mode cf_flags optimize
  | Some false =>
      r <- source_as_string source "compile" "string, bytes or AST" cf_flags ;;
      let '(str, cf_flags, source_copy) := r in
      match str with
      | None => ret None
      | Some str =>
          r <- Py_CompileStringObject str fname (start_symbol compile_mode)
                 (Some cf_flags) optimize ;;
          Py_XDECREF source_copy ;;
          ret (fst r)
      end
  end.

(** Whether [source_as_string] takes the buffer branch for [cmd]. *)
Definition takes_buffer (cmd : PyObject) : bool :=
  negb (PyUnicode_Check cmd) &&
  match cmd with Bytes_obj _ | ByteArray_obj _ => false | _ => true end.

(** [*cmd_copy] when [source_as_string] succeeds on bytes [bs]. *)
Definition source_copy_of (cmd : PyObject) (bs : list byte)
  : option PyObject :=
  if takes_buffer cmd then Some (Bytes_obj bs) else None.

(** The views released with [PyBuffer_Release] in a run. *)
Definition released_views (evs : list event) : list PyObject :=
  flat_map (fun ev => match ev with EvBufferRelease o => [o] | _ => [] end)
           evs.

(** The parse trees freed with [PyNode_Free] in a run. *)
Definition freed_nodes (evs : list event) : list node :=
  flat_map (fun ev => match ev with EvNodeFree n => [n] | _ => [] end) evs.

(** The arena an event hands to the runtime. *)
Definition arena_of (ev : event) : option PyArena :=
  match ev with
  | EvFromNode _ _ _ a | EvObj2mod _ a _ | EvCompile _ _ _ _ a => Some a
  | _ => None
  end.

(** An event that neither allocates, frees nor uses an arena. *)
Definition arena_free_event (ev : event) : Prop :=
  is_arena_event ev = false /\ arena_of ev = None.

(** An event between [PyArena_New] and [PyArena_Free] of [a]: if it uses an
    arena, it is [a]. *)
Definition within_arena (a : PyArena) (ev : event) : Prop :=
  is_arena_event ev = false /\ (arena_of ev = None \/ arena_of ev = Some a).

(** The arena is used only between its allocation and its release: either
    no event of the run uses an arena (the allocation, if any, failed), or
    the run is [pre ++ New a :: mid ++ Free a :: post] where only [mid] uses
    an arena, and that arena is [a]. *)
Definition arena_bracketed (evs : list event) : Prop :=
  Forall (fun ev => arena_free_event ev \/ ev = EvArenaNew None) evs \/
  exists a pre mid post,
    evs = (pre ++ EvArenaNew (Some a) :: mid ++ EvArenaFree a :: post)%list /\
    Forall arena_free_event pre /\
    Forall (within_arena a) mid /\
    Forall arena_free_event post.

(** An event of neither the parser stage nor the diagnostic translator. *)
Definition not_text_stage (ev : event) : Prop :=
  match ev with
  | EvParse _ _ _ _ | EvFromNode _ _ _ _ | EvNodeFree _ | EvMod2obj _
  | EvDecodeUTF8 _ _ _ | EvObjectFree _ | EvSetObject _ _ | EvStderr _ _ =>
      False
  | _ => True
  end.

(** The flags [ast37_compile_impl] hands on for source text: the merged
    flags, with [PyCF_IGNORE_COOKIE] for a [str]. *)
Definition source_flags (source : PyObject) (flags dont_inherit : Z) : Z :=
  if PyUnicode_Check source
  then Z.lor (merged_flags flags dont_inherit) PyCF_IGNORE_COOKIE
  else merged_flags flags dont_inherit.

(** The events of [source_as_string] on a source it accepts, and of the
    release of its copy afterwards. *)
Definition view_events (source : PyObject) : list event :=
  if takes_buffer source then [EvBufferRelease source] else [].

Definition copy_events (source : PyObject) (bs : list byte) : list event :=
  if takes_buffer source then [EvDecref (Bytes_obj bs)] else [].

Definition is_decode_event (ev : event) : bool :=
  match ev with EvDecodeUTF8 _ _ _ => true | _ => false end.

(** The run of [ast37_compile_impl] that makes [o] of source text under
    [PyCF_ONLY_AST]: the bytes [str] of [source] are parsed with the start
    symbol of [mode], the tree [n] of the parser is lowered to [m] in the
    arena [a], [o] is [PyAST_mod2obj] of [m], and [evs] are the calls made,
    in order. *)
Definition ast_only_text_run (source fname : PyObject) (mode : string)
    (flags dont_inherit : Z) (o : PyObject) (evs : list event) : Prop :=
  exists compile_mode str a n m,
    let start := start_symbol compile_mode in
    let cf := source_flags source flags dont_inherit in
    let po := PyParser_ParseStringObject_ext str fname start
                (PARSER_FLAGS (Some cf)) in
    let cf' := Z.lor cf (Z.land (po_flags po) PyCF_MASK) in
    mode_index mode = Some compile_mode /\
    source_bytes source str /\
    po_node po = Some n /\
    PyAST_FromNodeObject_ext n cf' fname a = inr m /\
    PyAST_mod2obj_ext m = inr o /\
    evs =
      (merge_events flags dont_inherit ++ view_events source
         ++ [EvArenaNew (Some a);
             EvParse str fname start (PARSER_FLAGS (Some cf));
             EvFromNode n cf' fname a;
             EvNodeFree n]
         ++ match filename (po_err po) with
            | Some f => [EvDecref f]
            | None => []
            end
         ++ [EvMod2obj m; EvArenaFree a]
         ++ copy_events source str ++ [EvDecref fname])%list.

End EntryPoint.

Section DecodeMessage.

Context {H : Headers} {X : Externals}.

(** The message object [err_input] uses for [E_DECODE]: [str(value)] of the
    pending exception when there is one with a value and [PyObject_Str]
    succeeds, else the text "unknown decode error". *)
Definition decode_message (e : option exn) : PyObject :=
  match e with
  | Some (_, Some v) =>
      match PyObject_Str_ext v with
      | inr m => m
      | inl _ => CStr_obj "unknown decode error"
      end
  | _ => CStr_obj "unknown decode error"
  end.

(** The pending exception after one of the codes that leave [err_input] by
    [goto cleanup], when [e] was pending before. *)
Definition early_exit_exception (code : Z) (e : option exn) : option exn :=
  if code =? E_ERROR then e
  else if code =? E_INTR then
    match e with
    | Some x => Some x
    | None => Some (PyExc_KeyboardInterrupt, None)
    end
  else Some (PyExc_MemoryError, None).

(** The runtime builds the values of a diagnostic: [Py_BuildValue] does not
    run out of memory and [PyUnicode_DecodeUTF8] returns a string. *)
Definition diagnostic_values_built : Prop :=
  (forall items, Py_BuildValue_ext items = None) /\
  (forall s size errors,
     exists cps, PyUnicode_DecodeUTF8_ext s size errors = inr cps).

(** [w] is the value [(m, (filename, lineno, column, line))] of a diagnostic
    with message [m] for [err]. *)
Definition diagnostic_of (m : PyObject) (err : perrdetail) (w : PyObject)
  : Prop :=
  exists fn col line,
    filename err = Some fn /\
    w = Tuple_obj [m; Tuple_obj [fn; Long_obj (lineno err); Long_obj col;
                                 line]].

End DecodeMessage.

Unset Implicit Arguments.

(** * Reasoning about runs *)

Lemma switch_hit {A} (k : Z) (l : list (Z * A)) (d body : A) :
  NoDup (map fst l) -> In (k, body) l -> switch k l d = body.
Proof.
  induction l as [|[label b] rest IH]; simpl; intros ND HIn; [contradiction|].
  inversion ND as [|? ? Hnotin ND']; subst.
  destruct HIn as [Heq|HIn].
  - inversion Heq; subst. now rewrite Z.eqb_refl.
  - destruct (Z.eqb_spec k label) as [->|_]; [|now apply IH].
    exfalso. apply Hnotin. apply (in_map fst) in HIn. exact HIn.
Qed.

Lemma switch_cases {A} (k : Z) (l : list (Z * A)) (d : A) :
  In (switch k l d) (d :: map snd l).
Proof.
  induction l as [|[label b] rest IH]; simpl; [now left|].
  destruct (k =? label); [right; now left|].
  destruct IH as [IH|IH]; [now left|right; now right].
Qed.

Section Runs.

Context {A B : Type} (P : event -> Prop).

Lemma emits_only_ret (a : A) : emits_only P (ret a).
Proof. intro e. constructor. Qed.

Lemma emits_only_emit ev : P ev -> emits_only P (emit ev).
Proof. intros Hev e. cbn. auto. Qed.

Lemma emits_only_raise x : emits_only P (raise x).
Proof. intro e. constructor. Qed.

Lemma emits_only_call evs (r : exn + A) :
  Forall P evs -> emits_only P (call evs r).
Proof. intros Hev e. unfold call. destruct r; exact Hev. Qed.

Lemma emits_only_bind (m : M A) (f : A -> M B) :
  emits_only P m -> (forall a, emits_only P (f a)) -> emits_only P (bind m f).
Proof.
  intros Hm Hf e. unfold bind; cbn. apply Forall_app. split; [apply Hm|apply Hf].
Qed.

End Runs.

Lemma emits_only_occurred P : emits_only P PyErr_Occurred.
Proof. intro e. constructor. Qed.

Lemma emits_only_fetch P : emits_only P PyErr_Fetch.
Proof. intro e. constructor. Qed.

Lemma emits_only_weaken {A} (P Q : event -> Prop) (m : M A) :
  (forall ev, P ev -> Q ev) -> emits_only P m -> emits_only Q m.
Proof. intros HPQ Hm e. eapply Forall_impl; [exact HPQ|apply Hm]. Qed.

Lemma switch_cases_label {A} (k : Z) (l : list (Z * A)) (d : A) :
  switch k l d = d \/ exists body, In (k, body) l /\ switch k l d = body.
Proof.
  induction l as [|[label b] rest IH]; cbn [switch]; [now left|].
  destruct (Z.eqb_spec k label) as [->|_].
  - right. exists b. split; [now left|reflexivity].
  - destruct IH as [IH|(body & Hin & IH)]; [now left|].
    right. exists body. split; [now right|exact IH].
Qed.

(** One step of a proof that a computation emits only events in [P]. *)
Ltac emits_step :=
  match goal with
  | |- emits_only _ (bind _ _) => apply emits_only_bind; [|intros]
  | |- emits_only _ (ret _) => apply emits_only_ret
  | |- emits_only _ (raise _) => apply emits_only_raise
  | |- emits_only _ PyErr_Occurred => apply emits_only_occurred
  | |- emits_only _ PyErr_Fetch => apply emits_only_fetch
  | |- emits_only _ (emit _) => apply emits_only_emit
  | |- emits_only _ (call _ _) => apply emits_only_call
  | |- emits_only _ (match ?x with _ => _ end) => destruct x
  | |- emits_only _ (let '(_, _) := ?x in _) => destruct x
  | |- Forall _ [] => constructor
  | |- Forall _ (_ :: _) => constructor
  end.

Ltac emits := repeat emits_step; cbn; auto.

Lemma freed_buffers_app evs1 evs2 :
  freed_buffers (evs1 ++ evs2) = (freed_buffers evs1 ++ freed_buffers evs2)%list.
Proof. apply flat_map_app. Qed.

Lemma freed_buffers_none evs : Forall not_free evs -> freed_buffers evs = [].
Proof.
  induction 1 as [|ev evs Hev _ IH]; [reflexivity|].
  destruct ev; cbn; try exact IH. destruct Hev.
Qed.

Section ErrInput.

Context {H : Headers} {X : Externals}.

Lemma Py_BuildValue_emits P items : emits_only P (Py_BuildValue items).
Proof. unfold Py_BuildValue, PyErr_SetString. emits. Qed.

Lemma err_input_report_emits err t m o :
  emits_only report_event (err_input_report err t m o).
Proof.
  unfold err_input_report, err_input_errtext, PyUnicode_DecodeUTF8,
    Py_XDECREF, Py_INCREF, Py_DECREF.
  repeat first [apply Py_BuildValue_emits | emits_step]; cbn; auto.
  all: intro e; repeat constructor.
Qed.

Lemma err_input_switch_emits err :
  emits_only switch_event
    (switch (error err) (err_input_cases err) (err_input_default err)).
Proof.
  pose proof (switch_cases (error err) (err_input_cases err)
                (err_input_default err)) as Hin.
  cbn [map snd err_input_cases In] in Hin.
  repeat (destruct Hin as [<-|Hin]; [|]); try contradiction;
    unfold err_input_default, PyErr_SetNone, PyErr_NoMemory, Py_XDECREF;
    emits.
Qed.

Lemma err_input_cleanup_emits err o :
  emits_only cleanup_event (err_input_cleanup err o).
Proof. unfold err_input_cleanup, Py_XDECREF. emits. Qed.

Lemma switch_event_not_free ev : switch_event ev -> not_free ev.
Proof. destruct ev; cbn; tauto. Qed.

Lemma report_event_not_free ev : report_event ev -> not_free ev.
Proof. destruct ev; cbn; tauto. Qed.

Lemma err_input_cleanup_spec err o e :
  let r := err_input_cleanup err o e in
  text (value r) = None /\ pending r = e /\
  freed_buffers (events r) = match text err with Some t => [t] | None => [] end.
Proof.
  unfold err_input_cleanup, Py_XDECREF, bind, emit, ret.
  destruct o, (text err) eqn:E; cbn; auto.
Qed.

(** C10. After [err_input] returns, [err->text] is NULL, and the buffer it
    pointed to, if any, has been released with [PyObject_FREE] exactly once;
    this holds for every error code, the ones that leave by [goto cleanup]
    ([E_ERROR], [E_INTR], [E_NOMEM]) included. *)
Theorem err_input_frees_text (err : perrdetail) (e : option exn) :
  let r := err_input err e in
  text (value r) = None /\
  freed_buffers (events r) =
    match text err with Some t => [t] | None => [] end.
Proof.
  unfold err_input, bind. cbn [value events pending].
  pose proof (emits_only_weaken _ _ _ switch_event_not_free
                (err_input_switch_emits err) e) as Hsw.
  apply freed_buffers_none in Hsw.
  set (s := switch (error err) (err_input_cases err) (err_input_default err) e)
    in *.
  destruct (value s) as [|t m o]; rewrite freed_buffers_app, Hsw.
  - destruct (err_input_cleanup_spec err None (pending s)) as (Ht & _ & Hf).
    now split.
  - cbn [value events pending]. rewrite freed_buffers_app.
    set (rep := err_input_report err t m o (pending s)).
    pose proof (emits_only_weaken _ _ _ report_event_not_free
                  (err_input_report_emits err t m o) (pending s)) as Hrep.
    apply freed_buffers_none in Hrep. fold rep in Hrep. rewrite Hrep.
    destruct (err_input_cleanup_spec err o (pending rep)) as (Ht & _ & Hf).
    now split.
Qed.

Lemma err_input_report_pending err t m o e :
  exists w, pending (err_input_report err t m o e) = Some (t, w).
Proof.
  unfold err_input_report, bind. cbn [value pending].
  destruct (value (err_input_errtext err e)) as [errtext off].
  cbn [value pending].
  match goal with
  | |- exists w, pending (Py_XDECREF ?w' _) = _ => exists w'; destruct w'
  end; reflexivity.
Qed.

Lemma err_input_break err e t m o :
  value (switch (error err) (err_input_cases err) (err_input_default err) e)
    = Break t m o ->
  exists w, pending (err_input err e) = Some (t, w).
Proof.
  intro Hexit. unfold err_input, bind. cbn [value pending]. rewrite Hexit.
  cbn [value pending].
  set (s := switch (error err) (err_input_cases err) (err_input_default err) e).
  destruct (err_input_report_pending err t m o (pending s)) as [w Hw].
  exists w.
  destruct (err_input_cleanup_spec err o
              (pending (err_input_report err t m o (pending s))))
    as (_ & Hp & _).
  now rewrite Hp.
Qed.

Lemma err_input_case err (label : Z) (body : M switch_exit) :
  NoDup case_labels -> error err = label ->
  In (label, body) (err_input_cases err) ->
  switch (error err) (err_input_cases err) (err_input_default err) = body.
Proof.
  intros ND -> HIn. now apply switch_hit.
Qed.

End ErrInput.

(** Finds the case of [err_input]'s [switch] for the code in [Herr]. *)
Ltac pick_case ND Herr :=
  rewrite (err_input_case _ _ _ ND Herr
             ltac:(cbn [err_input_cases In];
                   repeat (first [left; reflexivity | right])));
  cbn [value ret bind pending events].

Section Category.

Context {H : Headers} {X : Externals}.

Lemma raised_type_break err e t m o :
  value (switch (error err) (err_input_cases err) (err_input_default err) e)
    = Break t m o ->
  raised_type (err_input err e) = Some t.
Proof.
  intro Hexit. destruct (err_input_break err e t m o Hexit) as [w Hw].
  unfold raised_type. now rewrite Hw.
Qed.

(** C3. The exception type [err_input] raises is fixed by the error code:
    [E_TABSPACE] gives TabError; [E_DEDENT], [E_TOODEEP], and [E_SYNTAX] with
    indent context (INDENT expected, or the token INDENT or DEDENT) give
    IndentationError; the rest of [E_SYNTAX] and [E_TOKEN], [E_EOFS],
    [E_EOLS], [E_EOF], [E_OVERFLOW], [E_LINECONT], [E_IDENTIFIER],
    [E_BADSINGLE] give SyntaxError. *)
Theorem err_input_category (err : perrdetail) (e : option exn) :
  NoDup case_labels ->
  (error err = E_TABSPACE ->
   raised_type (err_input err e) = Some PyExc_TabError) /\
  (error err = E_DEDENT \/ error err = E_TOODEEP \/
   (error err = E_SYNTAX /\
    (expected err = INDENT \/ token err = INDENT \/ token err = DEDENT)) ->
   raised_type (err_input err e) = Some PyExc_IndentationError) /\
  ((error err = E_SYNTAX /\ expected err <> INDENT /\
    token err <> INDENT /\ token err <> DEDENT) \/
   In (error err) [E_TOKEN; E_EOFS; E_EOLS; E_EOF; E_OVERFLOW; E_LINECONT;
                   E_IDENTIFIER; E_BADSINGLE] ->
   raised_type (err_input err e) = Some PyExc_SyntaxError).
Proof.
  intro ND. split; [|split].
  - intro Herr. eapply raised_type_break. pick_case ND Herr. reflexivity.
  - intros [Herr|[Herr|[Herr Hctx]]];
      [eapply raised_type_break; pick_case ND Herr; reflexivity ..|].
    destruct (expected err =? INDENT) eqn:He;
      [|destruct (token err =? INDENT) eqn:Ht;
        [|destruct (token err =? DEDENT) eqn:Ht']];
      try (eapply raised_type_break; pick_case ND Herr;
           rewrite ?He, ?Ht, ?Ht'; reflexivity).
    apply Z.eqb_neq in He, Ht, Ht'. exfalso; tauto.
  - intros [(Herr & He & Ht & Ht')|Hin].
    + apply Z.eqb_neq in He, Ht, Ht'.
      destruct (expected err =? NOTEQUAL) eqn:Hne;
        eapply raised_type_break; pick_case ND Herr;
        rewrite He, Ht, Ht', Hne; reflexivity.
    + cbn [In] in Hin.
      repeat (destruct Hin as [Herr|Hin]; [symmetry in Herr|]);
        try contradiction;
        eapply raised_type_break; pick_case ND Herr; reflexivity.
Qed.

End Category.

(** * The front door *)

(** Finds an event in a list of events built with [::] and [++], looking
    to the right of the unknown lists. *)
Ltac in_events :=
  cbn [In app];
  repeat first [ left; reflexivity | apply in_or_app; right | right ].

(** Splits a [Forall] over a list of events built with [::] and [++]. *)
Ltac forall_events :=
  repeat first [ assumption
               | apply Forall_nil
               | apply Forall_cons; [exact I|]
               | apply Forall_app; split ].

Section FrontDoor.

Context {H : Headers} {X : Externals}.

(** C8. When [optimize] is outside -1..2, [ast37_compile_impl] returns NULL
    with a ValueError whose value is a plain message (no line or column), and
    the run does nothing else than drop the reference to [filename]: no
    arena, no parser (hence no tokenizer) call. *)
Theorem invalid_optimize_rejected
    (module source fname : PyObject) (mode : string)
    (flags dont_inherit optimize : Z) (e : option exn) :
  optimize < -1 \/ optimize > 2 ->
  let r := ast37_compile_impl module source fname mode flags dont_inherit
             optimize e in
  value r = None /\
  plain_message (pending r) PyExc_ValueError /\
  events r = [EvDecref fname].
Proof.
  intros Hopt r. subst r.
  unfold ast37_compile_impl, ast37_compile_body, plain_message.
  destruct (nonzero (Z.land flags (Z.lnot _))).
  - cbn. repeat split. eexists; reflexivity.
  - replace ((optimize <? -1) || (optimize >? 2)) with true.
    + cbn. repeat split. eexists; reflexivity.
    + symmetry. apply orb_true_iff.
      destruct Hopt; [left; apply Z.ltb_lt|right; apply Z.gtb_lt]; lia.
Qed.

Lemma strlen_nul (s : list byte) :
  In x00 s -> strlen s < Z.of_nat (List.length s).
Proof.
  induction s as [|b s IH]; cbn [strlen List.length In]; [contradiction|].
  intros [->|Hin].
  - cbn. lia.
  - specialize (IH Hin). destruct (Byte.eqb b x00); lia.
Qed.

Lemma source_as_string_nul source bs funcname what cf_flags e :
  source_bytes source bs -> In x00 bs ->
  let r := source_as_string source funcname what cf_flags e in
  fst (fst (value r)) = None /\
  pending r =
    Some (PyExc_ValueError,
          Some (CStr_obj "source code string cannot contain null bytes")) /\
  Forall not_parse (events r).
Proof.
  intros Hbytes Hnul. apply strlen_nul in Hnul.
  apply Z.lt_neq, Z.eqb_neq in Hnul.
  unfold source_bytes in Hbytes. unfold source_as_string.
  destruct (PyUnicode_Check source).
  - rewrite Hbytes. cbn. rewrite Hnul. cbn. repeat split; constructor.
  - destruct source;
      first [ subst bs
            | destruct Hbytes as [Hbuf Hcopy]; rewrite Hbuf; cbn;
              rewrite Hcopy ];
      cbn; rewrite Hnul; cbn; repeat split; repeat constructor.
Qed.

(** C7. A source ([str], [bytes], [bytearray] or buffer, not an AST) whose
    bytes contain a NUL is rejected: [ast37_compile_impl] returns NULL with a
    ValueError, which is none of SyntaxError, IndentationError, TabError, and
    the parser (hence the tokenizer) is never called. *)
Theorem embedded_nul_rejected
    (module source fname : PyObject) (mode : string)
    (flags dont_inherit optimize : Z) (e : option exn) (bs : list byte) :
  PyAST_Check_ext source = inr false ->
  source_bytes source bs ->
  In x00 bs ->
  let r := ast37_compile_impl module source fname mode flags dont_inherit
             optimize e in
  value r = None /\
  plain_message (pending r) PyExc_ValueError /\
  ~ In PyExc_ValueError
       [PyExc_SyntaxError; PyExc_IndentationError; PyExc_TabError] /\
  Forall not_parse (events r).
Proof.
  intros Hast Hbytes Hnul r. subst r.
  assert (Hdistinct : ~ In PyExc_ValueError
            [PyExc_SyntaxError; PyExc_IndentationError; PyExc_TabError])
    by (cbn; intuition discriminate).
  unfold ast37_compile_impl, ast37_compile_body, plain_message,
    PyEval_MergeCompilerFlags, PyAST_Check.
  rewrite Hast.
  destruct (nonzero (Z.land flags (Z.lnot _)));
    [cbn; repeat split; auto; [eexists; reflexivity|repeat constructor]|].
  destruct ((optimize <? -1) || (optimize >? 2));
    [cbn; repeat split; auto; [eexists; reflexivity|repeat constructor]|].
  destruct (negb (nonzero dont_inherit));
    (destruct (mode =? "exec")%string;
     [|destruct (mode =? "eval")%string;
       [|destruct (mode =? "single")%string]]);
    cbn [bind call value pending events ret emit Py_DECREF PyErr_SetString
         raise app];
    try (repeat split; auto; [eexists; reflexivity|repeat constructor]).
  all: match goal with
       | |- context [source_as_string ?s ?f ?w ?c ?e'] =>
           destruct (source_as_string_nul s bs f w c e' Hbytes Hnul)
             as (Hv & Hp & Hev);
           destruct (source_as_string s f w c e') as [[[str cf'] copy] p evs]
       end;
    cbn in Hv, Hp, Hev; subst str p;
    cbn [bind call value pending events ret emit Py_DECREF app fst snd];
    (repeat split; auto; [eexists; reflexivity|]);
    forall_events.
Qed.

End FrontDoor.

(** * The pipeline *)

Lemma arena_trace_none evs :
  Forall (fun ev => is_arena_event ev = false) evs -> arena_trace evs = [].
Proof.
  induction 1 as [|ev evs Hev _ IH]; [reflexivity|].
  unfold arena_trace in *. cbn. now rewrite Hev.
Qed.

Lemma events_call {A} evs (r : exn + A) e : events (call evs r e) = evs.
Proof. unfold call. now destruct r. Qed.

(** Runs the monad as far as the answers of the runtime are known, asking
    for the answer of the next runtime call by cases. *)
Ltac run_calls :=
  repeat (cbn [bind call value pending events ret emit raise negb];
          try match goal with
              | |- context [call _ ?r] =>
                  lazymatch r with
                  | inl _ => fail
                  | inr _ => fail
                  | _ => destruct r
                  end
              end).

Section Pipeline.

Context {H : Headers} {X : Externals}.

Lemma err_input_emits err : emits_only diagnostic_event (err_input err).
Proof.
  unfold err_input. apply emits_only_bind.
  - apply (emits_only_weaken switch_event); [|apply err_input_switch_emits].
    intros []; cbn; tauto.
  - intros [|t m o].
    + apply (emits_only_weaken cleanup_event);
        [|apply err_input_cleanup_emits].
      intros []; cbn; tauto.
    + apply emits_only_bind; [|intros _].
      * apply (emits_only_weaken report_event);
          [|apply err_input_report_emits].
        intros []; cbn; tauto.
      * apply (emits_only_weaken cleanup_event);
          [|apply err_input_cleanup_emits].
        intros []; cbn; tauto.
Qed.

Lemma err_free_emits err : emits_only diagnostic_event (err_free err).
Proof. unfold err_free, Py_CLEAR, Py_XDECREF. emits. Qed.

Lemma PyParser_ASTFromStringObject_emits s fname start flags arena :
  emits_only (parser_stage_event flags)
    (PyParser_ASTFromStringObject s fname start flags arena).
Proof.
  unfold PyParser_ASTFromStringObject, PyParser_ParseStringObject,
    PyAST_FromNodeObject, PyNode_Free.
  repeat first
    [ apply (emits_only_weaken diagnostic_event);
      [intros []; cbn; tauto
      |first [apply err_input_emits | apply err_free_emits]]
    | emits_step ]; cbn; auto.
Qed.

Lemma source_as_string_emits cmd funcname what cf_flags :
  emits_only normalizer_event (source_as_string cmd funcname what cf_flags).
Proof.
  unfold source_as_string, Py_CLEAR, Py_XDECREF, PyErr_SetString. emits.
Qed.

Lemma parser_stage_no_arena flags ev :
  parser_stage_event flags ev -> is_arena_event ev = false.
Proof. destruct ev; cbn; tauto. Qed.

Lemma normalizer_no_arena ev : normalizer_event ev -> is_arena_event ev = false.
Proof. destruct ev; cbn; tauto. Qed.

Lemma Py_CompileStringObject_arena str fname start flags optimize e :
  arena_balanced
    (events (Py_CompileStringObject str fname start flags optimize e)).
Proof.
  unfold Py_CompileStringObject, PyArena_New, PyArena_Free, PyAST_mod2obj,
    PyAST_CompileObject, arena_balanced.
  destruct PyArena_New_ext as [x|a]; cbn [bind call value pending events ret].
  - right; left. reflexivity.
  - right; right. exists a.
    match goal with
    | |- context [PyParser_ASTFromStringObject ?s ?f ?st ?fl ?ar ?e'] =>
        pose proof (PyParser_ASTFromStringObject_emits s f st fl ar e') as Hev;
        destruct (PyParser_ASTFromStringObject s f st fl ar e')
          as [[[m|] fl'] p evs]
    end;
      cbn [value pending events] in *;
      apply (Forall_impl _ (parser_stage_no_arena flags)) in Hev;
      apply arena_trace_none in Hev;
      [destruct (match fl' with Some cf => _ | None => false end)|];
      cbn [bind call value pending events ret emit];
      rewrite ?events_call;
      cbn [app]; unfold arena_trace in *; cbn [filter is_arena_event];
      rewrite !filter_app, Hev; reflexivity.
Qed.

(** C4. In every run of [ast37_compile_impl] the arena calls are: none, or a
    failed [PyArena_New], or one [PyArena_New] followed by one
    [PyArena_Free] of that arena.  An arena that was allocated is thus freed
    exactly once before the function returns, whichever way it returns. *)
Theorem arena_freed_exactly_once
    (module source fname : PyObject) (mode : string)
    (flags dont_inherit optimize : Z) (e : option exn) :
  arena_balanced
    (events (ast37_compile_impl module source fname mode flags dont_inherit
               optimize e)) /\
  forall str start cf,
    arena_balanced
      (events (Py_CompileStringObject str fname start cf optimize e)).
Proof.
  split; [|intros; apply Py_CompileStringObject_arena].
  unfold ast37_compile_impl, ast37_compile_body, PyEval_MergeCompilerFlags,
    PyAST_Check.
  destruct (nonzero (Z.land flags (Z.lnot _))); [left; reflexivity|].
  destruct ((optimize <? -1) || (optimize >? 2)); [left; reflexivity|].
  destruct (negb (nonzero dont_inherit));
    (destruct (mode =? "exec")%string;
     [|destruct (mode =? "eval")%string;
       [|destruct (mode =? "single")%string;
         [|left; reflexivity]]]);
    (destruct (PyAST_Check_ext source) as [x|[|]];
     [left; reflexivity| |]).
  (* a pre-built AST *)
  all: try (destruct (nonzero (Z.land flags PyCF_ONLY_AST));
            [left; reflexivity|];
            unfold ast37_compile_ast, PyArena_New, PyArena_Free,
              PyAST_obj2mod, PyAST_Validate, PyAST_CompileObject;
            destruct PyArena_New_ext as [x|a]; [right; left; reflexivity|];
            right; right; exists a; run_calls; reflexivity).
  (* source text *)
  all: cbn [bind call value pending events ret emit Py_DECREF];
    match goal with
    | |- context [source_as_string ?s ?f ?w ?c ?e'] =>
        pose proof (source_as_string_emits s f w c e') as Hev;
        destruct (source_as_string s f w c e') as [[[[str|] cf'] copy] p evs]
    end;
    cbn [value pending events] in *;
    apply (Forall_impl _ normalizer_no_arena) in Hev;
    apply arena_trace_none in Hev;
    cbn [bind call value pending events ret emit Py_DECREF];
    try (left; cbn [app]; unfold arena_trace in *; cbn [filter is_arena_event];
         rewrite ?filter_app, Hev; reflexivity).
  all: match goal with
       | |- context [Py_CompileStringObject ?s ?f ?st ?fl ?o ?e'] =>
           pose proof (Py_CompileStringObject_arena s f st fl o e') as Hbal;
           destruct (Py_CompileStringObject s f st fl o e') as [v p' evs']
       end;
    cbn [value pending events] in *.
  all: unfold arena_balanced, arena_trace in *; rewrite !filter_app;
    destruct copy;
    cbn [filter is_arena_event app events Py_XDECREF emit ret];
    rewrite Hev, ?app_nil_r; exact Hbal.
Qed.

End Pipeline.

(** * Which stages run *)

Lemma occurs_before_adjacent a b post : occurs_before a b (a :: b :: post).
Proof. exists [a], post. split; [reflexivity|now left]. Qed.

Lemma occurs_before_skip a b x evs :
  occurs_before a b evs -> occurs_before a b (x :: evs).
Proof.
  intros (pre & post & -> & Hin). exists (x :: pre), post.
  split; [reflexivity|now right].
Qed.

Lemma occurs_before_frame a b pre mid post :
  occurs_before a b mid -> occurs_before a b (pre ++ mid ++ post).
Proof.
  intros (pre' & post' & -> & Hin). exists (pre ++ pre')%list, (post' ++ post)%list.
  split; [|apply in_or_app; now right].
  now rewrite <- !app_assoc.
Qed.

Lemma land_lor_absorb a b : Z.land (Z.lor a b) b = b.
Proof.
  apply Z.bits_inj'. intros n _.
  rewrite Z.land_spec, Z.lor_spec. destruct (Z.testbit a n), (Z.testbit b n);
    reflexivity.
Qed.

Lemma nonzero_land_lor a b c :
  nonzero (Z.land a b) = true -> nonzero (Z.land (Z.lor a c) b) = true.
Proof.
  unfold nonzero. rewrite !negb_true_iff, !Z.eqb_neq. intros Hab Hz.
  apply Hab. rewrite Z.land_lor_distr_l in Hz.
  now apply Z.lor_eq_0_iff in Hz.
Qed.

Section Stages.

Context {H : Headers} {X : Externals}.

Lemma Py_CompileStringObject_emits str fname start flags optimize :
  emits_only (compile_string_event flags)
    (Py_CompileStringObject str fname start flags optimize).
Proof.
  unfold Py_CompileStringObject, PyArena_New, PyArena_Free, PyAST_mod2obj,
    PyAST_CompileObject.
  repeat first
    [ apply (emits_only_weaken (parser_stage_event flags));
      [intros []; cbn; tauto|apply PyParser_ASTFromStringObject_emits]
    | emits_step ]; cbn; auto.
Qed.

Lemma PyParser_ASTFromStringObject_flags s fname start cf arena e :
  exists extra,
    snd (value (PyParser_ASTFromStringObject s fname start (Some cf) arena e))
    = Some (Z.lor cf extra).
Proof.
  unfold PyParser_ASTFromStringObject, PyParser_ParseStringObject.
  cbn [bind value pending events emit ret fst snd].
  destruct (po_node _).
  - eexists. reflexivity.
  - exists 0. cbn. now rewrite Z.lor_0_r.
Qed.

Lemma source_as_string_flags cmd funcname what cf e :
  snd (fst (value (source_as_string cmd funcname what cf e))) =
  if PyUnicode_Check cmd then Z.lor cf PyCF_IGNORE_COOKIE else cf.
Proof.
  unfold source_as_string.
  destruct (PyUnicode_Check cmd).
  - run_calls; [reflexivity|]. destruct (negb _); reflexivity.
  - destruct cmd; run_calls;
      repeat match goal with
             | |- context [if negb ?b then _ else _] => destruct (negb b)
             | |- context [match ?o with Some _ => _ | None => _ end] =>
                 destruct o
             end; run_calls; try reflexivity.
Qed.

Lemma PARSER_FLAGS_cookie cf :
  Z.land cf PyCF_IGNORE_COOKIE <> 0 ->
  Z.land (PARSER_FLAGS (Some cf)) PyPARSE_IGNORE_COOKIE = PyPARSE_IGNORE_COOKIE.
Proof.
  intro Hbit. unfold PARSER_FLAGS, nonzero.
  apply Z.eqb_neq in Hbit. rewrite Hbit. cbn [negb].
  destruct (negb (Z.land cf CO_FUTURE_BARRY_AS_BDFL =? 0)).
  - rewrite Z.land_lor_distr_l, land_lor_absorb.
    apply Z.bits_inj'. intros n _.
    rewrite Z.lor_spec, Z.land_spec.
    destruct (Z.testbit PyPARSE_IGNORE_COOKIE n),
      (Z.testbit PyPARSE_BARRY_AS_BDFL n); reflexivity.
  - apply land_lor_absorb.
Qed.

Lemma emits_only_bind_value {A B} (P : event -> Prop) (m : M A)
    (f : A -> M B) :
  emits_only P m -> (forall e, emits_only P (f (value (m e)))) ->
  emits_only P (bind m f).
Proof.
  intros Hm Hf e. unfold bind; cbn. apply Forall_app. split; [apply Hm|apply Hf].
Qed.

(** The events of [ast37_compile_impl] are in [P] as soon as the
    housekeeping events are and the two compiling branches emit only [P]. *)
Lemma ast37_compile_impl_emits (P : event -> Prop)
    (module source fname : PyObject) (mode : string)
    (flags dont_inherit optimize : Z) :
  (forall o, P (EvDecref o)) -> (forall o, P (EvIncref o)) ->
  (forall cf, P (EvMergeFlags cf)) -> (forall o, P (EvBufferRelease o)) ->
  (PyAST_Check_ext source = inr true ->
   nonzero (Z.land flags PyCF_ONLY_AST) = false ->
   forall compile_mode cf,
     emits_only P (ast37_compile_ast source fname compile_mode cf optimize)) ->
  (PyAST_Check_ext source = inr false ->
   forall str start extra,
     emits_only P (Py_CompileStringObject str fname start
                     (Some (text_flags source flags extra)) optimize)) ->
  emits_only P (ast37_compile_impl module source fname mode flags dont_inherit
                  optimize).
Proof.
  intros Hdec Hinc Hmerge Hrel Hast Htext.
  assert (Hnorm : forall cmd f w cf,
             emits_only P (source_as_string cmd f w cf)).
  { intros. apply (emits_only_weaken normalizer_event);
      [intros []; cbn; auto; tauto|apply source_as_string_emits]. }
  assert (Hrest : forall cf,
    (exists extra, cf = Z.lor (Z.lor flags PyCF_SOURCE_IS_UTF8) extra) ->
    forall compile_mode,
    emits_only P
      (is_ast <- PyAST_Check source ;;
       match is_ast with
       | None => ret None
       | Some true =>
           if nonzero (Z.land flags PyCF_ONLY_AST) then
             Py_INCREF source ;; ret (Some source)
           else ast37_compile_ast source fname compile_mode cf optimize
       | Some false =>
           r <- source_as_string source "compile" "string, bytes or AST" cf ;;
           let '(str, cf_flags, source_copy) := r in
           match str with
           | None => ret None
           | Some str =>
               r <- Py_CompileStringObject str fname
                      (nth (Z.to_nat compile_mode)
                         [Py_file_input; Py_eval_input; Py_single_input] 0)
                      (Some cf_flags) optimize ;;
               Py_XDECREF source_copy ;;
               ret (fst r)
           end
       end)).
  { intros cf [extra ->] compile_mode. unfold PyAST_Check.
    destruct (PyAST_Check_ext source) as [x|[|]] eqn:Hcheck;
      (apply emits_only_bind_value; [emits|]); intro e; cbn [call value].
    - emits.
    - destruct (nonzero (Z.land flags PyCF_ONLY_AST)) eqn:Honly.
      + unfold Py_INCREF. emits.
      + now apply Hast.
    - apply emits_only_bind_value; [apply Hnorm|]. intro e'.
      pose proof (source_as_string_flags source "compile"
                    "string, bytes or AST"
                    (Z.lor (Z.lor flags PyCF_SOURCE_IS_UTF8) extra) e') as Hcf.
      destruct (value (source_as_string _ _ _ _ e')) as [[[str|] cf'] copy];
        cbn [fst snd] in Hcf; [|emits].
      subst cf'. apply emits_only_bind; [now apply Htext|].
      intros r. unfold Py_XDECREF. emits. }
  unfold ast37_compile_impl, ast37_compile_body, PyEval_MergeCompilerFlags,
    PyErr_SetString, Py_DECREF.
  apply emits_only_bind; [|intros; emits].
  destruct (nonzero (Z.land flags (Z.lnot _))); [emits|].
  destruct ((optimize <? -1) || (optimize >? 2)); [emits|].
  destruct (negb (nonzero dont_inherit)).
  - apply emits_only_bind_value; [emits|]. intro e.
    cbn [bind value emit ret].
    destruct (mode =? "exec")%string;
      [|destruct (mode =? "eval")%string;
        [|destruct (mode =? "single")%string; [|emits]]];
      apply Hrest; eexists; reflexivity.
  - apply emits_only_bind_value; [emits|]. intro e. cbn [value ret].
    destruct (mode =? "exec")%string;
      [|destruct (mode =? "eval")%string;
        [|destruct (mode =? "single")%string; [|emits]]];
      apply Hrest; exists 0; now rewrite Z.lor_0_r.
Qed.

Lemma text_flags_keep source flags extra bit :
  nonzero (Z.land flags bit) = true ->
  nonzero (Z.land (text_flags source flags extra) bit) = true.
Proof.
  intro Hbit. unfold text_flags.
  destruct (PyUnicode_Check source); repeat apply nonzero_land_lor; exact Hbit.
Qed.

Lemma compile_string_not_validate flags ev :
  compile_string_event flags ev -> not_validate ev.
Proof. destruct ev; cbn; tauto. Qed.

Lemma Py_CompileStringObject_ast_only str fname start cf optimize e :
  nonzero (Z.land cf PyCF_ONLY_AST) = true ->
  let r := Py_CompileStringObject str fname start (Some cf) optimize e in
  Forall not_codegen (events r) /\
  (forall o, fst (value r) = Some o ->
     exists m, PyAST_mod2obj_ext m = inr o /\ In (EvMod2obj m) (events r)).
Proof.
  intros Honly. unfold Py_CompileStringObject, PyArena_New, PyArena_Free,
    PyAST_mod2obj.
  destruct PyArena_New_ext as [x|a]; cbn [bind call value pending events ret].
  { split; [forall_events|]. cbn. discriminate. }
  match goal with
  | |- context [PyParser_ASTFromStringObject ?s ?f ?st ?fl ?ar ?e'] =>
      pose proof (PyParser_ASTFromStringObject_emits s f st fl ar e') as Hev;
      destruct (PyParser_ASTFromStringObject_flags s f st cf ar e')
        as [extra Hfl];
      destruct (PyParser_ASTFromStringObject s f st fl ar e')
        as [[[m|] fl'] p evs]
  end; cbn [value pending events fst snd] in *; subst fl';
    apply (Forall_impl not_codegen) in Hev;
    try (intros []; cbn; tauto).
  - rewrite (nonzero_land_lor _ _ extra Honly).
    destruct (PyAST_mod2obj_ext m) as [x|o'] eqn:Hobj;
      cbn [bind call value pending events ret emit fst];
      (split; [forall_events|]); intros o Ho; inversion Ho; subst.
    exists m. split; [exact Hobj|in_events].
  - cbn [bind call value pending events ret emit fst].
    split; [forall_events|]. discriminate.
Qed.

(** C9. For a [str] source the normalizer sets [PyCF_IGNORE_COOKIE] in the
    compiler flags, whatever they were, and every call of the parser that
    [ast37_compile_impl] then makes carries [PyPARSE_IGNORE_COOKIE]. *)
Theorem text_source_ignores_cookie
    (module source fname : PyObject) (mode : string)
    (flags dont_inherit optimize : Z) (e : option exn) :
  PyCF_IGNORE_COOKIE <> 0 ->
  PyUnicode_Check source = true ->
  (forall funcname what cf e',
     Z.land (snd (fst (value (source_as_string source funcname what cf e'))))
            PyCF_IGNORE_COOKIE = PyCF_IGNORE_COOKIE) /\
  Forall cookie_ignored
    (events (ast37_compile_impl module source fname mode flags dont_inherit
               optimize e)).
Proof.
  intros Hbit Htext. split.
  - intros. rewrite source_as_string_flags, Htext. apply land_lor_absorb.
  - apply ast37_compile_impl_emits; try exact (fun _ => I).
    + intros _ _ compile_mode cf.
      unfold ast37_compile_ast, PyArena_New, PyArena_Free, PyAST_obj2mod,
        PyAST_Validate, PyAST_CompileObject.
      emits.
    + intros _ str start extra.
      apply (emits_only_weaken
               (compile_string_event (Some (text_flags source flags extra))));
        [|apply Py_CompileStringObject_emits].
      intros ev Hev. destruct ev; try exact I. cbn in Hev |- *. subst iflags.
      apply PARSER_FLAGS_cookie. unfold text_flags. rewrite Htext.
      now rewrite land_lor_absorb.
Qed.

(** The four ways a run of [ast37_compile_impl] can go: it fails before any
    compiling branch; it returns a pre-built AST as is; it compiles a
    pre-built AST; it compiles source text. *)
Lemma ast37_compile_impl_run
    (module source fname : PyObject) (mode : string)
    (flags dont_inherit optimize : Z) (e : option exn) :
  let r := ast37_compile_impl module source fname mode flags dont_inherit
             optimize e in
  (value r = None /\ Forall housekeeping (events r)) \/
  (PyAST_Check_ext source = inr true /\
   nonzero (Z.land flags PyCF_ONLY_AST) = true /\
   value r = Some source /\ Forall housekeeping (events r)) \/
  (PyAST_Check_ext source = inr true /\
   nonzero (Z.land flags PyCF_ONLY_AST) = false /\
   exists pre compile_mode cf e',
     Forall housekeeping pre /\
     events r =
       (pre ++ events (ast37_compile_ast source fname compile_mode cf
                         optimize e') ++ [EvDecref fname])%list /\
     value r = value (ast37_compile_ast source fname compile_mode cf
                        optimize e')) \/
  (PyAST_Check_ext source = inr false /\
   exists pre post str start extra e',
     Forall housekeeping pre /\ Forall housekeeping post /\
     events r =
       (pre ++ events (Py_CompileStringObject str fname start
                         (Some (text_flags source flags extra)) optimize e')
            ++ post)%list /\
     value r = fst (value (Py_CompileStringObject str fname start
                             (Some (text_flags source flags extra))
                             optimize e'))).
Proof.
  assert (Hrest : forall cf compile_mode pre e0,
    (exists extra, cf = Z.lor (Z.lor flags PyCF_SOURCE_IS_UTF8) extra) ->
    Forall housekeeping pre ->
    let body :=
      (is_ast <- PyAST_Check source ;;
       match is_ast with
       | None => ret None
       | Some true =>
           if nonzero (Z.land flags PyCF_ONLY_AST) then
             Py_INCREF source ;; ret (Some source)
           else ast37_compile_ast source fname compile_mode cf optimize
       | Some false =>
           r <- source_as_string source "compile" "string, bytes or AST" cf ;;
           let '(str, cf_flags, source_copy) := r in
           match str with
           | None => ret None
           | Some str =>
               r <- Py_CompileStringObject str fname
                      (nth (Z.to_nat compile_mode)
                         [Py_file_input; Py_eval_input; Py_single_input] 0)
                      (Some cf_flags) optimize ;;
               Py_XDECREF source_copy ;;
               ret (fst r)
           end
       end) e0 in
    let evs := (pre ++ events body ++ [EvDecref fname])%list in
    (value body = None /\ Forall housekeeping evs) \/
    (PyAST_Check_ext source = inr true /\
     nonzero (Z.land flags PyCF_ONLY_AST) = true /\
     value body = Some source /\ Forall housekeeping evs) \/
    (PyAST_Check_ext source = inr true /\
     nonzero (Z.land flags PyCF_ONLY_AST) = false /\
     exists pre compile_mode cf e',
       Forall housekeeping pre /\
       evs =
         (pre ++ events (ast37_compile_ast source fname compile_mode cf
                           optimize e') ++ [EvDecref fname])%list /\
       value body = value (ast37_compile_ast source fname compile_mode cf
                             optimize e')) \/
    (PyAST_Check_ext source = inr false /\
     exists pre post str start extra e',
       Forall housekeeping pre /\ Forall housekeeping post /\
       evs =
         (pre ++ events (Py_CompileStringObject str fname start
                           (Some (text_flags source flags extra)) optimize e')
              ++ post)%list /\
       value body = fst (value (Py_CompileStringObject str fname start
                                  (Some (text_flags source flags extra))
                                  optimize e')))).
  { intros cf compile_mode pre e0 [extra ->] Hpre. unfold PyAST_Check.
    destruct (PyAST_Check_ext source) as [x|[|]] eqn:Hcheck;
      cbn [bind call value pending events ret app].
    - left. split; [reflexivity|forall_events].
    - destruct (nonzero (Z.land flags PyCF_ONLY_AST)) eqn:Honly.
      + right; left. cbn. repeat split; forall_events.
      + right; right; left. repeat split. exists pre. do 3 eexists.
        split; [exact Hpre|]. split; reflexivity.
    - match goal with
      | |- context [source_as_string ?s ?f ?w ?c ?e'] =>
          pose proof (source_as_string_emits s f w c e') as Hev;
          pose proof (source_as_string_flags s f w c e') as Hcf;
          destruct (source_as_string s f w c e') as [[[[str|] cf'] copy] p evs]
      end; cbn [value pending events fst snd] in *.
      + right; right; right. split; [reflexivity|].
        exists (pre ++ evs)%list, (events (Py_XDECREF copy None) ++
                                   [EvDecref fname])%list.
        subst cf'. fold (text_flags source flags extra).
        do 4 eexists. split; [|split; [|split]].
        * apply Forall_app. split; [exact Hpre|].
          eapply Forall_impl; [|exact Hev]. intros []; cbn; tauto.
        * destruct copy; cbn; forall_events.
        * cbn [bind value pending events ret].
          rewrite <- !app_assoc, ?app_nil_r. do 3 f_equal.
          destruct copy; reflexivity.
        * reflexivity.
      + left. cbn. split; [reflexivity|].
        rewrite ?app_nil_r. apply Forall_app. split; [exact Hpre|].
        apply Forall_app. split; [|forall_events].
        eapply Forall_impl; [|exact Hev]. intros []; cbn; tauto. }
  unfold ast37_compile_impl, ast37_compile_body, PyEval_MergeCompilerFlags,
    PyErr_SetString.
  destruct (nonzero (Z.land flags (Z.lnot _)));
    [left; cbn; split; [reflexivity|forall_events]|].
  destruct ((optimize <? -1) || (optimize >? 2));
    [left; cbn; split; [reflexivity|forall_events]|].
  destruct (negb (nonzero dont_inherit));
    (destruct (mode =? "exec")%string;
     [|destruct (mode =? "eval")%string;
       [|destruct (mode =? "single")%string;
         [|left; cbn; split; [reflexivity|forall_events]]]]);
    cbn [bind value pending events ret emit Py_DECREF];
    rewrite ?app_nil_r;
    match goal with
    | |- context [(?pre ++ events (?body ?e0)) ++ [EvDecref fname]] =>
        rewrite <- (app_assoc pre)
    | _ => idtac
    end.
  all: first
    [ eapply (Hrest _ _ [EvMergeFlags _] _);
      [eexists; reflexivity|forall_events]
    | eapply (Hrest _ _ [] _);
      [exists 0; now rewrite Z.lor_0_r|forall_events] ].
Qed.

Lemma housekeeping_not_codegen ev : housekeeping ev -> not_codegen ev.
Proof. destruct ev; cbn; tauto. Qed.

Lemma ast37_compile_ast_validated source fname compile_mode cf optimize e
    m f c o a :
  let evs := events (ast37_compile_ast source fname compile_mode cf optimize e)
  in
  In (EvCompile m f c o a) evs ->
  occurs_before (EvValidate m true) (EvCompile m f c o a) evs.
Proof.
  unfold ast37_compile_ast, PyArena_New, PyArena_Free, PyAST_obj2mod,
    PyAST_Validate, PyAST_CompileObject.
  destruct PyArena_New_ext as [x|a']; run_calls; cbn [app In];
    intros Hin; decompose [or] Hin; try discriminate; try contradiction;
    match goal with
    | Heq : EvCompile _ _ _ _ _ = EvCompile _ _ _ _ _ |- _ =>
        inversion Heq; subst
    end;
    repeat first [apply occurs_before_adjacent | apply occurs_before_skip].
Qed.

(** C1, as the code has it.  When the source is a pre-built AST, the code
    generator is called only after the validator has accepted that tree;
    when the source is text, the validator is not called at all. *)
Theorem validator_runs_for_prebuilt_ast_only
    (module source fname : PyObject) (mode : string)
    (flags dont_inherit optimize : Z) (e : option exn) :
  let evs := events (ast37_compile_impl module source fname mode flags
                       dont_inherit optimize e) in
  (PyAST_Check_ext source = inr true ->
   forall m f c o a,
     In (EvCompile m f c o a) evs ->
     occurs_before (EvValidate m true) (EvCompile m f c o a) evs) /\
  (PyAST_Check_ext source = inr false -> Forall not_validate evs).
Proof.
  cbv zeta. split.
  - intros Hcheck m f c o a Hin.
    destruct (ast37_compile_impl_run module source fname mode flags
                dont_inherit optimize e)
      as [(_ & Hev)|[(_ & _ & _ & Hev)|[(_ & _ & Hrun)|(Hcheck' & _)]]].
    + apply (Forall_impl _ housekeeping_not_codegen) in Hev.
      rewrite Forall_forall in Hev. destruct (Hev _ Hin).
    + apply (Forall_impl _ housekeeping_not_codegen) in Hev.
      rewrite Forall_forall in Hev. destruct (Hev _ Hin).
    + destruct Hrun as (pre & cm & cf & e' & Hpre & Hevs & _).
      rewrite Hevs in Hin |- *.
      apply (Forall_impl _ housekeeping_not_codegen) in Hpre.
      rewrite Forall_forall in Hpre.
      apply in_app_or in Hin. destruct Hin as [Hin|Hin];
        [destruct (Hpre _ Hin)|].
      apply in_app_or in Hin. destruct Hin as [Hin|Hin];
        [|cbn in Hin; intuition discriminate].
      now apply occurs_before_frame, ast37_compile_ast_validated.
    + rewrite Hcheck in Hcheck'. discriminate.
  - intros Hcheck. apply ast37_compile_impl_emits; try exact (fun _ => I).
    + intros Hcheck'. rewrite Hcheck in Hcheck'. discriminate.
    + intros _ str start extra.
      apply (emits_only_weaken
               (compile_string_event (Some (text_flags source flags extra))));
        [apply compile_string_not_validate|apply Py_CompileStringObject_emits].
Qed.

End Stages.

(** * The offending line *)

Section OffendingLine.

Context {H : Headers} {X : Externals}.


Lemma err_input_report_run err ty msg msg_obj e :
  let d := err_input_errtext err e in
  exists w tail_pre tail_post,
    events (err_input_report err ty msg msg_obj e) =
      (events d ++ tail_pre ++ EvSetObject ty w :: tail_post)%list /\
    pending (err_input_report err ty msg msg_obj e) = Some (ty, w) /\
    Forall is_decref tail_pre /\ Forall is_decref tail_post /\
    forall o, w = Some o ->
      exists fn u,
        filename err = Some fn /\ fst (value d) = Some u /\
        o = Tuple_obj
              [match msg_obj with Some m => m | None => CStr_obj msg end;
               Tuple_obj [fn; Long_obj (lineno err); Long_obj (snd (value d));
                          u]].
Proof.
  unfold err_input_report, Py_BuildValue, PyErr_SetObject, PyErr_SetString,
    PyErr_Occurred, Py_XDECREF.
  cbn [bind value pending events].
  destruct (value (err_input_errtext err e)) as [errtext off].
  destruct (filename err) as [fn|], errtext as [u|]; cbn [all_some].
  1: destruct (Py_BuildValue_ext [fn; Long_obj (lineno err); Long_obj off; u]).
  all: cbn [bind value pending events ret raise emit app].
  2: destruct msg_obj as [mo|]; cbn [all_some];
     [destruct (Py_BuildValue_ext [mo; _])
     |destruct (Py_BuildValue_ext [CStr_obj msg; _])].
  all: cbn [bind value pending events ret raise emit app].
  all: repeat match goal with
              | |- context [match ?p with Some _ => true | None => false end] =>
                  destruct p
              end;
    cbn [bind value pending events ret raise emit app].
  all: cbn [events pending];
    match goal with
    | |- exists w pre post, (_ ++ [EvSetObject _ ?w0])%list = _ /\ _ =>
        exists w0, [], []
    | |- exists w pre post, (_ ++ [?d; EvSetObject _ ?w0])%list = _ /\ _ =>
        exists w0, [d], []
    | |- exists w pre post,
          (_ ++ [?d; EvSetObject _ ?w0; ?d'])%list = _ /\ _ =>
        exists w0, [d], [d']
    end;
    (split; [reflexivity|]); (split; [reflexivity|]);
    (split; [forall_events|]); (split; [forall_events|]);
    intros o Ho; try discriminate;
    inversion Ho; subst; eexists; eexists; repeat split.
Qed.


Lemma not_in_events (P : event -> Prop) ev evs :
  Forall P evs -> ~ P ev -> ~ In ev evs.
Proof. intros HP Hnot Hin. rewrite Forall_forall in HP. auto. Qed.




End OffendingLine.

(** * The theorems at concrete inputs *)

Lemma cpython37_case_labels : NoDup (@case_labels cpython37).
Proof.
  unfold case_labels. cbn.
  repeat (constructor; [cbn; intuition discriminate|]). constructor.
Qed.

Lemma err_input_category_witness :
  raised_type (@err_input cpython37 Runtime.world (Runtime.error_of 18) None)
    = Some PyExc_TabError /\
  raised_type (@err_input cpython37 Runtime.world (Runtime.error_of 21) None)
    = Some PyExc_IndentationError /\
  raised_type (@err_input cpython37 Runtime.world (Runtime.error_of 11) None)
    = Some PyExc_SyntaxError.
Proof.
  split; [|split].
  - apply (@err_input_category cpython37 Runtime.world (Runtime.error_of 18)
             None cpython37_case_labels).
    reflexivity.
  - apply (@err_input_category cpython37 Runtime.world (Runtime.error_of 21)
             None cpython37_case_labels).
    left. reflexivity.
  - apply (@err_input_category cpython37 Runtime.world (Runtime.error_of 11)
             None cpython37_case_labels).
    right. cbn. tauto.
Defined.

Lemma invalid_optimize_rejected_witness :
  let r := @ast37_compile_impl cpython37 Runtime.world None_obj
             (CStr_obj "x = 1") Runtime.fname "exec" 0 1 3 None in
  value r = None /\
  plain_message (pending r) PyExc_ValueError /\
  events r = [EvDecref Runtime.fname].
Proof.
  apply (@invalid_optimize_rejected cpython37 Runtime.world).
  right. lia.
Defined.

Lemma embedded_nul_rejected_witness :
  let r := @ast37_compile_impl cpython37 Runtime.world None_obj
             (Bytes_obj [x61; x00; x62]) Runtime.fname "exec" 0 1 (-1) None in
  value r = None /\
  plain_message (pending r) PyExc_ValueError /\
  ~ In PyExc_ValueError
       [PyExc_SyntaxError; PyExc_IndentationError; PyExc_TabError] /\
  Forall not_parse (events r).
Proof.
  apply (@embedded_nul_rejected cpython37 Runtime.world None_obj
           (Bytes_obj [x61; x00; x62]) Runtime.fname "exec" 0 1 (-1) None
           [x61; x00; x62]).
  - reflexivity.
  - reflexivity.
  - cbn. tauto.
Defined.

Lemma text_source_ignores_cookie_witness :
  Forall (@cookie_ignored cpython37)
    (events (@ast37_compile_impl cpython37 Runtime.world None_obj
               (CStr_obj "# coding: latin-1") Runtime.fname "exec" 0 1 (-1)
               None)) /\
  In (EvParse (Runtime.bytes_of_string "# coding: latin-1") Runtime.fname 257
        16)
     (events (@ast37_compile_impl cpython37 Runtime.world None_obj
                (CStr_obj "# coding: latin-1") Runtime.fname "exec" 0 1 (-1)
                None)).
Proof.
  split.
  - apply (@text_source_ignores_cookie cpython37 Runtime.world None_obj
             (CStr_obj "# coding: latin-1") Runtime.fname "exec" 0 1 (-1)
             None).
    + cbn. discriminate.
    + reflexivity.
  - vm_compute. tauto.
Defined.


Lemma validator_runs_for_prebuilt_ast_only_witness :
  occurs_before
    (EvValidate (Mod 3) true)
    (EvCompile (Mod 3) Runtime.fname (Some 256) (-1) (Arena 1))
    (events (@ast37_compile_impl cpython37 Runtime.world None_obj (AST_obj 3)
               Runtime.fname "exec" 0 1 (-1) None)) /\
  Forall not_validate
    (events (@ast37_compile_impl cpython37 Runtime.world None_obj
               (CStr_obj "x = 1") Runtime.fname "exec" 0 1 (-1) None)).
Proof.
  split.
  - apply (@validator_runs_for_prebuilt_ast_only cpython37 Runtime.world
             None_obj (AST_obj 3) Runtime.fname "exec" 0 1 (-1) None).
    + reflexivity.
    + vm_compute. tauto.
  - apply (@validator_runs_for_prebuilt_ast_only cpython37 Runtime.world
             None_obj (CStr_obj "x = 1") Runtime.fname "exec" 0 1 (-1) None).
    reflexivity.
Defined.

(** * Where the code departs from the specification *)

(** C1 as stated fails.  Source text compiled in [exec] mode reaches the code
    generator and the validator is never called. *)
Lemma codegen_without_validation :
  let r := @ast37_compile_impl cpython37 Runtime.world None_obj
             (CStr_obj "x = 1") Runtime.fname "exec" 0 1 (-1) None in
  value r = Some (Code_obj 7) /\
  events r =
    [EvArenaNew (Some (Arena 1));
     EvParse (Runtime.bytes_of_string "x = 1") Runtime.fname 257 16;
     EvFromNode (Node 7) 2304 Runtime.fname (Arena 1);
     EvNodeFree (Node 7);
     EvCompile (Mod 7) Runtime.fname (Some 2304) (-1) (Arena 1);
     EvArenaFree (Arena 1);
     EvDecref Runtime.fname] /\
  existsb is_codegen_event (events r) = true /\
  existsb is_validate_event (events r) = false.
Proof. repeat split; vm_compute; reflexivity. Qed.

(** C2 as stated fails.  With [PyCF_ONLY_AST] (0x400) the AST is returned
    and the validator has not run, for source text and for a pre-built AST
    alike. *)
Lemma ast_only_without_validation :
  let text := @ast37_compile_impl cpython37 Runtime.world None_obj
                (CStr_obj "x = 1") Runtime.fname "exec" 1024 1 (-1) None in
  let tree := @ast37_compile_impl cpython37 Runtime.world None_obj
                (AST_obj 3) Runtime.fname "exec" 1024 1 (-1) None in
  nonzero (Z.land 1024 (@PyCF_ONLY_AST cpython37)) = true /\
  value text = Some (AST_obj 7) /\
  existsb is_validate_event (events text) = false /\
  value tree = Some (AST_obj 3) /\
  events tree = [EvIncref (AST_obj 3); EvDecref Runtime.fname].
Proof. repeat split; vm_compute; reflexivity. Qed.


(** * Further properties of the front door *)

Lemma switch_miss {A} (k : Z) (l : list (Z * A)) (d : A) :
  ~ In k (map fst l) -> switch k l d = d.
Proof.
  induction l as [|[label b] rest IH]; cbn [switch map fst In]; [reflexivity|].
  intros Hnot. destruct (Z.eqb_spec k label) as [->|_]; [|apply IH; tauto].
  exfalso. apply Hnot. now left.
Qed.

(** Unfolds the monad in an equation between runs. *)
Ltac run :=
  cbv beta iota zeta delta
    [bind call ret emit raise PyErr_SetString PyErr_SetNone PyErr_NoMemory
     PyErr_Occurred PyErr_Fetch PyErr_SetObject Py_CLEAR Py_XDECREF Py_DECREF
     Py_INCREF value pending events app fst snd option_map negb].

Section Config.

Context {H : Headers} {X : Externals}.

(** With a valid configuration, [ast37_compile_impl] is the merge of the
    flags, then [compile_dispatch], then the release of [filename]. *)
Lemma ast37_compile_impl_valid module source fname mode flags dont_inherit
    optimize compile_mode e :
  valid_config flags optimize mode compile_mode ->
  let d := compile_dispatch source fname compile_mode
             (merged_flags flags dont_inherit) flags optimize e in
  ast37_compile_impl module source fname mode flags dont_inherit optimize e =
  {| value := value d; pending := pending d;
     events := (merge_events flags dont_inherit ++ events d
                  ++ [EvDecref fname])%list |}.
Proof.
  intros (Hflags & Hopt & Hmode).
  unfold ast37_compile_impl, ast37_compile_body, PyEval_MergeCompilerFlags,
    merged_flags, merge_events, compile_dispatch, start_symbol, valid_config,
    recognised_flags, mode_index in *.
  rewrite Hflags. change (nonzero 0) with false. cbv iota.
  replace ((optimize <? -1) || (optimize >? 2)) with false
    by (symmetry; apply orb_false_iff; split;
        [apply Z.ltb_ge|rewrite Z.gtb_ltb; apply Z.ltb_ge]; lia).
  destruct (nonzero dont_inherit);
    (destruct (mode =? "exec")%string;
     [|destruct (mode =? "eval")%string;
       [|destruct (mode =? "single")%string]]);
    inversion Hmode; subst compile_mode;
    cbn [negb bind value pending events ret emit Py_DECREF app];
    rewrite ?app_nil_r; reflexivity.
Qed.

(** X1. The flags are checked first and [optimize] second: an unrecognised
    flag gives ValueError "compile(): unrecognised flags" whatever the other
    arguments are; with recognised flags, [optimize] outside -1..2 gives
    ValueError "compile(): invalid optimize value".  Either way nothing is
    done but releasing [filename]. *)
Theorem flags_checked_before_optimize
    (module source fname : PyObject) (mode : string)
    (flags dont_inherit optimize : Z) (e : option exn) :
  let r := ast37_compile_impl module source fname mode flags dont_inherit
             optimize e in
  (Z.land flags (Z.lnot recognised_flags) <> 0 ->
   value r = None /\
   pending r = Some (PyExc_ValueError,
                     Some (CStr_obj "compile(): unrecognised flags")) /\
   events r = [EvDecref fname]) /\
  (Z.land flags (Z.lnot recognised_flags) = 0 ->
   optimize < -1 \/ optimize > 2 ->
   value r = None /\
   pending r = Some (PyExc_ValueError,
                     Some (CStr_obj "compile(): invalid optimize value")) /\
   events r = [EvDecref fname]).
Proof.
  cbv zeta. unfold ast37_compile_impl, ast37_compile_body, recognised_flags.
  split.
  - intros Hbad. unfold nonzero. apply Z.eqb_neq in Hbad. rewrite Hbad.
    cbn. repeat split.
  - intros Hok Hopt. rewrite Hok. change (nonzero 0) with false. cbv iota.
    replace ((optimize <? -1) || (optimize >? 2)) with true.
    + cbn. repeat split.
    + symmetry. apply orb_true_iff.
      destruct Hopt; [left; apply Z.ltb_lt|right; apply Z.gtb_lt]; lia.
Qed.

(** X2. With recognised flags and [optimize] in range, a mode string other
    than "exec", "eval" and "single" gives ValueError with the message that
    lists the three.  The compiler flags have been merged by then (unless
    [dont_inherit]), and nothing else has been done: the source has not been
    looked at. *)
Theorem invalid_mode_rejected
    (module source fname : PyObject) (mode : string)
    (flags dont_inherit optimize : Z) (e : option exn) :
  Z.land flags (Z.lnot recognised_flags) = 0 ->
  -1 <= optimize <= 2 ->
  mode_index mode = None ->
  let r := ast37_compile_impl module source fname mode flags dont_inherit
             optimize e in
  value r = None /\
  pending r =
    Some (PyExc_ValueError,
          Some (CStr_obj
                  "compile() mode must be 'exec', 'eval' or 'single'")) /\
  events r = (merge_events flags dont_inherit ++ [EvDecref fname])%list.
Proof.
  intros Hflags Hopt Hmode.
  unfold ast37_compile_impl, ast37_compile_body, PyEval_MergeCompilerFlags,
    merge_events, recognised_flags, mode_index in *.
  rewrite Hflags. change (nonzero 0) with false. cbv iota.
  replace ((optimize <? -1) || (optimize >? 2)) with false
    by (symmetry; apply orb_false_iff; split;
        [apply Z.ltb_ge|rewrite Z.gtb_ltb; apply Z.ltb_ge]; lia).
  destruct (mode =? "exec")%string; [discriminate|].
  destruct (mode =? "eval")%string; [discriminate|].
  destruct (mode =? "single")%string; [discriminate|].
  destruct (nonzero dont_inherit); cbn; repeat split.
Qed.

End Config.

Lemma strlen_no_nul (s : list byte) :
  ~ In x00 s -> strlen s = Z.of_nat (List.length s).
Proof.
  induction s as [|b s IH]; cbn [strlen List.length In]; [reflexivity|].
  intro Hnot. destruct (Byte.eqb b x00) eqn:Hb.
  - exfalso. apply Hnot. left. symmetry. now apply Byte.byte_dec_bl.
  - rewrite IH by tauto. lia.
Qed.

Section Normalizer.

Context {H : Headers} {X : Externals}.

(** The run of [source_as_string] on a source it accepts. *)
Lemma source_as_string_run
    (cmd : PyObject) (bs : list byte) (funcname what : string) (cf_flags : Z)
    (e : option exn) :
  source_bytes cmd bs ->
  ~ In x00 bs ->
  source_as_string cmd funcname what cf_flags e =
  {| value := (Some bs,
               if PyUnicode_Check cmd then Z.lor cf_flags PyCF_IGNORE_COOKIE
               else cf_flags,
               source_copy_of cmd bs);
     pending := e;
     events := if takes_buffer cmd then [EvBufferRelease cmd] else [] |}.
Proof.
  intros Hbytes Hnul. apply strlen_no_nul in Hnul.
  apply Z.eqb_eq in Hnul.
  unfold source_bytes in Hbytes.
  unfold source_as_string, source_copy_of, takes_buffer.
  destruct (PyUnicode_Check cmd).
  - rewrite Hbytes. run. rewrite Hnul. reflexivity.
  - destruct cmd;
      first [ subst bs
            | destruct Hbytes as [Hbuf Hcopy]; rewrite Hbuf; run;
              rewrite Hcopy ];
      run; rewrite Hnul; reflexivity.
Qed.

(** X3. On a source whose bytes contain no NUL, [source_as_string] returns
    exactly those bytes; it adds [PyCF_IGNORE_COOKIE] to the flags for a
    [str] and leaves them alone otherwise; [*cmd_copy] is the copy of the
    buffer for a buffer object and NULL for [str], [bytes] and [bytearray];
    the pending exception is untouched. *)
Theorem source_as_string_accepts
    (cmd : PyObject) (bs : list byte) (funcname what : string) (cf_flags : Z)
    (e : option exn) :
  source_bytes cmd bs ->
  ~ In x00 bs ->
  source_as_string cmd funcname what cf_flags e =
  {| value := (Some bs,
               if PyUnicode_Check cmd then Z.lor cf_flags PyCF_IGNORE_COOKIE
               else cf_flags,
               source_copy_of cmd bs);
     pending := e;
     events := if takes_buffer cmd then [EvBufferRelease cmd] else [] |}.
Proof.
  apply source_as_string_run.
Qed.

(** X4. [source_as_string] leaks neither the view nor the copy.  The view
    it obtained with [PyObject_GetBuffer] is released exactly once, also
    when the copy cannot be allocated; and whenever it returns NULL,
    [*cmd_copy] is NULL, a copy made before a NUL byte was found having been
    released. *)
Theorem source_as_string_releases
    (cmd : PyObject) (funcname what : string) (cf_flags : Z)
    (e : option exn) :
  let r := source_as_string cmd funcname what cf_flags e in
  released_views (events r) =
    (if takes_buffer cmd then
       match PyObject_GetBuffer_ext cmd with
       | inr _ => [cmd]
       | inl _ => []
       end
     else []) /\
  (fst (fst (value r)) = None -> snd (value r) = None) /\
  (forall buf,
     takes_buffer cmd = true ->
     PyObject_GetBuffer_ext cmd = inr buf ->
     PyBytes_FromStringAndSize_ext buf = None ->
     In x00 buf ->
     events r = [EvBufferRelease cmd; EvDecref (Bytes_obj buf)]).
Proof.
  cbv zeta. unfold source_as_string, takes_buffer.
  destruct (PyUnicode_Check cmd) eqn:Huni; cbn [negb andb].
  - destruct (PyUnicode_AsUTF8AndSize_ext cmd) as [x|str];
      cbn [bind call value pending events ret];
      [|destruct (negb (strlen str =? Z.of_nat (List.length str)))];
      cbn; repeat split; intros; discriminate.
  - destruct cmd; cbn in Huni; try discriminate;
      try (destruct (negb (strlen bs =? Z.of_nat (List.length bs)));
           cbn; repeat split; intros; discriminate).
    all: destruct (PyObject_GetBuffer_ext _) as [x|buf] eqn:Hbuf;
      cbn [bind call value pending events ret];
      [cbn; repeat split; intros; discriminate|].
    all: destruct (PyBytes_FromStringAndSize_ext buf) as [x|] eqn:Hcopy;
      cbn [bind call value pending events ret emit];
      [cbn; repeat split; intros buf' _ Hb Hc _;
       inversion Hb; subst; rewrite Hcopy in Hc; discriminate|].
    all: destruct (Z.eqb_spec (strlen buf) (Z.of_nat (List.length buf)))
        as [Hlen|Hlen];
      cbn; repeat split; try discriminate;
      intros buf' _ Hb _ Hnul; inversion Hb; subst buf';
      first [reflexivity | apply strlen_nul in Hnul; lia].
Qed.

(** X5. An object that is neither [str], [bytes] nor [bytearray] and
    exports no buffer is refused with TypeError
    "<funcname>() arg 1 must be a <what> object"; for [ast37_compile_impl]
    (when the object is not an AST either and the configuration is valid)
    that reads "compile() arg 1 must be a string, bytes or AST object", and
    no arena is allocated and no parser called. *)
Theorem source_of_wrong_type_rejected
    (module source fname : PyObject) (mode : string)
    (flags dont_inherit optimize compile_mode : Z) (e : option exn)
    (x : exn) :
  takes_buffer source = true ->
  PyObject_GetBuffer_ext source = inl x ->
  (forall funcname what cf_flags e',
     source_as_string source funcname what cf_flags e' =
     {| value := (None, cf_flags, None);
        pending := Some (PyExc_TypeError,
                         Some (CStr_obj (funcname ++ "() arg 1 must be a "
                                           ++ what ++ " object")));
        events := [] |}) /\
  (valid_config flags optimize mode compile_mode ->
   PyAST_Check_ext source = inr false ->
   ast37_compile_impl module source fname mode flags dont_inherit optimize e =
   {| value := None;
      pending := Some (PyExc_TypeError,
                       Some (CStr_obj
                         "compile() arg 1 must be a string, bytes or AST object"));
      events := (merge_events flags dont_inherit ++ [EvDecref fname])%list |}).
Proof.
  intros Htakes Hbuf.
  assert (Hnorm : forall funcname what cf_flags e',
     source_as_string source funcname what cf_flags e' =
     {| value := (None, cf_flags, None);
        pending := Some (PyExc_TypeError,
                         Some (CStr_obj (funcname ++ "() arg 1 must be a "
                                           ++ what ++ " object")));
        events := [] |}).
  { intros. unfold source_as_string, takes_buffer in *.
    destruct (PyUnicode_Check source); [discriminate|].
    destruct source; try discriminate; rewrite Hbuf; reflexivity. }

  split; [exact Hnorm|].
  intros Hvalid Hcheck.
  rewrite (ast37_compile_impl_valid _ _ _ _ _ _ _ _ _ Hvalid).
  unfold compile_dispatch, PyAST_Check. rewrite Hcheck.
  cbn [bind call value pending events ret app]. rewrite Hnorm.
  reflexivity.
Qed.

End Normalizer.

Lemma freed_nodes_app evs1 evs2 :
  freed_nodes (evs1 ++ evs2) = (freed_nodes evs1 ++ freed_nodes evs2)%list.
Proof. apply flat_map_app. Qed.

Section ParserStage.

Context {H : Headers} {X : Externals}.

(** X6. [PARSER_FLAGS] translates three flags and nothing else.  A NULL
    [flags] gives 0.  When the three [PyPARSE_*] masks are nonzero and
    pairwise disjoint, each is set in the result exactly when its compiler
    flag is set in [cf_flags]; any other bit of [cf_flags] is dropped. *)
Theorem PARSER_FLAGS_translates (cf_flags : Z) :
  PyPARSE_DONT_IMPLY_DEDENT <> 0 ->
  PyPARSE_IGNORE_COOKIE <> 0 ->
  PyPARSE_BARRY_AS_BDFL <> 0 ->
  Z.land PyPARSE_DONT_IMPLY_DEDENT PyPARSE_IGNORE_COOKIE = 0 ->
  Z.land PyPARSE_DONT_IMPLY_DEDENT PyPARSE_BARRY_AS_BDFL = 0 ->
  Z.land PyPARSE_IGNORE_COOKIE PyPARSE_BARRY_AS_BDFL = 0 ->
  PARSER_FLAGS None = 0 /\
  nonzero (Z.land (PARSER_FLAGS (Some cf_flags)) PyPARSE_DONT_IMPLY_DEDENT)
    = nonzero (Z.land cf_flags PyCF_DONT_IMPLY_DEDENT) /\
  nonzero (Z.land (PARSER_FLAGS (Some cf_flags)) PyPARSE_IGNORE_COOKIE)
    = nonzero (Z.land cf_flags PyCF_IGNORE_COOKIE) /\
  nonzero (Z.land (PARSER_FLAGS (Some cf_flags)) PyPARSE_BARRY_AS_BDFL)
    = nonzero (Z.land cf_flags CO_FUTURE_BARRY_AS_BDFL) /\
  Z.land (PARSER_FLAGS (Some cf_flags))
         (Z.lnot (Z.lor (Z.lor PyPARSE_DONT_IMPLY_DEDENT PyPARSE_IGNORE_COOKIE)
                        PyPARSE_BARRY_AS_BDFL)) = 0.
Proof.
  intros Hd Hi Hb Hdi Hdb Hib.
  assert (Hid : Z.land PyPARSE_IGNORE_COOKIE PyPARSE_DONT_IMPLY_DEDENT = 0)
    by now rewrite Z.land_comm.
  assert (Hbd : Z.land PyPARSE_BARRY_AS_BDFL PyPARSE_DONT_IMPLY_DEDENT = 0)
    by now rewrite Z.land_comm.
  assert (Hbi : Z.land PyPARSE_BARRY_AS_BDFL PyPARSE_IGNORE_COOKIE = 0)
    by now rewrite Z.land_comm.
  assert (Hnz : forall m, m <> 0 -> nonzero m = true).
  { intros m Hm. unfold nonzero. now apply negb_true_iff, Z.eqb_neq. }
  split; [reflexivity|].
  unfold PARSER_FLAGS.
  repeat split.
  1-3: destruct (nonzero (Z.land cf_flags PyCF_DONT_IMPLY_DEDENT)),
      (nonzero (Z.land cf_flags PyCF_IGNORE_COOKIE)),
      (nonzero (Z.land cf_flags CO_FUTURE_BARRY_AS_BDFL));
    rewrite ?Z.land_lor_distr_l, ?Hdi, ?Hdb, ?Hib, ?Hid, ?Hbd, ?Hbi,
      ?Z.land_diag, ?Z.land_0_l, ?Z.lor_0_l, ?Z.lor_0_r;
    first [reflexivity | now apply Hnz].
  apply Z.bits_inj'. intros k Hk.
  rewrite Z.land_spec, Z.lnot_spec, !Z.lor_spec, Z.bits_0 by assumption.
  destruct (nonzero (Z.land cf_flags PyCF_DONT_IMPLY_DEDENT)),
    (nonzero (Z.land cf_flags PyCF_IGNORE_COOKIE)),
    (nonzero (Z.land cf_flags CO_FUTURE_BARRY_AS_BDFL));
    rewrite ?Z.lor_spec, ?Z.bits_0;
    destruct (Z.testbit PyPARSE_DONT_IMPLY_DEDENT k),
      (Z.testbit PyPARSE_IGNORE_COOKIE k),
      (Z.testbit PyPARSE_BARRY_AS_BDFL k); reflexivity.
Qed.

Lemma freed_nodes_diagnostic evs :
  Forall diagnostic_event evs -> freed_nodes evs = [].
Proof.
  induction 1 as [|ev evs Hev _ IH]; [reflexivity|].
  destruct ev; cbn in Hev |- *; try exact IH; destruct Hev.
Qed.

(** X7. [PyParser_ASTFromStringObject] frees the parse tree exactly once
    when the parser returned one, whether or not lowering it succeeded, and
    frees nothing otherwise; the AST builder is called only on a tree the
    parser returned, and a result other than NULL is what the builder made
    of that tree. *)
Theorem parse_tree_freed_once
    (s : list byte) (fname : PyObject) (start : Z) (flags : option Z)
    (arena : PyArena) (e : option exn) :
  let po := PyParser_ParseStringObject_ext s fname start (PARSER_FLAGS flags) in
  let r := PyParser_ASTFromStringObject s fname start flags arena e in
  freed_nodes (events r) =
    match po_node po with Some n => [n] | None => [] end /\
  (forall n cf a f, In (EvFromNode n cf f a) (events r) ->
     po_node po = Some n /\ a = arena /\ f = fname) /\
  (forall m, fst (value r) = Some m ->
     exists n cf, po_node po = Some n /\
                  PyAST_FromNodeObject_ext n cf fname arena = inr m).
Proof.
  cbv zeta.
  unfold PyParser_ASTFromStringObject, PyParser_ParseStringObject,
    PyAST_FromNodeObject, PyNode_Free, err_free, Py_CLEAR.
  cbn [bind value pending events emit ret].
  destruct (po_node _) as [n|] eqn:Hnode.
  - assert (Hin : forall n' cf a f (l : list event),
              In (EvFromNode n' cf f a)
                 (EvParse s fname start (PARSER_FLAGS flags)
                    :: EvFromNode n
                         (Z.lor match flags with Some f0 => f0 | None => 0 end
                            (Z.land
                               (po_flags
                                  (PyParser_ParseStringObject_ext s fname
                                     start (PARSER_FLAGS flags))) PyCF_MASK))
                         fname arena
                    :: EvNodeFree n :: l) ->
              Forall is_decref l ->
              Some n = Some n' /\ a = arena /\ f = fname).
    { intros n' cf a f l [Heq|[Heq|[Heq|Hin]]] Hl; try discriminate.
      - inversion Heq; subst. repeat split.
      - exfalso. rewrite Forall_forall in Hl. apply (Hl _ Hin). }
    match goal with
    | |- context [call _ ?r] => destruct r as [x|m] eqn:Hm
    end;
      destruct (po_exn _);
      cbn [bind call value pending events ret emit raise fst snd app];
      destruct (filename _);
      cbn [Py_XDECREF bind value pending events emit ret raise app fst];
      (split; [reflexivity|split]);
      try (intros n' cf a f Hin'; eapply Hin; [exact Hin'|];
           repeat constructor);
      intros m' Hm'; inversion Hm'; subst; do 2 eexists;
      (split; [reflexivity|exact Hm]).
  - destruct (po_exn _); cbn [bind value pending events ret raise app];
    match goal with
    | |- context [err_input ?err ?e'] =>
        pose proof (err_input_emits err e') as Hev;
        destruct (err_input err e') as [err' p evs]
    end;
    cbn [value pending events fst] in *;
    rewrite ?app_nil_r;
    (assert (Hall : Forall diagnostic_event
                     (evs ++ events (Py_XDECREF (filename err') p)));
     [apply Forall_app; split; [exact Hev|];
      destruct (filename err'); cbn; forall_events|]);
    (split; [|split];
     [cbn [app];
      match goal with
      | |- freed_nodes (?x :: ?l) = [] =>
          change (freed_nodes ([x] ++ l) = []);
          rewrite freed_nodes_app, (freed_nodes_diagnostic l Hall);
          reflexivity
      end
     |intros n' cf a f [Hin|Hin]; [discriminate|];
      exfalso; rewrite Forall_forall in Hall; apply (Hall _ Hin)
     |discriminate]).
Qed.

(** X8. The future flags the parser found go back to the caller only on
    success: after a successful parse [flags->cf_flags] has gained
    [iflags & PyCF_MASK], where [iflags] is what the parser wrote back, and
    the AST builder is called with these flags; after a failed parse
    [flags->cf_flags] is as it was.  With a NULL [flags] the builder gets
    just [iflags & PyCF_MASK]. *)
Theorem parser_flags_written_back
    (s : list byte) (fname : PyObject) (start : Z) (flags : option Z)
    (arena : PyArena) (e : option exn) :
  let po := PyParser_ParseStringObject_ext s fname start (PARSER_FLAGS flags) in
  let r := PyParser_ASTFromStringObject s fname start flags arena e in
  let cf := match flags with Some cf => cf | None => 0 end in
  (po_node po = None -> snd (value r) = flags) /\
  (forall n, po_node po = Some n ->
     snd (value r) =
       match flags with
       | Some _ => Some (Z.lor cf (Z.land (po_flags po) PyCF_MASK))
       | None => None
       end /\
     In (EvFromNode n (Z.lor cf (Z.land (po_flags po) PyCF_MASK)) fname arena)
        (events r)).
Proof.
  cbv zeta.
  unfold PyParser_ASTFromStringObject, PyParser_ParseStringObject,
    PyAST_FromNodeObject.
  cbn [bind value pending events emit ret].
  split.
  - intros ->. cbn [bind value pending events emit ret snd].
    destruct flags; reflexivity.
  - intros n ->. cbn [bind value pending events emit ret snd].
    rewrite events_call. split; [reflexivity|].
    destruct (po_exn _); cbn; tauto.
Qed.

End ParserStage.

(** * Diagnostics whose value is built *)

Section BuiltDiagnostics.

Context {H : Headers} {X : Externals}.

Lemma err_input_errtext_built err e :
  diagnostic_values_built ->
  exists line, fst (value (err_input_errtext err e)) = Some line.
Proof.
  intros [_ Hdec]. unfold err_input_errtext, PyUnicode_DecodeUTF8.
  destruct (text err) as [t|]; [|eexists; reflexivity].
  destruct (Hdec t (offset err) "replace") as [prefix Hprefix].
  rewrite Hprefix. run.
  destruct (strlen t =? offset err); [eexists; reflexivity|].
  cbv beta iota.
  destruct (Hdec t (strlen t) "replace") as [full Hfull].
  rewrite Hfull. eexists. reflexivity.
Qed.

(** When the runtime builds the values and the file name is known,
    [err_input_report] sets an exception with a value. *)
Lemma err_input_report_built err ty msg msg_obj e :
  diagnostic_values_built ->
  filename err <> None ->
  exists w, pending (err_input_report err ty msg msg_obj e) = Some (ty, Some w).
Proof.
  intros Hbuilt Hfn.
  destruct (err_input_errtext_built err e Hbuilt) as [line Hline].
  destruct Hbuilt as [Hbuild _].
  destruct (filename err) as [fn|] eqn:Hfile; [|now destruct Hfn].
  unfold err_input_report, Py_BuildValue.
  cbv beta iota zeta delta [bind value pending events].
  destruct (err_input_errtext err e) as [[errtext off] p evs].
  cbn [fst value] in Hline. subst errtext.
  rewrite Hfile.
  destruct msg_obj as [m|];
    repeat (cbv beta iota zeta delta
              [all_some bind ret value pending events];
            rewrite ?Hbuild);
    run; eexists; reflexivity.
Qed.

(** The exception [err_input] raises when its [switch] breaks: of type
    [errtype]; its value, if there is one, is the diagnostic with the
    message chosen; and there is one when the runtime builds the values and
    the file name is known. *)
Lemma err_input_diagnostic err e errtype msg msg_obj :
  value (switch (error err) (err_input_cases err) (err_input_default err) e)
    = Break errtype msg msg_obj ->
  exists w,
    pending (err_input err e) = Some (errtype, w) /\
    (forall o, w = Some o ->
       diagnostic_of
         (match msg_obj with Some m => m | None => CStr_obj msg end) err o) /\
    (diagnostic_values_built -> filename err <> None -> w <> None).
Proof.
  intro Hexit. unfold err_input, bind. cbn [value pending]. rewrite Hexit.
  cbn [value pending].
  set (s := switch (error err) (err_input_cases err) (err_input_default err) e).
  destruct (err_input_report_run err errtype msg msg_obj (pending s))
    as (w & _ & _ & _ & Hp & _ & _ & Hw).
  exists w. split; [|split].
  - destruct (err_input_cleanup_spec err msg_obj
                (pending (err_input_report err errtype msg msg_obj
                            (pending s))))
      as (_ & Hkeep & _).
    now rewrite Hkeep.
  - intros o Ho. destruct (Hw o Ho) as (fn & u & Hfn & _ & ->).
    exists fn. eexists. eexists. split; [exact Hfn|reflexivity].
  - intros Hbuilt Hfn.
    destruct (err_input_report_built err errtype msg msg_obj (pending s)
                Hbuilt Hfn) as [w' Hw'].
    rewrite Hw' in Hp. inversion Hp. discriminate.
Qed.

End BuiltDiagnostics.

Section RelaxedSpelling.

Context {H : Headers} {X : Externals}.



End RelaxedSpelling.

Section Diagnostics.

Context {H : Headers} {X : Externals}.

(** The exception [err_input] raises when its [switch] breaks: of type
    [errtype], and its value, if one could be built, starts with [msg_obj]
    if there is one and with [msg] otherwise. *)
Lemma err_input_message_obj err e errtype msg msg_obj :
  value (switch (error err) (err_input_cases err) (err_input_default err) e)
    = Break errtype msg msg_obj ->
  exists w,
    pending (err_input err e) = Some (errtype, w) /\
    forall o, w = Some o ->
      exists v,
        o = Tuple_obj
              [match msg_obj with Some m => m | None => CStr_obj msg end; v].
Proof.
  intro Hexit. unfold err_input, bind. cbn [value pending]. rewrite Hexit.
  cbn [value pending].
  set (s := switch (error err) (err_input_cases err) (err_input_default err) e).
  destruct (err_input_report_run err errtype msg msg_obj (pending s))
    as (w & _ & _ & _ & Hp & _ & _ & Hw).
  exists w. split.
  - destruct (err_input_cleanup_spec err msg_obj
                (pending (err_input_report err errtype msg msg_obj
                            (pending s))))
      as (_ & Hkeep & _).
    now rewrite Hkeep.
  - intros o Ho. destruct (Hw o Ho) as (fn & u & _ & _ & ->).
    eexists. reflexivity.
Qed.

(** X9. The three codes that leave [err_input] by [goto cleanup] build no
    diagnostic.  [E_ERROR] leaves the pending exception as the parser left
    it; [E_INTR] raises KeyboardInterrupt unless an exception is pending
    already, which it keeps; [E_NOMEM] raises MemoryError.  The only thing
    done besides is the release of [err->text]. *)
Theorem err_input_early_exits (err : perrdetail) (e : option exn) :
  NoDup case_labels ->
  error err = E_ERROR \/ error err = E_INTR \/ error err = E_NOMEM ->
  pending (err_input err e) = early_exit_exception (error err) e /\
  events (err_input err e) =
    match text err with Some t => [EvObjectFree t] | None => [] end.
Proof.
  intros ND Hcode. unfold early_exit_exception.
  assert (Hlabels : E_ERROR <> E_INTR /\ E_ERROR <> E_NOMEM /\
                    E_INTR <> E_NOMEM).
  { pose proof (proj1 (NoDup_nth case_labels 0) ND) as Hinj.
    repeat split; intro Heq.
    - apply (Hinj 0%nat 5%nat) in Heq; cbn; try lia; discriminate.
    - apply (Hinj 0%nat 6%nat) in Heq; cbn; try lia; discriminate.
    - apply (Hinj 5%nat 6%nat) in Heq; cbn; try lia; discriminate. }
  destruct Hlabels as (Hne & Hen & Hin).
  unfold err_input.
  destruct Hcode as [Herr|[Herr|Herr]]; pick_case ND Herr; rewrite Herr.
  - rewrite Z.eqb_refl. unfold err_input_cleanup.
    destruct (text err); split; reflexivity.
  - replace (E_INTR =? E_ERROR) with false
      by (symmetry; apply Z.eqb_neq; congruence).
    rewrite Z.eqb_refl. unfold err_input_cleanup, PyErr_SetNone.
    destruct e, (text err); split; reflexivity.
  - replace (E_NOMEM =? E_ERROR) with false
      by (symmetry; apply Z.eqb_neq; congruence).
    replace (E_NOMEM =? E_INTR) with false
      by (symmetry; apply Z.eqb_neq; congruence).
    unfold err_input_cleanup, PyErr_NoMemory.
    destruct (text err); split; reflexivity.
Qed.

(** When the [switch] of [err_input] is left by [goto cleanup], either the
    code is [E_ERROR] or an exception is pending. *)
Lemma goto_cleanup_pending err e :
  let s := switch (error err) (err_input_cases err) (err_input_default err) e
  in
  value s = Goto_cleanup -> error err = E_ERROR \/ pending s <> None.
Proof.
  cbv zeta.
  destruct (switch_cases_label (error err) (err_input_cases err)
              (err_input_default err)) as [->|(body & Hin & ->)];
    [cbn; discriminate|].
  cbn [err_input_cases In] in Hin.
  repeat (destruct Hin as [Heq|Hin];
          [inversion Heq as [[Hlabel Hbody]]; clear Heq Hbody|]);
    try contradiction; intros Hexit.
  all: try (left; reflexivity).
  all: try (cbn [value bind ret] in Hexit; discriminate Hexit).
  - exfalso. revert Hexit.
    repeat match goal with
           | |- context [if ?b then _ else _] => destruct b
           end; cbn; intro Hx; discriminate Hx.
  - right. destruct e; cbn; discriminate.
  - right. cbn. discriminate.
Qed.

(** X10. A NULL from the parser stage comes with an exception, except for
    [E_ERROR], where it is the parser's business to have set one: when the
    parser fails with any other code, [PyParser_ASTFromStringObject] returns
    NULL and an exception is pending. *)
Theorem parse_failure_sets_exception
    (s : list byte) (fname : PyObject) (start : Z) (flags : option Z)
    (arena : PyArena) (e : option exn) :
  let po := PyParser_ParseStringObject_ext s fname start (PARSER_FLAGS flags) in
  let r := PyParser_ASTFromStringObject s fname start flags arena e in
  po_node po = None ->
  error (po_err po) <> E_ERROR ->
  fst (value r) = None /\ pending r <> None.
Proof.
  cbv zeta. intros Hnode Hcode.
  unfold PyParser_ASTFromStringObject, PyParser_ParseStringObject.
  cbn [bind value pending events emit ret]. rewrite Hnode.
  unfold err_free, Py_CLEAR.
  cbn [bind value pending events emit ret fst]. split; [reflexivity|].
  set (e1 := pending (match po_exn _ with
                      | Some x => raise x
                      | None => ret tt
                      end e)).
  set (err := po_err _) in *.
  assert (Hset : pending (err_input err e1) <> None).
  { destruct (value (switch (error err) (err_input_cases err)
                       (err_input_default err) e1)) as [|t m o] eqn:Hexit.
    - destruct (goto_cleanup_pending err e1 Hexit) as [Heq|Hp];
        [contradiction|].
      unfold err_input, bind. cbn [value pending]. rewrite Hexit.
      destruct (err_input_cleanup_spec err None
                  (pending (switch (error err) (err_input_cases err)
                              (err_input_default err) e1)))
        as (_ & -> & _).
      exact Hp.
    - destruct (err_input_message_obj err e1 t m o Hexit) as (w & -> & _).
      discriminate. }
  destruct (filename (value (err_input err e1))); cbn; exact Hset.
Qed.

(** X11. A code that is none of the labels of the [switch] ([E_OK] and
    [E_DONE] among them) is reported on stderr and raised as SyntaxError
    "unknown parsing error". *)
Theorem unknown_error_code_reported (err : perrdetail) (e : option exn) :
  ~ In (error err) case_labels ->
  In (EvStderr "error=%d\n" (error err)) (events (err_input err e)) /\
  exists w,
    pending (err_input err e) = Some (PyExc_SyntaxError, w) /\
    forall o, w = Some o ->
      exists v, o = Tuple_obj [CStr_obj "unknown parsing error"; v].
Proof.
  intros Hnot.
  assert (Hsw : switch (error err) (err_input_cases err)
                  (err_input_default err) = err_input_default err)
    by (apply switch_miss; exact Hnot).
  split.
  - unfold err_input, bind. cbn [events]. rewrite Hsw.
    apply in_or_app. left. cbn. tauto.
  - apply (err_input_message_obj err e PyExc_SyntaxError
             "unknown parsing error" None).
    rewrite Hsw. reflexivity.
Qed.

(** X12. For [E_DECODE], [err_input] raises SyntaxError; its value, if there
    is one, is the diagnostic whose message is [str()] of the value of the
    exception that was pending on entry, or "unknown decode error" when
    there was none or [PyObject_Str] failed; and there is a value when the
    runtime builds the values and the file name is known. *)
Theorem decode_error_message (err : perrdetail) (e : option exn) :
  NoDup case_labels ->
  error err = E_DECODE ->
  exists w,
    pending (err_input err e) = Some (PyExc_SyntaxError, w) /\
    (forall o, w = Some o -> diagnostic_of (decode_message e) err o) /\
    (diagnostic_values_built -> filename err <> None -> w <> None).
Proof.
  intros ND Herr.
  assert (Hexit : exists msg_obj,
    value (switch (error err) (err_input_cases err) (err_input_default err) e)
      = Break PyExc_SyntaxError "unknown decode error" msg_obj /\
    match msg_obj with
    | Some m => m
    | None => CStr_obj "unknown decode error"
    end = decode_message e).
  { pick_case ND Herr. unfold decode_message, PyErr_Fetch.
    cbn [value pending].
    destruct e as [[ty [v|]]|]; cbn [value ret];
      [|eexists; split; reflexivity ..].
    destruct (PyObject_Str_ext v); cbn [call value];
      eexists; split; reflexivity. }
  destruct Hexit as (msg_obj & Hexit & Hmsg).
  rewrite <- Hmsg. exact (err_input_diagnostic err e _ _ _ Hexit).
Qed.

(** X13. Without a line ([err->text] NULL) nothing is decoded: the value
    raised is [(msg, (filename, lineno, offset, None))] with the offset as
    the parser recorded it. *)
Theorem err_input_without_text (err : perrdetail) (e : option exn) :
  text err = None ->
  let evs := events (err_input err e) in
  existsb is_decode_event evs = false /\
  forall ty w,
    In (EvSetObject ty (Some w)) evs ->
    exists m fn,
      filename err = Some fn /\
      w = Tuple_obj
            [m; Tuple_obj [fn; Long_obj (lineno err); Long_obj (offset err);
                           None_obj]].
Proof.
  intros Htext. cbv zeta.
  assert (Hd : forall e', err_input_errtext err e' =
                 {| value := (Some None_obj, offset err); pending := e';
                    events := [EvIncref None_obj] |}).
  { intros. unfold err_input_errtext. rewrite Htext. reflexivity. }
  unfold err_input, bind. cbn [value events pending].
  pose proof (err_input_switch_emits err e) as Hsw.
  set (s := switch (error err) (err_input_cases err) (err_input_default err) e)
    in *.
  assert (Hcl : forall o p, events (err_input_cleanup err o p) =
                            events (Py_XDECREF o p)).
  { intros. unfold err_input_cleanup, bind. rewrite Htext. cbn.
    now rewrite app_nil_r. }
  assert (Hno : forall evs', Forall switch_event evs' ->
                             existsb is_decode_event evs' = false).
  { induction 1 as [|ev evs' Hev _ IH]; [reflexivity|].
    destruct ev; cbn in Hev |- *; try exact IH; destruct Hev. }
  assert (Hxd : forall o p, Forall switch_event (events (Py_XDECREF o p))).
  { intros [o|] p; cbn; repeat constructor. }
  split.
  - rewrite existsb_app, (Hno _ Hsw). cbn [orb].
    destruct (value s) as [|ty' m o].
    + rewrite Hcl. apply Hno, Hxd.
    + cbn [value events pending]. rewrite existsb_app, Hcl, (Hno _ (Hxd _ _)).
      destruct (err_input_report_run err ty' m o (pending s))
        as (w' & tpre & tpost & -> & _ & Hpre & Hpost & _).
      rewrite Hd. cbn [events app existsb is_decode_event orb].
      rewrite existsb_app. cbn [existsb is_decode_event orb].
      assert (Hdec : forall l, Forall is_decref l ->
                               existsb is_decode_event l = false).
      { induction 1 as [|ev l Hev _ IH]; [reflexivity|].
        destruct ev; cbn in Hev |- *; try exact IH; destruct Hev. }
      now rewrite (Hdec _ Hpre), (Hdec _ Hpost).
  - intros ty w Hin.
    apply in_app_or in Hin. destruct Hin as [Hin|Hin].
    { exfalso. revert Hin. apply (not_in_events switch_event); [exact Hsw|].
      cbn; tauto. }
    destruct (value s) as [|ty' m o].
    { exfalso. revert Hin. rewrite Hcl.
      apply (not_in_events switch_event); [apply Hxd|cbn; tauto]. }
    cbn [value events pending] in Hin.
    apply in_app_or in Hin. destruct Hin as [Hin|Hin].
    2:{ exfalso. revert Hin. rewrite Hcl.
        apply (not_in_events switch_event); [apply Hxd|cbn; tauto]. }
    destruct (err_input_report_run err ty' m o (pending s))
      as (w' & tpre & tpost & Hevs & _ & Hpre & Hpost & Hw).
    rewrite Hevs, Hd in Hin. cbn [events app] in Hin.
    destruct Hin as [Hin|Hin]; [discriminate|].
    apply in_app_or in Hin. destruct Hin as [Hin|Hin].
    { exfalso. revert Hin. apply (not_in_events is_decref);
        [exact Hpre|cbn; tauto]. }
    destruct Hin as [Heq|Hin].
    2:{ exfalso. revert Hin. apply (not_in_events is_decref);
          [exact Hpost|cbn; tauto]. }
    inversion Heq; subst ty' w'.
    destruct (Hw w eq_refl) as (fn & u & Hfn & Hfst & ->).
    rewrite Hd in Hfst |- *. cbn [value fst snd] in Hfst |- *.
    inversion Hfst; subst u.
    eexists. exists fn. split; [exact Hfn|reflexivity].
Qed.

(** X14. For [E_SYNTAX] with indent context, [err_input] raises
    IndentationError; its value, if there is one, is the diagnostic with
    "expected an indented block" when INDENT was expected, else "unexpected
    indent" when the token is INDENT, else "unexpected unindent" when the
    token is DEDENT; and there is a value when the runtime builds the values
    and the file name is known. *)
Theorem indentation_messages (err : perrdetail) (e : option exn) :
  NoDup case_labels ->
  error err = E_SYNTAX ->
  let msg :=
    if expected err =? INDENT then Some "expected an indented block"
    else if token err =? INDENT then Some "unexpected indent"
    else if token err =? DEDENT then Some "unexpected unindent"
    else None in
  forall text, msg = Some text ->
    exists w,
      pending (err_input err e) = Some (PyExc_IndentationError, w) /\
      (forall o, w = Some o -> diagnostic_of (CStr_obj text) err o) /\
      (diagnostic_values_built -> filename err <> None -> w <> None).
Proof.
  intros ND Herr msg text Hmsg. subst msg.
  apply (err_input_diagnostic err e PyExc_IndentationError text None).
  pick_case ND Herr.
  destruct (expected err =? INDENT);
    [|destruct (token err =? INDENT); [|destruct (token err =? DEDENT)]];
    inversion Hmsg; reflexivity.
Qed.

End Diagnostics.

Lemma arena_bracketed_frame pre mid post :
  Forall arena_free_event pre -> Forall arena_free_event post ->
  arena_bracketed mid -> arena_bracketed (pre ++ mid ++ post).
Proof.
  intros Hpre Hpost [Hmid|(a & pre' & mid' & post' & -> & Hp & Hm & Hq)].
  - left. repeat (apply Forall_app; split);
      try exact Hmid; eapply Forall_impl; try eassumption; cbn; tauto.
  - right. exists a, (pre ++ pre')%list, mid', (post' ++ post)%list.
    repeat split.
    + rewrite <- !app_assoc. cbn [app]. rewrite <- !app_assoc. reflexivity.
    + now apply Forall_app.
    + exact Hm.
    + now apply Forall_app.
Qed.

Lemma housekeeping_arena_free ev : housekeeping ev -> arena_free_event ev.
Proof. destruct ev; cbn; try tauto; intros _; split; reflexivity. Qed.

Lemma diagnostic_within a ev : diagnostic_event ev -> within_arena a ev.
Proof.
  destruct ev; cbn; try tauto; intros _; split; auto.
Qed.

Section ArenaUse.

Context {H : Headers} {X : Externals}.

Lemma PyParser_ASTFromStringObject_within s fname start flags arena :
  emits_only (within_arena arena)
    (PyParser_ASTFromStringObject s fname start flags arena).
Proof.
  unfold PyParser_ASTFromStringObject, PyParser_ParseStringObject,
    PyAST_FromNodeObject, PyNode_Free.
  repeat first
    [ apply (emits_only_weaken diagnostic_event);
      [apply diagnostic_within
      |first [apply err_input_emits | apply err_free_emits]]
    | emits_step ]; cbn; auto.
  all: split; [reflexivity|first [left; reflexivity|right; reflexivity]].
Qed.

Lemma Py_CompileStringObject_bracketed str fname start flags optimize e :
  arena_bracketed
    (events (Py_CompileStringObject str fname start flags optimize e)).
Proof.
  unfold Py_CompileStringObject, PyArena_New, PyArena_Free, PyAST_mod2obj,
    PyAST_CompileObject.
  destruct PyArena_New_ext as [x|a]; cbn [bind call value pending events ret].
  - left. constructor; [right; reflexivity|constructor].
  - right. exists a, [].
    match goal with
    | |- context [PyParser_ASTFromStringObject ?s ?f ?st ?fl ?ar ?e'] =>
        pose proof (PyParser_ASTFromStringObject_within s f st fl ar e') as Hev;
        destruct (PyParser_ASTFromStringObject s f st fl ar e')
          as [[[m|] fl'] p evs]
    end;
      cbn [value pending events] in *;
      [destruct (match fl' with Some cf => _ | None => false end)|];
      cbn [bind call value pending events ret emit];
      rewrite ?events_call; cbn [app].
    all: match goal with
         | |- exists mid post, EvArenaNew _ :: (?l ++ [?x; _])%list = _ /\ _
           => exists (l ++ [x])%list, []
         | |- exists mid post, EvArenaNew _ :: (?l ++ [_])%list = _ /\ _
           => exists l, []
         end;
      (split; [|split; [|split]]);
      try (constructor; fail); try exact Hev;
      try (rewrite <- !app_assoc; reflexivity);
      apply Forall_app; (split; [exact Hev|]);
      (constructor; [|constructor]); (split; [reflexivity|auto]).
Qed.

Lemma ast37_compile_ast_bracketed source fname compile_mode cf optimize e :
  arena_bracketed
    (events (ast37_compile_ast source fname compile_mode cf optimize e)).
Proof.
  unfold ast37_compile_ast, PyArena_New, PyArena_Free, PyAST_obj2mod,
    PyAST_Validate, PyAST_CompileObject.
  destruct PyArena_New_ext as [x|a].
  - left. cbn. constructor; [right; reflexivity|constructor].
  - right. exists a, []. run_calls; cbn [app].
    all: match goal with
         | |- exists mid post,
               EvArenaNew _ :: ?l = _ /\ _ =>
             exists (removelast l), []
         end; cbn [removelast];
      (split; [reflexivity|split; [constructor|split; [|constructor]]]);
      repeat first
        [ apply Forall_nil
        | apply Forall_cons;
          [split; [reflexivity|first [left; reflexivity|right; reflexivity]]|]
        ].
Qed.

(** X15. No use of the arena before it is allocated or after it is freed.
    In every run of [ast37_compile_impl], the calls that take an arena
    ([PyAST_FromNodeObject], [PyAST_obj2mod], [PyAST_CompileObject]) all lie
    between the one [PyArena_New] and the one [PyArena_Free], and take the
    arena that was allocated there; when the allocation fails, none of them
    is made. *)
Theorem arena_used_only_while_live
    (module source fname : PyObject) (mode : string)
    (flags dont_inherit optimize : Z) (e : option exn) :
  arena_bracketed
    (events (ast37_compile_impl module source fname mode flags dont_inherit
               optimize e)).
Proof.
  destruct (ast37_compile_impl_run module source fname mode flags
              dont_inherit optimize e)
    as [(_ & Hev)|[(_ & _ & _ & Hev)|[(_ & _ & Hrun)|(_ & Hrun)]]].
  - left. eapply Forall_impl; [|exact Hev].
    intros ev Hk. left. now apply housekeeping_arena_free.
  - left. eapply Forall_impl; [|exact Hev].
    intros ev Hk. left. now apply housekeeping_arena_free.
  - destruct Hrun as (pre & cm & cf & e' & Hpre & -> & _).
    apply arena_bracketed_frame.
    + eapply Forall_impl; [apply housekeeping_arena_free|exact Hpre].
    + repeat constructor.
    + apply ast37_compile_ast_bracketed.
  - destruct Hrun as (pre & post & str & start & extra & e' & Hpre & Hpost
                      & -> & _).
    apply arena_bracketed_frame.
    + eapply Forall_impl; [apply housekeeping_arena_free|exact Hpre].
    + eapply Forall_impl; [apply housekeeping_arena_free|exact Hpost].
    + apply Py_CompileStringObject_bracketed.
Qed.

End ArenaUse.

Section Composition.

Context {H : Headers} {X : Externals}.

(** X16. The stages of [Py_CompileStringObject] on the success path, in
    order: arena, parser, AST builder, release of the parse tree (and of
    the parser's reference to the file name), code generator, release of the
    arena.  The code generator gets the tree the builder made of the
    parser's tree, the file name, [optimize], and the caller's flags
    enriched with the future flags of the parser; its result is the
    result. *)
Theorem text_pipeline_in_order
    (str : list byte) (fname : PyObject) (start cf_flags optimize : Z)
    (e : option exn) (a : PyArena) (n : node) (m : mod_ty) :
  let po := PyParser_ParseStringObject_ext str fname start
              (PARSER_FLAGS (Some cf_flags)) in
  let cf' := Z.lor cf_flags (Z.land (po_flags po) PyCF_MASK) in
  let r := Py_CompileStringObject str fname start (Some cf_flags) optimize e in
  PyArena_New_ext = inr a ->
  po_node po = Some n ->
  PyAST_FromNodeObject_ext n cf' fname a = inr m ->
  Z.land cf' PyCF_ONLY_AST = 0 ->
  value r =
    (match PyAST_CompileObject_ext m fname (Some cf') optimize a with
     | inr code => Some code
     | inl _ => None
     end, Some cf') /\
  events r =
    ([EvArenaNew (Some a);
      EvParse str fname start (PARSER_FLAGS (Some cf_flags));
      EvFromNode n cf' fname a;
      EvNodeFree n]
     ++ match filename (po_err po) with Some f => [EvDecref f] | None => [] end
     ++ [EvCompile m fname (Some cf') optimize a; EvArenaFree a])%list.
Proof.
  cbv zeta. intros Harena Hnode Hmod Honly.
  unfold Py_CompileStringObject, PyArena_New, PyArena_Free,
    PyParser_ASTFromStringObject, PyParser_ParseStringObject,
    PyAST_FromNodeObject, PyNode_Free, PyAST_CompileObject, err_free,
    Py_CLEAR.
  rewrite Harena. cbn [bind call value pending events ret emit].
  rewrite Hnode. cbn [bind call value pending events ret emit].
  rewrite Hmod. cbn [bind call value pending events ret emit].
  unfold nonzero. rewrite Honly. cbn [Z.eqb negb].
  destruct (po_exn _); destruct (filename _);
    destruct (PyAST_CompileObject_ext _ _ _ _ _);
    cbn [bind call value pending events ret emit raise Py_XDECREF app];
    split; reflexivity.
Qed.

(** X17. What the parser is given.  For source text (not an AST) with a
    valid configuration and bytes free of NUL, once the arena is allocated
    the parser is called with exactly the bytes of the source, the file
    name, the start symbol of the mode ("exec": [Py_file_input], "eval":
    [Py_eval_input], "single": [Py_single_input]) and the translation of the
    merged flags. *)
Theorem parser_input
    (module source fname : PyObject) (mode : string)
    (flags dont_inherit optimize compile_mode : Z) (e : option exn)
    (bs : list byte) (a : PyArena) :
  valid_config flags optimize mode compile_mode ->
  PyAST_Check_ext source = inr false ->
  source_bytes source bs ->
  ~ In x00 bs ->
  PyArena_New_ext = inr a ->
  let start :=
    if (mode =? "exec")%string then Py_file_input
    else if (mode =? "eval")%string then Py_eval_input
    else Py_single_input in
  exists rest,
    events (ast37_compile_impl module source fname mode flags dont_inherit
              optimize e) =
    (merge_events flags dont_inherit ++ view_events source
       ++ EvArenaNew (Some a)
       :: EvParse bs fname start
            (PARSER_FLAGS (Some (source_flags source flags dont_inherit)))
       :: rest)%list.
Proof.
  intros Hvalid Hcheck Hbytes Hnul Harena start.
  rewrite (ast37_compile_impl_valid _ _ _ _ _ _ _ _ _ Hvalid).
  assert (Hstart : start_symbol compile_mode = start).
  { destruct Hvalid as (_ & _ & Hmode). unfold mode_index in Hmode.
    subst start. unfold start_symbol.
    destruct (mode =? "exec")%string;
      [|destruct (mode =? "eval")%string;
        [|destruct (mode =? "single")%string]];
      inversion Hmode; reflexivity. }
  unfold compile_dispatch, PyAST_Check. rewrite Hcheck.
  cbn [bind call value pending events ret app].
  rewrite (source_as_string_run _ _ _ _ _ _ Hbytes Hnul).
  cbn [bind call value pending events ret app].
  unfold Py_CompileStringObject at 1, PyArena_New. rewrite Harena.
  cbn [bind call value pending events ret app].
  unfold PyParser_ASTFromStringObject at 1, PyParser_ParseStringObject.
  cbn [bind call value pending events ret emit app].
  rewrite Hstart. fold (view_events source).
  fold (source_flags source flags dont_inherit).
  rewrite <- !app_assoc. cbn [app]. eexists. reflexivity.
Qed.

End Composition.

(** * Compiling to an AST only *)

Lemma strlen_full (s : list byte) :
  strlen s = Z.of_nat (List.length s) -> ~ In x00 s.
Proof. intros Hlen Hin. apply strlen_nul in Hin. lia. Qed.

Section AstOnly.

Context {H : Headers} {X : Externals}.

(** What [source_as_string] returns is the bytes of the source, and they
    hold no NUL. *)
Lemma source_as_string_some cmd funcname what cf e bs :
  fst (fst (value (source_as_string cmd funcname what cf e))) = Some bs ->
  source_bytes cmd bs /\ ~ In x00 bs.
Proof.
  unfold source_as_string, source_bytes.
  destruct (PyUnicode_Check cmd).
  - destruct (PyUnicode_AsUTF8AndSize_ext cmd) as [x|str]; run;
      [discriminate|].
    destruct (Z.eqb_spec (strlen str) (Z.of_nat (List.length str)));
      run; intros Hv; inversion Hv; subst.
    split; [reflexivity|now apply strlen_full].
  - destruct cmd;
      try (destruct (PyObject_GetBuffer_ext _) as [x|buf]; run;
           [discriminate|];
           destruct (PyBytes_FromStringAndSize_ext buf) eqn:Hcopy; run;
           [discriminate|]);
      match goal with
      | |- context [strlen ?b =? ?n] => destruct (Z.eqb_spec (strlen b) n)
      end;
      run; intros Hv; inversion Hv; subst;
      repeat split; try reflexivity; try assumption; now apply strlen_full.
Qed.

(** A run that returns an object passed the three checks. *)
Lemma ast37_compile_impl_some module source fname mode flags dont_inherit
    optimize e o :
  value (ast37_compile_impl module source fname mode flags dont_inherit
           optimize e) = Some o ->
  exists compile_mode, valid_config flags optimize mode compile_mode.
Proof.
  unfold ast37_compile_impl, ast37_compile_body, valid_config,
    recognised_flags, mode_index.
  destruct (nonzero (Z.land flags (Z.lnot _))) eqn:Hf; [cbn; discriminate|].
  destruct ((optimize <? -1) || (optimize >? 2)) eqn:Hopt;
    [cbn; discriminate|].
  unfold nonzero in Hf. apply negb_false_iff, Z.eqb_eq in Hf.
  apply orb_false_iff in Hopt. destruct Hopt as [Hlo Hhi].
  apply Z.ltb_ge in Hlo. rewrite Z.gtb_ltb in Hhi. apply Z.ltb_ge in Hhi.
  destruct (mode =? "exec")%string;
    [|destruct (mode =? "eval")%string;
      [|destruct (mode =? "single")%string]].
  4: destruct (negb (nonzero dont_inherit)); cbn; discriminate.
  all: intros _; eexists; split; [exact Hf|split; [lia|reflexivity]].
Qed.

(** [compile_dispatch] on source text that [source_as_string] accepts. *)
Lemma compile_dispatch_text source fname compile_mode cf flags optimize e bs :
  PyAST_Check_ext source = inr false ->
  source_bytes source bs ->
  ~ In x00 bs ->
  let c := Py_CompileStringObject bs fname (start_symbol compile_mode)
             (Some (if PyUnicode_Check source
                    then Z.lor cf PyCF_IGNORE_COOKIE else cf))
             optimize e in
  value (compile_dispatch source fname compile_mode cf flags optimize e)
    = fst (value c) /\
  events (compile_dispatch source fname compile_mode cf flags optimize e)
    = (view_events source ++ events c ++ copy_events source bs)%list.
Proof.
  intros Hcheck Hbytes Hnul. cbv zeta.
  unfold compile_dispatch, PyAST_Check. rewrite Hcheck.
  cbn [bind call value pending events ret app].
  rewrite (source_as_string_run _ _ _ _ _ _ Hbytes Hnul).
  cbn [bind call value pending events ret app].
  unfold view_events, copy_events, source_copy_of.
  destruct (takes_buffer source); run; rewrite ?app_nil_r; split; reflexivity.
Qed.

Lemma compile_dispatch_text_some source fname compile_mode cf flags optimize
    e o :
  PyAST_Check_ext source = inr false ->
  value (compile_dispatch source fname compile_mode cf flags optimize e)
    = Some o ->
  exists bs, source_bytes source bs /\ ~ In x00 bs.
Proof.
  intros Hcheck. unfold compile_dispatch, PyAST_Check. rewrite Hcheck.
  cbn [bind call value pending events ret app].
  pose proof (source_as_string_some source "compile" "string, bytes or AST"
                cf e) as Hsome.
  destruct (source_as_string source "compile" "string, bytes or AST" cf e)
    as [[[[bs|] cf'] copy] p evs]; cbn [fst value] in *;
    [|cbn; discriminate].
  intros _. exists bs. now apply Hsome.
Qed.

(** [Py_CompileStringObject] under [PyCF_ONLY_AST]: it returns an object
    only when the arena, the parser, the builder and [PyAST_mod2obj] all
    succeed, and then the object is [PyAST_mod2obj] of the tree the builder
    made of the parser's tree. *)
Lemma Py_CompileStringObject_ast_only_run str fname start cf optimize e :
  nonzero (Z.land cf PyCF_ONLY_AST) = true ->
  let po := PyParser_ParseStringObject_ext str fname start
              (PARSER_FLAGS (Some cf)) in
  let cf' := Z.lor cf (Z.land (po_flags po) PyCF_MASK) in
  let c := Py_CompileStringObject str fname start (Some cf) optimize e in
  let trace a n m :=
    ([EvArenaNew (Some a);
      EvParse str fname start (PARSER_FLAGS (Some cf));
      EvFromNode n cf' fname a;
      EvNodeFree n]
     ++ match filename (po_err po) with Some f => [EvDecref f] | None => [] end
     ++ [EvMod2obj m; EvArenaFree a])%list in
  (forall o, fst (value c) = Some o ->
     exists a n m,
       PyArena_New_ext = inr a /\ po_node po = Some n /\
       PyAST_FromNodeObject_ext n cf' fname a = inr m /\
       PyAST_mod2obj_ext m = inr o /\ events c = trace a n m) /\
  (forall a n m o,
     PyArena_New_ext = inr a -> po_node po = Some n ->
     PyAST_FromNodeObject_ext n cf' fname a = inr m ->
     PyAST_mod2obj_ext m = inr o ->
     fst (value c) = Some o /\ events c = trace a n m).
Proof.
  intros Honly. cbv zeta.
  pose proof (nonzero_land_lor cf PyCF_ONLY_AST
                (Z.land (po_flags (PyParser_ParseStringObject_ext str fname
                                     start (PARSER_FLAGS (Some cf))))
                        PyCF_MASK) Honly) as Honly'.
  unfold Py_CompileStringObject, PyArena_New, PyArena_Free,
    PyParser_ASTFromStringObject, PyParser_ParseStringObject,
    PyAST_FromNodeObject, PyNode_Free, PyAST_mod2obj, err_free.
  split.
  - destruct PyArena_New_ext as [x|a]; [run; discriminate|].
    cbn [bind call value pending events ret emit].
    destruct (po_node _) as [n|] eqn:Hnode.
    2:{ cbn [bind call value pending events ret emit fst snd].
        intros o Ho. discriminate Ho. }
    cbn [bind call value pending events ret emit].
    destruct (PyAST_FromNodeObject_ext n _ fname a) as [x|m] eqn:Hmod.
    { intros o Ho. exfalso. revert Ho.
      destruct (po_exn _); destruct (filename _); cbn; discriminate. }
    cbn [bind call value pending events ret emit].
    rewrite Honly'.
    destruct (PyAST_mod2obj_ext m) as [x|o'] eqn:Hobj.
    { intros o Ho. exfalso. revert Ho.
      destruct (po_exn _); destruct (filename _); cbn; discriminate. }
    intros o Ho.
    assert (Heq : o' = o).
    { revert Ho. destruct (po_exn _); destruct (filename _); cbn;
        intros Ho; now inversion Ho. }
    subst o'. exists a, n, m.
    repeat (split; [first [reflexivity|assumption]|]).
    destruct (po_exn _); destruct (filename _); reflexivity.
  - intros a n m o Harena Hnode Hmod Hobj.
    rewrite Harena. cbn [bind call value pending events ret emit].
    rewrite Hnode. cbn [bind call value pending events ret emit].
    rewrite Hmod. cbn [bind call value pending events ret emit].
    rewrite Honly', Hobj.
    destruct (po_exn _); destruct (filename _); cbn; split; reflexivity.
Qed.

Lemma source_flags_keep source flags dont_inherit bit :
  nonzero (Z.land flags bit) = true ->
  nonzero (Z.land (source_flags source flags dont_inherit) bit) = true.
Proof.
  intro Hbit. unfold source_flags, merged_flags.
  destruct (PyUnicode_Check source), (nonzero dont_inherit);
    repeat apply nonzero_land_lor; exact Hbit.
Qed.

(** C2, as the code has it.  With [PyCF_ONLY_AST] set neither the validator
    nor the code generator is called.  A result is either a pre-built AST,
    returned as it is, or comes of source text: then the bytes of the source
    were parsed, the parser's tree was lowered, and the result is
    [PyAST_mod2obj] of the lowered tree.  Conversely, with a valid
    configuration a pre-built AST is returned, and for source text the
    result is returned whenever the arena, the parser, the builder and
    [PyAST_mod2obj] succeed. *)
Theorem ast_only_skips_validator_and_codegen
    (module source fname : PyObject) (mode : string)
    (flags dont_inherit optimize : Z) (e : option exn) :
  nonzero (Z.land flags PyCF_ONLY_AST) = true ->
  let r := ast37_compile_impl module source fname mode flags dont_inherit
             optimize e in
  Forall not_codegen (events r) /\
  Forall not_validate (events r) /\
  (forall o, value r = Some o ->
     (PyAST_Check_ext source = inr true /\ o = source) \/
     (PyAST_Check_ext source = inr false /\
      ast_only_text_run source fname mode flags dont_inherit o (events r))) /\
  (forall compile_mode,
     valid_config flags optimize mode compile_mode ->
     (PyAST_Check_ext source = inr true -> value r = Some source) /\
     (PyAST_Check_ext source = inr false ->
      forall str a n m o,
        let cf := source_flags source flags dont_inherit in
        let po := PyParser_ParseStringObject_ext str fname
                    (start_symbol compile_mode) (PARSER_FLAGS (Some cf)) in
        let cf' := Z.lor cf (Z.land (po_flags po) PyCF_MASK) in
        source_bytes source str ->
        ~ In x00 str ->
        PyArena_New_ext = inr a ->
        po_node po = Some n ->
        PyAST_FromNodeObject_ext n cf' fname a = inr m ->
        PyAST_mod2obj_ext m = inr o ->
        value r = Some o)).
Proof.
  intros Honly r. subst r. split; [|split; [|split]].
  - apply ast37_compile_impl_emits; try exact (fun _ => I).
    + intros _ Hoff. rewrite Honly in Hoff. discriminate.
    + intros _ str start extra e'.
      apply Py_CompileStringObject_ast_only. now apply text_flags_keep.
  - apply ast37_compile_impl_emits; try exact (fun _ => I).
    + intros _ Hoff. rewrite Honly in Hoff. discriminate.
    + intros _ str start extra.
      apply (emits_only_weaken
               (compile_string_event (Some (text_flags source flags extra))));
        [apply compile_string_not_validate|apply Py_CompileStringObject_emits].
  - intros o Ho.
    destruct (ast37_compile_impl_some _ _ _ _ _ _ _ _ _ Ho)
      as [compile_mode Hvalid].
    rewrite (ast37_compile_impl_valid _ _ _ _ _ _ _ _ _ Hvalid) in Ho |- *.
    cbv zeta in Ho |- *. cbn [value events] in Ho |- *.
    destruct (PyAST_Check_ext source) as [x|[|]] eqn:Hcheck.
    + exfalso. revert Ho. unfold compile_dispatch, PyAST_Check.
      rewrite Hcheck. cbn. discriminate.
    + left. split; [reflexivity|]. revert Ho.
      unfold compile_dispatch, PyAST_Check. rewrite Hcheck.
      cbn [bind call value pending events ret]. rewrite Honly. cbn.
      intros Ho. now inversion Ho.
    + right. split; [reflexivity|].
      destruct (compile_dispatch_text_some _ _ _ _ _ _ _ _ Hcheck Ho)
        as (bs & Hbytes & Hnul).
      destruct (compile_dispatch_text source fname compile_mode
                  (merged_flags flags dont_inherit) flags optimize e bs
                  Hcheck Hbytes Hnul) as (Hv & Hevs).
      rewrite Hv in Ho. rewrite Hevs.
      fold (source_flags source flags dont_inherit) in Ho |- *.
      destruct (Py_CompileStringObject_ast_only_run bs fname
                  (start_symbol compile_mode)
                  (source_flags source flags dont_inherit) optimize e
                  (source_flags_keep _ _ _ _ Honly)) as (Hinv & _).
      destruct (Hinv o Ho) as (a & n & m & Harena & Hnode & Hmod & Hobj & Hc).
      exists compile_mode, bs, a, n, m. cbv zeta.
      split; [exact (proj2 (proj2 Hvalid))|].
      repeat (split; [assumption|]).
      rewrite Hc. now rewrite <- !app_assoc.
  - intros compile_mode Hvalid.
    rewrite (ast37_compile_impl_valid _ _ _ _ _ _ _ _ _ Hvalid).
    cbv zeta. cbn [value]. split.
    + intros Hcheck. unfold compile_dispatch, PyAST_Check. rewrite Hcheck.
      cbn [bind call value pending events ret]. rewrite Honly. reflexivity.
    + intros Hcheck str a n m o Hbytes Hnul Harena Hnode Hmod Hobj.
      destruct (compile_dispatch_text source fname compile_mode
                  (merged_flags flags dont_inherit) flags optimize e str
                  Hcheck Hbytes Hnul) as (Hv & _).
      rewrite Hv. fold (source_flags source flags dont_inherit).
      destruct (Py_CompileStringObject_ast_only_run str fname
                  (start_symbol compile_mode)
                  (source_flags source flags dont_inherit) optimize e
                  (source_flags_keep _ _ _ _ Honly)) as (_ & Hrun).
      exact (proj1 (Hrun a n m o Harena Hnode Hmod Hobj)).
Qed.

End AstOnly.

Section AstPath.

Context {H : Headers} {X : Externals}.

(** X18. The path of a pre-built AST that is to be compiled.  With a valid
    configuration, [PyCF_ONLY_AST] unset and the arena allocated, the object
    is converted with the index of the mode (0, 1, 2 for "exec", "eval",
    "single"); if the conversion fails, its exception is left pending and
    neither the validator nor the code generator runs; if the validator
    rejects the tree, its exception is left pending and the code generator
    does not run; otherwise the code generator gets the converted tree, the
    file name, the merged flags and [optimize], and its answer is the
    answer.  The arena is released on each of the three ways out. *)
Theorem ast_path_in_order
    (module source fname : PyObject) (mode : string)
    (flags dont_inherit optimize compile_mode : Z) (e : option exn)
    (a : PyArena) :
  valid_config flags optimize mode compile_mode ->
  PyAST_Check_ext source = inr true ->
  Z.land flags PyCF_ONLY_AST = 0 ->
  PyArena_New_ext = inr a ->
  let cf := merged_flags flags dont_inherit in
  let r := ast37_compile_impl module source fname mode flags dont_inherit
             optimize e in
  let convert := EvObj2mod source a compile_mode in
  match PyAST_obj2mod_ext source a compile_mode with
  | inl x =>
      value r = None /\ pending r = Some x /\
      events r = (merge_events flags dont_inherit
                    ++ [EvArenaNew (Some a); convert; EvArenaFree a;
                        EvDecref fname])%list
  | inr m =>
      match PyAST_Validate_ext m with
      | inl x =>
          value r = None /\ pending r = Some x /\
          events r = (merge_events flags dont_inherit
                        ++ [EvArenaNew (Some a); convert; EvValidate m false;
                            EvArenaFree a; EvDecref fname])%list
      | inr _ =>
          let answer :=
            PyAST_CompileObject_ext m fname (Some cf) optimize a in
          value r = match answer with inr c => Some c | inl _ => None end /\
          pending r = match answer with inr _ => e | inl x => Some x end /\
          events r = (merge_events flags dont_inherit
                        ++ [EvArenaNew (Some a); convert; EvValidate m true;
                            EvCompile m fname (Some cf) optimize a;
                            EvArenaFree a; EvDecref fname])%list
      end
  end.
Proof.
  intros Hvalid Hcheck Honly Harena. cbv zeta.
  rewrite (ast37_compile_impl_valid _ _ _ _ _ _ _ _ _ Hvalid). cbv zeta.
  unfold compile_dispatch, PyAST_Check. rewrite Hcheck.
  cbn [bind call value pending events ret app].
  replace (nonzero (Z.land flags PyCF_ONLY_AST)) with false
    by (unfold nonzero; rewrite Honly; reflexivity).
  unfold ast37_compile_ast, PyArena_New, PyArena_Free, PyAST_obj2mod,
    PyAST_Validate, PyAST_CompileObject.
  rewrite Harena. run.
  destruct (PyAST_obj2mod_ext source a compile_mode) as [x|m];
    [repeat split|].
  destruct (PyAST_Validate_ext m) as [x|[]]; [repeat split|].
  destruct (PyAST_CompileObject_ext m fname _ optimize a); repeat split.
Qed.

(** X19. A pre-built AST never reaches the text stages: no run of
    [ast37_compile_impl] on an object that [PyAST_Check] accepts calls the
    parser, the AST builder, [PyNode_Free] or [PyAST_mod2obj], and none
    enters the translation of a parser diagnostic. *)
Theorem ast_source_never_parsed
    (module source fname : PyObject) (mode : string)
    (flags dont_inherit optimize : Z) (e : option exn) :
  PyAST_Check_ext source = inr true ->
  Forall not_text_stage
    (events (ast37_compile_impl module source fname mode flags dont_inherit
               optimize e)).
Proof.
  intros Hcheck.
  apply (ast37_compile_impl_emits not_text_stage); try (intros; exact I).
  - intros _ _ compile_mode cf.
    unfold ast37_compile_ast, PyArena_New, PyArena_Free, PyAST_obj2mod,
      PyAST_Validate, PyAST_CompileObject.
    intros e'. destruct PyArena_New_ext as [x|a]; [run; forall_events|].
    cbn [bind call value pending events ret app].
    destruct (PyAST_obj2mod_ext source a compile_mode) as [x|m];
      [run; forall_events|].
    cbn [bind call value pending events ret app].
    destruct (PyAST_Validate_ext m) as [x|[]]; [run; forall_events|].
    cbn [bind call value pending events ret app negb].
    destruct (PyAST_CompileObject_ext m fname _ optimize a);
      run; forall_events.
  - intros Hfalse. rewrite Hcheck in Hfalse. discriminate Hfalse.
Qed.

(** X20. When the arena cannot be allocated, [ast37_compile_impl] returns
    NULL with the exception of the allocator pending and calls none of the
    parser, converter, validator and code generator; a copy that
    [source_as_string] made of a buffer is still released, and so is
    [filename]. *)
Theorem arena_allocation_failure
    (module source fname : PyObject) (mode : string)
    (flags dont_inherit optimize compile_mode : Z) (e : option exn)
    (x : exn) :
  valid_config flags optimize mode compile_mode ->
  PyArena_New_ext = inl x ->
  let r := ast37_compile_impl module source fname mode flags dont_inherit
             optimize e in
  (PyAST_Check_ext source = inr true ->
   Z.land flags PyCF_ONLY_AST = 0 ->
   value r = None /\ pending r = Some x /\
   events r = (merge_events flags dont_inherit
                 ++ [EvArenaNew None; EvDecref fname])%list) /\
  (forall bs,
   PyAST_Check_ext source = inr false ->
   source_bytes source bs ->
   ~ In x00 bs ->
   value r = None /\ pending r = Some x /\
   events r = (merge_events flags dont_inherit ++ view_events source
                 ++ [EvArenaNew None] ++ copy_events source bs
                 ++ [EvDecref fname])%list).
Proof.
  intros Hvalid Harena. cbv zeta.
  rewrite (ast37_compile_impl_valid _ _ _ _ _ _ _ _ _ Hvalid). cbv zeta.
  unfold compile_dispatch, PyAST_Check. split.
  - intros Hcheck Honly. rewrite Hcheck.
    cbn [bind call value pending events ret app].
    replace (nonzero (Z.land flags PyCF_ONLY_AST)) with false
      by (unfold nonzero; rewrite Honly; reflexivity).
    unfold ast37_compile_ast, PyArena_New. rewrite Harena.
    run. repeat split.
  - intros bs Hcheck Hbytes Hnul. rewrite Hcheck.
    cbn [bind call value pending events ret app].
    rewrite (source_as_string_run _ _ _ _ _ _ Hbytes Hnul).
    cbn [bind call value pending events ret app].
    unfold Py_CompileStringObject, PyArena_New. rewrite Harena.
    unfold view_events, copy_events, source_copy_of.
    destruct (takes_buffer source); run; repeat split.
Qed.

End AstPath.

Section Wrapper.

Context {H : Headers} {X : Externals}.

(** X21. The entry point [ast37_compile].  When the arguments do not parse,
    it returns NULL with the exception of the argument parser and does
    nothing else.  When only the three required arguments are given, flags,
    optimize and dont_inherit take the defaults 0, -1 and 0, which pass the
    flag and optimize checks: for a valid mode the compiler flags of the
    calling frame are merged in and the source is dispatched with
    [optimize = -1]. *)
Theorem ast37_compile_defaults
    (module : PyObject) (e : option exn) :
  (forall x,
     ast37_compile module (inl x) e =
     {| value := None; pending := Some x; events := [] |}) /\
  (forall source fname mode compile_mode,
     mode_index mode = Some compile_mode ->
     let cf := Z.lor PyCF_SOURCE_IS_UTF8 ambient_compiler_flags in
     let d := compile_dispatch source fname compile_mode cf 0 (-1) e in
     ast37_compile module
       (inr {| arg_source := source; arg_filename := fname;
               arg_mode := mode; arg_flags := None;
               arg_dont_inherit := None; arg_optimize := None |}) e =
     {| value := value d; pending := pending d;
        events := (EvMergeFlags PyCF_SOURCE_IS_UTF8 :: events d
                     ++ [EvDecref fname])%list |}).
Proof.
  split; [reflexivity|].
  intros source fname mode compile_mode Hmode. cbv zeta.
  unfold ast37_compile.
  cbv beta iota zeta delta
    [bind call value pending events arg_source arg_filename arg_mode
     arg_flags arg_dont_inherit arg_optimize].
  assert (Hvalid : valid_config 0 (-1) mode compile_mode).
  { split; [reflexivity|split; [lia|exact Hmode]]. }
  rewrite (ast37_compile_impl_valid module source fname mode 0 0 (-1)
             compile_mode e Hvalid).
  reflexivity.
Qed.

End Wrapper.

(** * The further properties at concrete inputs *)

Lemma cpython37_valid_exec : @valid_config cpython37 0 (-1) "exec" 0.
Proof. split; [reflexivity|split; [lia|reflexivity]]. Qed.

Lemma runtime_builds arena parse validate :
  @diagnostic_values_built (Runtime.runtime arena parse validate).
Proof. split; intros; [reflexivity|eexists; reflexivity]. Qed.

Lemma cpython37_valid_ast_only : @valid_config cpython37 1024 (-1) "exec" 0.
Proof. split; [reflexivity|split; [lia|reflexivity]]. Qed.

(** Source text under [PyCF_ONLY_AST] (0x400): the result is
    [PyAST_mod2obj] of the tree built from the parser's tree. *)
Lemma ast_only_skips_validator_and_codegen_witness :
  let r := @ast37_compile_impl cpython37 Runtime.world None_obj
             (CStr_obj "x = 1") Runtime.fname "exec" 1024 1 (-1) None in
  Forall not_codegen (events r) /\
  Forall not_validate (events r) /\
  value r = Some (AST_obj 7) /\
  @ast_only_text_run cpython37 Runtime.world (CStr_obj "x = 1") Runtime.fname
    "exec" 1024 1 (AST_obj 7) (events r).
Proof.
  destruct (@ast_only_skips_validator_and_codegen cpython37 Runtime.world
              None_obj (CStr_obj "x = 1") Runtime.fname "exec" 1024 1 (-1)
              None eq_refl) as (Hcodegen & Hvalidate & Hresult & Hreturns).
  assert (Hvalue :
    value (@ast37_compile_impl cpython37 Runtime.world None_obj
             (CStr_obj "x = 1") Runtime.fname "exec" 1024 1 (-1) None)
    = Some (AST_obj 7)).
  { apply (proj2 (Hreturns 0 cpython37_valid_ast_only) eq_refl
             (Runtime.bytes_of_string "x = 1") (Arena 1) (Node 7) (Mod 7)
             (AST_obj 7)); try reflexivity.
    intro Hin. cbn in Hin.
    repeat (destruct Hin as [Hin|Hin]; [discriminate Hin|]). exact Hin. }
  split; [exact Hcodegen|]. split; [exact Hvalidate|].
  split; [exact Hvalue|].
  destruct (Hresult (AST_obj 7) Hvalue) as [[Hcheck _]|[_ Hrun]];
    [discriminate Hcheck|exact Hrun].
Defined.


Lemma flags_checked_before_optimize_witness :
  (let r := @ast37_compile_impl cpython37 Runtime.world None_obj
              (CStr_obj "x = 1") Runtime.fname "exec" 1 0 7 None in
   value r = None /\
   pending r = Some (PyExc_ValueError,
                     Some (CStr_obj "compile(): unrecognised flags")) /\
   events r = [EvDecref Runtime.fname]) /\
  (let r := @ast37_compile_impl cpython37 Runtime.world None_obj
              (CStr_obj "x = 1") Runtime.fname "exec" 0 0 3 None in
   value r = None /\
   pending r = Some (PyExc_ValueError,
                     Some (CStr_obj "compile(): invalid optimize value")) /\
   events r = [EvDecref Runtime.fname]).
Proof.
  split.
  - apply (proj1 (@flags_checked_before_optimize cpython37 Runtime.world
                    None_obj (CStr_obj "x = 1") Runtime.fname "exec" 1 0 7
                    None)).
    vm_compute. discriminate.
  - apply (proj2 (@flags_checked_before_optimize cpython37 Runtime.world
                    None_obj (CStr_obj "x = 1") Runtime.fname "exec" 0 0 3
                    None)).
    + reflexivity.
    + right. lia.
Defined.

Lemma invalid_mode_rejected_witness :
  let r := @ast37_compile_impl cpython37 Runtime.world None_obj
             (CStr_obj "x = 1") Runtime.fname "execute" 0 0 (-1) None in
  value r = None /\
  pending r =
    Some (PyExc_ValueError,
          Some (CStr_obj
                  "compile() mode must be 'exec', 'eval' or 'single'")) /\
  events r = [EvMergeFlags 0x100; EvDecref Runtime.fname].
Proof.
  apply (@invalid_mode_rejected cpython37 Runtime.world None_obj
           (CStr_obj "x = 1") Runtime.fname "execute" 0 0 (-1) None).
  - reflexivity.
  - lia.
  - reflexivity.
Defined.

Lemma source_as_string_accepts_witness :
  @source_as_string cpython37 Runtime.world (CStr_obj "x = 1") "compile"
    "string, bytes or AST" 0x100 None =
  {| value := (Some (Runtime.bytes_of_string "x = 1"), 0x900, None);
     pending := None; events := [] |}.
Proof.
  apply (@source_as_string_accepts cpython37 Runtime.world
           (CStr_obj "x = 1") (Runtime.bytes_of_string "x = 1") "compile"
           "string, bytes or AST" 0x100 None).
  - reflexivity.
  - intro Hin. cbn in Hin.
    repeat (destruct Hin as [Hin|Hin]; [discriminate Hin|]). exact Hin.
Defined.

(** A buffer with a NUL inside: the view and the copy are both released. *)
Lemma source_as_string_releases_witness :
  let r := @source_as_string cpython37 Runtime.world (Other_obj 0) "compile"
             "string, bytes or AST" 0x100 None in
  released_views (events r) = [Other_obj 0] /\
  events r = [EvBufferRelease (Other_obj 0);
              EvDecref (Bytes_obj [x61; x00; x62])].
Proof.
  destruct (@source_as_string_releases cpython37 Runtime.world (Other_obj 0)
              "compile" "string, bytes or AST" 0x100 None)
    as (Hviews & _ & Hcopy).
  split; [exact Hviews|].
  apply (Hcopy [x61; x00; x62]); try reflexivity.
  right. left. reflexivity.
Defined.

Lemma source_of_wrong_type_rejected_witness :
  @ast37_compile_impl cpython37 Runtime.world None_obj (Other_obj 1)
    Runtime.fname "exec" 0 0 (-1) None =
  {| value := None;
     pending := Some (PyExc_TypeError,
                      Some (CStr_obj
                        "compile() arg 1 must be a string, bytes or AST object"));
     events := [EvMergeFlags 0x100; EvDecref Runtime.fname] |}.
Proof.
  apply (proj2 (@source_of_wrong_type_rejected cpython37 Runtime.world
                  None_obj (Other_obj 1) Runtime.fname "exec" 0 0 (-1) 0 None
                  (PyExc_TypeError, None) eq_refl eq_refl)).
  - exact cpython37_valid_exec.
  - reflexivity.
Defined.

(** [PyCF_DONT_IMPLY_DEDENT | PyCF_IGNORE_COOKIE | CO_FUTURE_BARRY_AS_BDFL]
    with [PyCF_SOURCE_IS_UTF8], which the parser does not see. *)
Lemma PARSER_FLAGS_translates_witness :
  @PARSER_FLAGS cpython37 None = 0 /\
  nonzero (Z.land (@PARSER_FLAGS cpython37 (Some 0x40B00)) 0x02) = true /\
  nonzero (Z.land (@PARSER_FLAGS cpython37 (Some 0x40B00)) 0x10) = true /\
  nonzero (Z.land (@PARSER_FLAGS cpython37 (Some 0x40B00)) 0x20) = true /\
  Z.land (@PARSER_FLAGS cpython37 (Some 0x40B00)) (Z.lnot 0x32) = 0.
Proof.
  apply (@PARSER_FLAGS_translates cpython37 0x40B00);
    first [discriminate | reflexivity].
Defined.

Lemma parse_tree_freed_once_witness :
  let r := @PyParser_ASTFromStringObject cpython37 Runtime.world
             (Runtime.bytes_of_string "x = 1") Runtime.fname 257 (Some 0x100)
             (Arena 1) None in
  freed_nodes (events r) = [Node 7] /\
  exists n cf,
    po_node (@PyParser_ParseStringObject_ext Runtime.world
               (Runtime.bytes_of_string "x = 1") Runtime.fname 257
               (@PARSER_FLAGS cpython37 (Some 0x100))) = Some n /\
    @PyAST_FromNodeObject_ext Runtime.world n cf Runtime.fname (Arena 1)
    = inr (Mod 7).
Proof.
  destruct (@parse_tree_freed_once cpython37 Runtime.world
              (Runtime.bytes_of_string "x = 1") Runtime.fname 257 (Some 0x100)
              (Arena 1) None) as (Hfreed & _ & Hbuilt).
  split; [exact Hfreed|].
  apply Hbuilt. reflexivity.
Defined.

(** The parser reports [CO_FUTURE_BARRY_AS_BDFL]; the caller's flags get
    it. *)
Lemma parser_flags_written_back_witness :
  let r := @PyParser_ASTFromStringObject cpython37
             (Runtime.runtime (inr (Arena 1))
                (fun _ _ => Runtime.parse_ok (Node 7) 0x40000) (inr tt))
             (Runtime.bytes_of_string "x = 1") Runtime.fname 257 (Some 0x100)
             (Arena 1) None in
  snd (value r) = Some 0x40100 /\
  In (EvFromNode (Node 7) 0x40100 Runtime.fname (Arena 1)) (events r).
Proof.
  exact (proj2 (@parser_flags_written_back cpython37
                  (Runtime.runtime (inr (Arena 1))
                     (fun _ _ => Runtime.parse_ok (Node 7) 0x40000) (inr tt))
                  (Runtime.bytes_of_string "x = 1") Runtime.fname 257
                  (Some 0x100) (Arena 1) None)
               (Node 7) eq_refl).
Defined.

(** [E_NOMEM]: MemoryError, and no SyntaxError is built. *)
Lemma err_input_early_exits_witness :
  pending (@err_input cpython37 Runtime.world (Runtime.error_of 15) None)
    = Some (PyExc_MemoryError, None) /\
  events (@err_input cpython37 Runtime.world (Runtime.error_of 15) None) = [].
Proof.
  apply (@err_input_early_exits cpython37 Runtime.world (Runtime.error_of 15)
           None cpython37_case_labels).
  right. right. reflexivity.
Defined.

Lemma parse_failure_sets_exception_witness :
  let r := @PyParser_ASTFromStringObject cpython37
             (Runtime.runtime (inr (Arena 1))
                (fun _ _ => Runtime.parse_fails Runtime.noteq_error) (inr tt))
             (Runtime.bytes_of_string "1 != 2") Runtime.fname 257 (Some 0x100)
             (Arena 1) None in
  fst (value r) = None /\ pending r <> None.
Proof.
  apply (@parse_failure_sets_exception cpython37
           (Runtime.runtime (inr (Arena 1))
              (fun _ _ => Runtime.parse_fails Runtime.noteq_error) (inr tt))
           (Runtime.bytes_of_string "1 != 2") Runtime.fname 257 (Some 0x100)
           (Arena 1) None).
  - reflexivity.
  - intro Hx. discriminate Hx.
Defined.

Lemma unknown_error_code_reported_witness :
  In (EvStderr "error=%d\n" 99)
     (events (@err_input cpython37 Runtime.world (Runtime.error_of 99) None))
  /\
  exists w,
    pending (@err_input cpython37 Runtime.world (Runtime.error_of 99) None)
      = Some (PyExc_SyntaxError, w) /\
    forall o, w = Some o ->
      exists v, o = Tuple_obj [CStr_obj "unknown parsing error"; v].
Proof.
  apply (@unknown_error_code_reported cpython37 Runtime.world
           (Runtime.error_of 99) None).
  intro Hin. vm_compute in Hin.
  repeat (destruct Hin as [Hin|Hin]; [discriminate Hin|]). exact Hin.
Defined.

(** The text of the exception the decoder left becomes the message. *)
Lemma decode_error_message_witness :
  exists o,
    pending (@err_input cpython37 Runtime.world (Runtime.error_of 22)
               (Some (PyExc_Other 1, Some (CStr_obj "bad byte"))))
      = Some (PyExc_SyntaxError, Some o) /\
    diagnostic_of (CStr_obj "bad byte") (Runtime.error_of 22) o.
Proof.
  destruct (@decode_error_message cpython37 Runtime.world
              (Runtime.error_of 22)
              (Some (PyExc_Other 1, Some (CStr_obj "bad byte")))
              cpython37_case_labels eq_refl)
    as ([o|] & Hpending & Hshape & Hbuilt).
  - exists o. split; [exact Hpending|exact (Hshape o eq_refl)].
  - exfalso. apply Hbuilt; [apply runtime_builds|discriminate|reflexivity].
Defined.

Lemma err_input_without_text_witness :
  let evs := events (@err_input cpython37 Runtime.world (Runtime.error_of 14)
                       None) in
  existsb is_decode_event evs = false /\
  forall ty w,
    In (EvSetObject ty (Some w)) evs ->
    exists m fn,
      Some Runtime.fname = Some fn /\
      w = Tuple_obj [m; Tuple_obj [fn; Long_obj 1; Long_obj 0; None_obj]].
Proof.
  apply (@err_input_without_text cpython37 Runtime.world
           (Runtime.error_of 14) None).
  reflexivity.
Defined.

(** An INDENT token where none is expected. *)
Lemma indentation_messages_witness :
  exists o,
    pending (@err_input cpython37 Runtime.world
               {| error := 14; filename := Some Runtime.fname; lineno := 2;
                  offset := 4; text := None; token := 5; expected := -1 |}
               None)
      = Some (PyExc_IndentationError, Some o) /\
    diagnostic_of (CStr_obj "unexpected indent")
      {| error := 14; filename := Some Runtime.fname; lineno := 2;
         offset := 4; text := None; token := 5; expected := -1 |} o.
Proof.
  destruct (@indentation_messages cpython37 Runtime.world
              {| error := 14; filename := Some Runtime.fname; lineno := 2;
                 offset := 4; text := None; token := 5; expected := -1 |}
              None cpython37_case_labels eq_refl "unexpected indent" eq_refl)
    as ([o|] & Hpending & Hshape & Hbuilt).
  - exists o. split; [exact Hpending|exact (Hshape o eq_refl)].
  - exfalso. apply Hbuilt; [apply runtime_builds|discriminate|reflexivity].
Defined.

Lemma text_pipeline_in_order_witness :
  let r := @Py_CompileStringObject cpython37
             (Runtime.runtime (inr (Arena 1))
                (fun _ _ => Runtime.parse_ok (Node 7) 0x40000) (inr tt))
             (Runtime.bytes_of_string "x = 1") Runtime.fname 257 (Some 0x900)
             (-1) None in
  value r = (Some (Code_obj 7), Some 0x40900) /\
  events r =
    [EvArenaNew (Some (Arena 1));
     EvParse (Runtime.bytes_of_string "x = 1") Runtime.fname 257 0x10;
     EvFromNode (Node 7) 0x40900 Runtime.fname (Arena 1);
     EvNodeFree (Node 7);
     EvCompile (Mod 7) Runtime.fname (Some 0x40900) (-1) (Arena 1);
     EvArenaFree (Arena 1)].
Proof.
  exact (@text_pipeline_in_order cpython37
           (Runtime.runtime (inr (Arena 1))
              (fun _ _ => Runtime.parse_ok (Node 7) 0x40000) (inr tt))
           (Runtime.bytes_of_string "x = 1") Runtime.fname 257 0x900 (-1)
           None (Arena 1) (Node 7) (Mod 7) eq_refl eq_refl eq_refl eq_refl).
Defined.

Lemma parser_input_witness :
  exists rest,
    events (@ast37_compile_impl cpython37 Runtime.world None_obj
              (CStr_obj "x + 1") Runtime.fname "eval" 0 1 (-1) None) =
    EvArenaNew (Some (Arena 1))
      :: EvParse (Runtime.bytes_of_string "x + 1") Runtime.fname 258 0x10
      :: rest.
Proof.
  apply (@parser_input cpython37 Runtime.world None_obj (CStr_obj "x + 1")
           Runtime.fname "eval" 0 1 (-1) 1 None
           (Runtime.bytes_of_string "x + 1") (Arena 1)).
  - split; [reflexivity|split; [lia|reflexivity]].
  - reflexivity.
  - reflexivity.
  - intro Hin. cbn in Hin.
    repeat (destruct Hin as [Hin|Hin]; [discriminate Hin|]). exact Hin.
  - reflexivity.
Defined.

Lemma ast_path_in_order_witness :
  let r := @ast37_compile_impl cpython37 Runtime.world None_obj (AST_obj 3)
             Runtime.fname "exec" 0 0 (-1) None in
  value r = Some (Code_obj 3) /\
  pending r = None /\
  events r =
    [EvMergeFlags 0x100;
     EvArenaNew (Some (Arena 1));
     EvObj2mod (AST_obj 3) (Arena 1) 0;
     EvValidate (Mod 3) true;
     EvCompile (Mod 3) Runtime.fname (Some 0x100) (-1) (Arena 1);
     EvArenaFree (Arena 1);
     EvDecref Runtime.fname].
Proof.
  exact (@ast_path_in_order cpython37 Runtime.world None_obj (AST_obj 3)
           Runtime.fname "exec" 0 0 (-1) 0 None (Arena 1)
           cpython37_valid_exec eq_refl eq_refl eq_refl).
Defined.

Lemma ast_source_never_parsed_witness :
  Forall not_text_stage
    (events (@ast37_compile_impl cpython37 Runtime.world None_obj (AST_obj 3)
               Runtime.fname "exec" 0 0 (-1) None)).
Proof.
  apply (@ast_source_never_parsed cpython37 Runtime.world None_obj
           (AST_obj 3) Runtime.fname "exec" 0 0 (-1) None).
  reflexivity.
Defined.

Lemma arena_allocation_failure_witness :
  (let r := @ast37_compile_impl cpython37
              (Runtime.runtime (inl (PyExc_MemoryError, None))
                 (fun _ _ => Runtime.parse_ok (Node 7) 0) (inr tt))
              None_obj (AST_obj 3) Runtime.fname "exec" 0 0 (-1) None in
   value r = None /\ pending r = Some (PyExc_MemoryError, None) /\
   events r = [EvMergeFlags 0x100; EvArenaNew None; EvDecref Runtime.fname])
  /\
  (let r := @ast37_compile_impl cpython37
              (Runtime.runtime (inl (PyExc_MemoryError, None))
                 (fun _ _ => Runtime.parse_ok (Node 7) 0) (inr tt))
              None_obj (Bytes_obj [x61]) Runtime.fname "exec" 0 0 (-1) None in
   value r = None /\ pending r = Some (PyExc_MemoryError, None) /\
   events r = [EvMergeFlags 0x100; EvArenaNew None; EvDecref Runtime.fname]).
Proof.
  split.
  - apply (proj1 (@arena_allocation_failure cpython37
                    (Runtime.runtime (inl (PyExc_MemoryError, None))
                       (fun _ _ => Runtime.parse_ok (Node 7) 0) (inr tt))
                    None_obj (AST_obj 3) Runtime.fname "exec" 0 0 (-1) 0 None
                    (PyExc_MemoryError, None) cpython37_valid_exec eq_refl));
      reflexivity.
  - apply (proj2 (@arena_allocation_failure cpython37
                    (Runtime.runtime (inl (PyExc_MemoryError, None))
                       (fun _ _ => Runtime.parse_ok (Node 7) 0) (inr tt))
                    None_obj (Bytes_obj [x61]) Runtime.fname "exec" 0 0 (-1) 0
                    None (PyExc_MemoryError, None) cpython37_valid_exec
                    eq_refl) [x61]).
    + reflexivity.
    + reflexivity.
    + intro Hin. cbn in Hin.
      repeat (destruct Hin as [Hin|Hin]; [discriminate Hin|]). exact Hin.
Defined.

Lemma ast37_compile_defaults_witness :
  let d := @compile_dispatch cpython37 Runtime.world (CStr_obj "x = 1")
             Runtime.fname 0 0x100 0 (-1) None in
  @ast37_compile cpython37 Runtime.world None_obj
    (inr {| arg_source := CStr_obj "x = 1"; arg_filename := Runtime.fname;
            arg_mode := "exec"; arg_flags := None;
            arg_dont_inherit := None; arg_optimize := None |}) None =
  {| value := value d; pending := pending d;
     events := (EvMergeFlags 0x100 :: events d
                  ++ [EvDecref Runtime.fname])%list |}.
Proof.
  apply (proj2 (@ast37_compile_defaults cpython37 Runtime.world None_obj
                  None)).
  reflexivity.
Defined.
